(** * The /api/ask request gateway of server.js

    A shallow embedding of the route handler [app.post('/api/ask', ...)] of
    [server.js], of the [verifyFirebaseToken] middleware that runs before it,
    and of the JavaScript string and array operations both rely on.

    The repository also keeps two earlier versions of the same server
    (the unnamed source file). The buffered-only one is the buffered path
    of [server.js] up to the wording of two messages and of the system
    prompt. The SSE-only one shares the gate, the input resolution and the
    cleanup pass, but writes raw token lines and answers every failure
    with [processing_failed]; its stream loop is embedded in [Legacy].

    Modelling conventions.
    - JavaScript strings are [string]s of code units below 256 (Latin-1); the
      white space of [trim] and of the regular expression class [\s] is the
      part of the ECMAScript white space set that lies in that range.
    - A body field that the handler trims is a string or is absent
      ([option string]): this is what a multipart form delivers. A JSON
      body that carries a truthy value of another type in such a field
      makes [.trim] throw; that input is outside the model.
    - The external collaborators (speech-to-text, generation, speech
      synthesis, token verification, Firestore) are oracles gathered in the
      record [providers]; every call the handler makes is appended to the
      call log of the [world], next to the state of the HTTP response.
    - [JSON.stringify] and the [data: ...] framing are kept abstract: a
      frame or a JSON body is the object that is serialised. Headers that
      Express sets on its own are not recorded.
    - The [ISO] table is looked up by own keys only. *)

From Stdlib Require Import String Ascii List Bool Arith NArith ZArith Lia.
Import ListNotations.
Open Scope string_scope.

Set Implicit Arguments.

(* ================================================================== *)
(** ** JavaScript strings *)

Module Js.

(** White space of [String.prototype.trim] and of [\s], below 256:
    TAB, LF, VT, FF, CR, SPACE and NO-BREAK SPACE. *)
Definition is_ws (c : ascii) : bool :=
  let n := N_of_ascii c in
  ((9 <=? n) && (n <=? 13) || (n =? 32) || (n =? 160))%N.

(** Line terminators, which [.] of a regular expression refuses. *)
Definition is_line_terminator (c : ascii) : bool :=
  let n := N_of_ascii c in ((n =? 10) || (n =? 13))%N.

Fixpoint ltrim (s : string) : string :=
  match s with
  | EmptyString => EmptyString
  | String c s' => if is_ws c then ltrim s' else s
  end.

Fixpoint rtrim (s : string) : string :=
  match s with
  | EmptyString => EmptyString
  | String c s' =>
      match rtrim s' with
      | EmptyString => if is_ws c then EmptyString else String c EmptyString
      | r => String c r
      end
  end.

(** [s.trim()] *)
Definition trim (s : string) : string := rtrim (ltrim s).

(** Truthiness of a string: every string but the empty one. *)
Definition truthy (s : string) : bool :=
  match s with EmptyString => false | String _ _ => true end.

(** [a || b] on strings. *)
Definition or_else (a b : string) : string := if truthy a then a else b.

(** [o || ''] where [o] is a string or undefined. *)
Definition or_empty (o : option string) : string :=
  match o with Some s => s | None => "" end.

Definition lower_char (c : ascii) : ascii :=
  let n := N_of_ascii c in
  if ((65 <=? n) && (n <=? 90)
      || (192 <=? n) && (n <=? 222) && negb (n =? 215))%N
  then ascii_of_N (n + 32) else c.

(** The ASCII-only case folding of a regular expression with flag [i]
    against a pattern of ASCII letters. *)
Definition lower_ascii_char (c : ascii) : ascii :=
  let n := N_of_ascii c in
  if ((65 <=? n) && (n <=? 90))%N then ascii_of_N (n + 32) else c.

Fixpoint map_chars (f : ascii -> ascii) (s : string) : string :=
  match s with
  | EmptyString => EmptyString
  | String c s' => String (f c) (map_chars f s')
  end.

(** [s.toLowerCase()] *)
Definition toLowerCase : string -> string := map_chars lower_char.

(** [s.includes(pat)] *)
Fixpoint includes (pat s : string) : bool :=
  String.prefix pat s ||
  match s with
  | EmptyString => false
  | String _ s' => includes pat s'
  end.

Fixpoint all_chars (p : ascii -> bool) (s : string) : bool :=
  match s with
  | EmptyString => true
  | String c s' => p c && all_chars p s'
  end.

Fixpoint drop (n : nat) (s : string) : string :=
  match n, s with
  | O, _ => s
  | S n', String _ s' => drop n' s'
  | S _, EmptyString => EmptyString
  end.

(** [Array.prototype.slice(start)] with a single argument: a negative
    [start] counts from the end, and both ends are clamped. *)
Definition slice {A} (start : Z) (l : list A) : list A :=
  let len := Z.of_nat (length l) in
  let k := if (start <? 0)%Z then Z.max (len + start) 0
           else Z.min start len in
  skipn (Z.to_nat k) l.

End Js.

(* ================================================================== *)
(** ** Data *)

(** A chat message [{ role, content }]. *)
Record message := Message { role : string; content : string }.

(** A document added to the [messages] collection of a chat. The
    [createdAt] server timestamp is left out. *)
Record turn := Turn {
  turn_role : string;
  turn_content : string;
  turn_speakLanguage : string;
  turn_answerLanguage : string
}.

(** A thrown value, seen through the three ways the handler reads it:
    [err.error.message], [err.message] and [String(err)]. An absent
    message is the empty string, which [||] treats the same way. *)
Record exn := Exn {
  err_error_message : string;
  err_message : string;
  err_string : string
}.

(** [body.history]: absent (or falsy), a string [JSON.parse] rejects, a
    value that is not an array, or an array (given directly or as JSON
    text). *)
Inductive history_field :=
| HistoryAbsent
| HistoryMalformed
| HistoryNotArray
| HistoryArray (items : list message).

(** A text field of the body as [multer] or [express.json] delivers it:
    absent (or falsy, which [||] treats the same way), a string, or any
    other truthy value. A form field sent twice arrives as an array, and
    a JSON body may hold a number, an object or [true]. *)
Inductive field :=
| FieldAbsent
| FieldText (s : string)
| FieldOther.

(** A field that is a string, or absent. *)
Definition field_of (o : option string) : field :=
  match o with Some s => FieldText s | None => FieldAbsent end.

(** The string of a field, empty when there is none. *)
Definition field_text (v : field) : string :=
  match v with FieldText s => s | FieldAbsent | FieldOther => "" end.

(** The four fields the handler trims. *)
Inductive text_field := AnswerLanguage | SpeakLanguage | ConversationId | Uid.

Definition field_name (f : text_field) : string :=
  match f with
  | AnswerLanguage => "answerLanguage"
  | SpeakLanguage => "speakLanguage"
  | ConversationId => "conversationId"
  | Uid => "uid"
  end.

Record body := Body {
  body_answerLanguage : field;
  body_speakLanguage : field;
  body_conversationId : field;
  body_uid : field;
  body_history : history_field;
  body_text : option string   (* [None]: absent or not a string *)
}.

(** [req.file] as multer's memory storage leaves it. *)
Record upload := Upload {
  buffer : option (list Byte.byte);
  size : N
}.

(** The decoded identity token. *)
Record decoded := Decoded { decoded_uid : string }.

Record request := Request {
  query_stream : option string;
  header_accept : option string;
  header_origin : option string;
  header_authorization : option string;
  req_body : body;
  file : option upload;
  firebaseUser : option decoded
}.

(** Process-wide configuration read at start-up. *)
Record config := Config {
  adminApp : bool;            (* Firebase Admin initialised *)
  STT_MODEL : string;
  CLEAN_TRANSCRIPT : bool
}.

(** [String(process.env.CLEAN_TRANSCRIPT || "false").toLowerCase() === "true"] *)
Definition clean_transcript_of_env (v : option string) : bool :=
  Js.toLowerCase (Js.or_else (Js.or_empty v) "false") =? "true".

(** [process.env.STT_MODEL || "whisper-1"] *)
Definition stt_model_of_env (v : option string) : string :=
  Js.or_else (Js.or_empty v) "whisper-1".

(** A streamed completion chunk, reduced to
    [chunk?.choices?.[0]?.delta?.content]. *)
Definition chunk := option string.

(** What the async iterator of a streamed completion does: it yields
    chunks and then either finishes or throws. *)
Record completion_stream := Stream {
  chunks : list chunk;
  failure : option exn
}.

(** One SSE frame, before [JSON.stringify]. *)
Inductive frame :=
| FrameDelta (delta : string)
| FrameMessageEnd
| FrameTts (audioBase64 : string)
| FrameTtsError (msg : string)
| FrameWarn (msg : string)
| FrameDone (transcript text : string)
| FrameError (msg : string)                      (* { type, message } *)
| FrameRejected (error msg : string).            (* { type, error, message } *)

(** The object handed to [res.json]. *)
Inductive json_body :=
| JsonError (error msg : string)
| JsonAnswer (conversationId transcript text audioBase64 : string).

Inductive payload :=
| Data (f : frame)          (* res.write(`data: ${JSON.stringify(f)}\n\n`) *)
| Json (b : json_body).     (* res.json(b) *)

(** The HTTP response under construction. *)
Record response := Response {
  statusCode : N;
  headers : list (string * string);
  flushed : bool;
  sent : list payload;
  ended : bool
}.

(** The value of [ISO[name]] when there is one: the code of a language of
    the table, or the member of [Object.prototype] the name reaches
    through the prototype chain of the object literal. *)
Inductive language_hint :=
| IsoCode (code : string)
| PrototypeMember (name : string).

(** A call to an external collaborator. *)
Inductive call :=
| CallTranscribe (audio : list Byte.byte) (model : string)
                 (language : option language_hint) (prompt : string)
| CallCleanup (input : list message)
| CallResponses (input : list message)
| CallChatStream (messages : list message)
| CallSpeech (input : string)
| CallFirestoreSet (uid conversationId : string)
| CallFirestoreAdd (uid conversationId : string) (t : turn).

(** The external collaborators. [transcribe] returns [stt.text] and
    [responses_create] returns [output_text], both empty when absent;
    [speech] returns the synthesised audio already base64-encoded. *)
Record providers := Providers {
  verifyIdToken : string -> exn + decoded;
  transcribe : list Byte.byte -> string -> option language_hint -> string
               -> exn + string;
  responses_create : list message -> exn + string;
  chat_stream : list message -> exn + completion_stream;
  speech : string -> exn + string;
  firestore_set : string -> string -> option exn;
  firestore_add : string -> string -> turn -> option exn
}.

Record world := World {
  calls : list call;
  res : response
}.

(** The response as the handler counts on it: nothing sent, status 200,
    and no header of the handler's own. The headers the [cors] and
    [Vary] middleware have set by then are left out here; [run_from]
    takes them in. *)
Definition fresh_response : response :=
  {| statusCode := 200; headers := []; flushed := false; sent := [];
     ended := false |}.

Definition fresh : world := {| calls := []; res := fresh_response |}.

(* ================================================================== *)
(** ** Effects: a state and exception monad over the world *)

Inductive result (A : Type) :=
| Return (a : A)
| Throw (e : exn).
Arguments Throw {A} e.

Definition M (A : Type) : Type := world -> result A * world.

Definition ret {A} (a : A) : M A := fun w => (Return a, w).

Definition bind {A B} (m : M A) (k : A -> M B) : M B :=
  fun w => match m w with
           | (Return a, w') => k a w'
           | (Throw e, w') => (Throw e, w')
           end.

Definition throw {A} (e : exn) : M A := fun w => (Throw e, w).

(** [try { m } catch (e) { h e }] *)
Definition try_catch {A} (m : M A) (h : exn -> M A) : M A :=
  fun w => match m w with
           | (Return a, w') => (Return a, w')
           | (Throw e, w') => h e w'
           end.

(** [try { m } finally { f }] *)
Definition try_finally {A} (m : M A) (f : M unit) : M A :=
  fun w => match m w with
           | (r, w') => match f w' with
                        | (Return _, w'') => (r, w'')
                        | (Throw e, w'') => (Throw e, w'')
                        end
           end.

Declare Scope js_scope.
Delimit Scope js_scope with js.
Notation "x <- m ;; k" := (bind m (fun x => k))
  (at level 61, m at next level, right associativity) : js_scope.
Notation "m ;; k" := (bind m (fun _ => k))
  (at level 61, right associativity) : js_scope.
Open Scope js_scope.

(** [await] of a call to a collaborator: the call is logged, and its
    outcome is a value or a thrown error. *)
Definition await {A} (c : call) (outcome : exn + A) : M A :=
  fun w => (match outcome with inl e => Throw e | inr a => Return a end,
            {| calls := calls w ++ [c]; res := res w |}).

Definition await_unit (c : call) (outcome : option exn) : M unit :=
  await c (match outcome with Some e => inl e | None => inr tt end).

Definition on_res (f : response -> response) : M unit :=
  fun w => (Return tt, {| calls := calls w; res := f (res w) |}).

(** [res.statusCode = code], [res.status(code)] *)
Definition status (code : N) : M unit :=
  on_res (fun r => {| statusCode := code; headers := headers r;
                      flushed := flushed r; sent := sent r;
                      ended := ended r |}).

(** A header list after [name] has been set to [value]. *)
Definition set_header (name value : string) (hs : list (string * string))
  : list (string * string) :=
  (filter (fun h => negb (fst h =? name)) hs ++ [(name, value)])%list.

(** [res.setHeader(name, value)] *)
Definition setHeader (name value : string) : M unit :=
  on_res (fun r =>
    {| statusCode := statusCode r;
       headers := set_header name value (headers r);
       flushed := flushed r; sent := sent r; ended := ended r |}).

(** [res.flushHeaders?.()] *)
Definition flushHeaders : M unit :=
  on_res (fun r => {| statusCode := statusCode r; headers := headers r;
                      flushed := true; sent := sent r; ended := ended r |}).

Definition write (p : payload) : M unit :=
  on_res (fun r => {| statusCode := statusCode r; headers := headers r;
                      flushed := true; sent := sent r ++ [p];
                      ended := ended r |}).

(** [res.end()] *)
Definition end_ : M unit :=
  on_res (fun r => {| statusCode := statusCode r; headers := headers r;
                      flushed := true; sent := sent r; ended := true |}).

(** [res.json(b)] *)
Definition json (b : json_body) : M unit := write (Json b) ;; end_.

(** [send(obj)] of the streaming branch *)
Definition send (f : frame) : M unit := write (Data f).

(** [endWith(obj)]: [try { send(obj) } finally { res.end() }] *)
Definition endWith (f : frame) : M unit := try_finally (send f) end_.

(* ================================================================== *)
(** ** Constants of the module *)

Definition allowedOrigins : list string :=
  [ "https://elearning-for-kids.onrender.com";
    "http://localhost:3000";
    "http://localhost:5173" ].

Definition ISO : list (string * string) :=
  [ ("English", "en"); ("Hindi", "hi"); ("Tamil", "ta"); ("Telugu", "te");
    ("Kannada", "kn"); ("Malayalam", "ml"); ("Marathi", "mr");
    ("Gujarati", "gu"); ("Bengali", "bn"); ("Punjabi", "pa");
    ("Panjabi", "pa") ].

(** The own property [name] of an object literal. *)
Fixpoint own_property (table : list (string * string)) (name : string)
  : option string :=
  match table with
  | [] => None
  | (k, v) :: rest => if k =? name then Some v else own_property rest name
  end.

(** The property names of [Object.prototype]: every one of them holds a
    function or an object, so a truthy value. *)
Definition object_prototype : list string :=
  [ "constructor"; "__defineGetter__"; "__defineSetter__"; "hasOwnProperty";
    "__lookupGetter__"; "__lookupSetter__"; "isPrototypeOf";
    "propertyIsEnumerable"; "toString"; "valueOf"; "__proto__";
    "toLocaleString" ].

(** [ISO[name] || undefined]: the own property when the table has one
    (every code is a non-empty string), else what the prototype chain
    gives. *)
Definition iso_lookup (table : list (string * string)) (name : string)
  : option language_hint :=
  match own_property table name with
  | Some code => Some (IsoCode code)
  | None =>
      if existsb (String.eqb name) object_prototype
      then Some (PrototypeMember name) else None
  end.

Definition MAX_TURNS : Z := 6.

(** The minimum size of a recording, in bytes. *)
Definition MIN_AUDIO_BYTES : N := 5000.

(* ================================================================== *)
(** ** The middleware and the route handler *)

Section Gateway.

Variable cfg : config.
Variable P : providers.

(** The match of [authHdr] against the pattern of the middleware
    (the word Bearer in any case at the start, one or more white space
    characters, then a captured rest up to the end), reduced to the
    captured group. The greedy white space run takes all the white
    space; the captured rest then has to reach the end of the header
    without meeting a line terminator. *)
Definition bearer_token (authHdr : string) : option string :=
  if String.prefix "bearer"
       (Js.map_chars Js.lower_ascii_char authHdr) then
    match Js.drop 6 authHdr with
    | String c rest =>
        if Js.is_ws c then
          let token := Js.ltrim rest in
          if Js.all_chars (fun x => negb (Js.is_line_terminator x)) token
          then Some token else None
        else None
    | EmptyString => None
    end
  else None.

Definition with_user (req : request) (u : option decoded) : request :=
  {| query_stream := query_stream req;
     header_accept := header_accept req;
     header_origin := header_origin req;
     header_authorization := header_authorization req;
     req_body := req_body req;
     file := file req;
     firebaseUser := u |}.

(** [verifyFirebaseToken]: it never fails the request; what it leaves in
    [req.firebaseUser] is the decoded token or [null]. *)
Definition verifyFirebaseToken (req : request) : request :=
  let authHdr := Js.or_empty (header_authorization req) in
  match bearer_token authHdr with
  | Some token =>
      if adminApp cfg then
        match verifyIdToken P token with
        | inr d => with_user req (Some d)
        | inl _ => with_user req None
        end
      else with_user req None
  | None => with_user req None
  end.

(** [String(req.query.stream || '').trim() === '1' ||
     /text\/event-stream/i.test(req.headers.accept || '')] *)
Definition wantsStream (req : request) : bool :=
  (Js.trim (Js.or_empty (query_stream req)) =? "1")
  || Js.includes "text/event-stream"
       (Js.map_chars Js.lower_ascii_char (Js.or_empty (header_accept req))).

(** The CORS echo at the top of the handler. *)
Definition cors_echo (req : request) : M unit :=
  match header_origin req with
  | Some origin =>
      if Js.truthy origin && existsb (String.eqb origin) allowedOrigins then
        setHeader "Access-Control-Allow-Origin" origin ;;
        setHeader "Access-Control-Allow-Headers" "Content-Type, Authorization" ;;
        setHeader "Access-Control-Allow-Methods" "GET,POST,OPTIONS" ;;
        setHeader "Access-Control-Allow-Credentials" "true"
      else ret tt
  | None => ret tt
  end.

Definition sse_headers : M unit :=
  setHeader "Content-Type" "text/event-stream; charset=utf-8" ;;
  setHeader "Cache-Control" "no-cache, no-transform" ;;
  setHeader "Connection" "keep-alive" ;;
  flushHeaders.

(** [sseError(res, code, error, message)] *)
Definition sseError (code : N) (error msg : string) : M unit :=
  status code ;;
  sse_headers ;;
  write (Data (FrameRejected error msg)) ;;
  end_.

(** [wantsStream ? sseError(res, code, error, message)
                 : res.status(code).json({ error, message })] *)
Definition reject (stream : bool) (code : N) (error msg : string)
  : M unit :=
  if stream then sseError code error msg
  else status code ;; json (JsonError error msg).

(** The parsed [clientHistory]. *)
Definition clientHistory (b : body) : list message :=
  match body_history b with
  | HistoryArray items => items
  | HistoryAbsent | HistoryMalformed | HistoryNotArray => []
  end.

(** [uid && req.firebaseUser && req.firebaseUser.uid &&
     uid !== req.firebaseUser.uid] *)
Definition uid_mismatch (uid : string) (user : option decoded) : bool :=
  match user with
  | Some d =>
      Js.truthy uid && Js.truthy (decoded_uid d)
      && negb (uid =? decoded_uid d)
  | None => false
  end.

(** [req.file && req.file.buffer && req.file.size >= 5000]: the
    recording that goes to transcription, if any. *)
Definition qualifying_audio (req : request) : option (list Byte.byte) :=
  match file req with
  | Some f =>
      match buffer f with
      | Some bytes => if (MIN_AUDIO_BYTES <=? size f)%N then Some bytes
                      else None
      | None => None
      end
  | None => None
  end.

(** [body.text && typeof body.text === 'string' && body.text.trim()] *)
Definition qualifying_text (b : body) : option string :=
  match body_text b with
  | Some t => if Js.truthy (Js.trim t) then Some (Js.trim t) else None
  | None => None
  end.

Definition stt_prompt (speakLanguage : string) : string :=
  "This is a child speaking " ++ speakLanguage
  ++ " about school topics. Keep output in " ++ speakLanguage ++ ".".

Definition cleanup_input (speakLanguage userText : string)
  : list message :=
  [ Message "system"
      ("Fix obvious transcription errors in " ++ speakLanguage
       ++ " child speech. Return only the corrected text.");
    Message "user" userText ].

Definition systemPrompt (answerLanguage : string) : string :=
  "You are a " ++ answerLanguage
  ++ " kids e-learning helper for Indian kids. "
  ++ "Use very simple words, short sentences, warm tone. "
  ++ "Use chat history for continuity and clarify doubts with tiny examples. "
  ++ "Avoid adult/harmful content. Always answer in " ++ answerLanguage
  ++ ".".

(** [clientHistory.slice(-MAX_TURNS * 2)] *)
Definition safeHistory (history : list message) : list message :=
  Js.slice (- MAX_TURNS * 2) history.

(** [messages] *)
Definition compose (answerLanguage : string) (history : list message)
           (userText : string) : list message :=
  Message "system" (systemPrompt answerLanguage)
  :: safeHistory history ++ [Message "user" userText].

(** The three dependent Firestore writes. *)
Definition write_history (uid conversationId userText assistantText
                          speakLanguage answerLanguage : string)
  : M unit :=
  await_unit (CallFirestoreSet uid conversationId)
             (firestore_set P uid conversationId) ;;
  (let t := Turn "user" userText speakLanguage answerLanguage in
   await_unit (CallFirestoreAdd uid conversationId t)
              (firestore_add P uid conversationId t)) ;;
  (let t := Turn "assistant" assistantText speakLanguage answerLanguage in
   await_unit (CallFirestoreAdd uid conversationId t)
              (firestore_add P uid conversationId t)).

(** [for await (const chunk of stream) { ... }], threading
    [fullAssistantText] through the iterations. *)
Fixpoint for_await (cs : list chunk) (fullAssistantText : string)
  : M string :=
  match cs with
  | [] => ret fullAssistantText
  | c :: rest =>
      let token := Js.or_empty c in
      if Js.truthy token then
        send (FrameDelta token) ;;
        for_await rest (fullAssistantText ++ token)
      else for_await rest fullAssistantText
  end.

(** The streaming branch, from the SSE headers to the [return]. *)
Definition streaming (uid conversationId speakLanguage answerLanguage
                      userText : string) (messages : list message)
  : M unit :=
  sse_headers ;;
  try_catch
    (stream <- await (CallChatStream messages) (chat_stream P messages) ;;
     fullAssistantText <- for_await (chunks stream) "" ;;
     (match failure stream with
      | Some e => throw e
      | None => ret tt
      end) ;;
     send FrameMessageEnd ;;
     try_catch
       (base64Audio <- await (CallSpeech fullAssistantText)
                             (speech P fullAssistantText) ;;
        if Js.truthy base64Audio then send (FrameTts base64Audio)
        else ret tt)
       (fun ttsErr =>
          send (FrameTtsError
                  (Js.or_else (err_message ttsErr) (err_string ttsErr)))) ;;
     (if adminApp cfg && Js.truthy uid then
        try_catch
          (write_history uid conversationId userText fullAssistantText
                         speakLanguage answerLanguage)
          (fun _ => send (FrameWarn "history_write_failed"))
      else ret tt) ;;
     endWith (FrameDone userText fullAssistantText))
    (fun err =>
       endWith (FrameError
                  (Js.or_else (err_message err) "processing_failed"))).

(** The buffered branch, from the generation call to [res.json]. *)
Definition buffered (uid conversationId speakLanguage answerLanguage
                     userText : string) (messages : list message)
  : M unit :=
  output_text <- await (CallResponses messages)
                       (responses_create P messages) ;;
  let assistantText := Js.trim output_text in
  base64Audio <- try_catch
                   (await (CallSpeech assistantText)
                          (speech P assistantText))
                   (fun _ => ret "") ;;
  (if adminApp cfg && Js.truthy uid then
     try_catch
       (write_history uid conversationId userText assistantText
                      speakLanguage answerLanguage)
       (fun _ => ret tt)
   else ret tt) ;;
  json (JsonAnswer conversationId userText assistantText base64Audio).

(** The optional transcript cleanup. *)
Definition cleanup (speakLanguage userText : string) : M string :=
  if CLEAN_TRANSCRIPT cfg && Js.truthy userText then
    output_text <- await (CallCleanup (cleanup_input speakLanguage userText))
                         (responses_create P
                            (cleanup_input speakLanguage userText)) ;;
    ret (Js.trim (Js.or_else output_text userText))
  else ret userText.

(** Everything after the input text is known. *)
Definition respond (stream : bool) (req : request)
           (uid conversationId speakLanguage answerLanguage
            userText : string) : M unit :=
  userText <- cleanup speakLanguage userText ;;
  let messages :=
    compose answerLanguage (clientHistory (req_body req)) userText in
  if stream then
    streaming uid conversationId speakLanguage answerLanguage userText
              messages
  else
    buffered uid conversationId speakLanguage answerLanguage userText
             messages.

(** The two characters V8 prints for an empty string literal. *)
Definition empty_literal : string :=
  String (ascii_of_nat 34) (String (ascii_of_nat 34) EmptyString).

(** The [TypeError] of [(body.f || '').trim()] on a truthy value that is
    not a string, with a message in the wording of V8. It has no
    [error] property. *)
Definition not_a_function (f : text_field) : exn :=
  let msg := "(body." ++ field_name f ++ " || " ++ empty_literal
             ++ ").trim is not a function" in
  {| err_error_message := ""; err_message := msg;
     err_string := "TypeError: " ++ msg |}.

(** [(body.f || '').trim()] *)
Definition trimmed (f : text_field) (v : field) : M string :=
  match v with
  | FieldOther => throw (not_a_function f)
  | FieldAbsent | FieldText _ => ret (Js.trim (field_text v))
  end.

(** The [catch] of the outer [try]. *)
Definition outer_catch (err : exn) : M unit :=
  let msg :=
    Js.toLowerCase
      (Js.or_else (err_error_message err) (Js.or_else (err_message err) ""))
  in
  if Js.includes "shorter than" msg || Js.includes "too short" msg then
    status 400 ;;
    json (JsonError "audio_too_short"
                    "Audio too short. Please record at least 1 second.")
  else if Js.includes "invalid" msg && Js.includes "language" msg then
    status 400 ;;
    json (JsonError "invalid_language" "Unsupported language code.")
  else
    status 500 ;;
    json (JsonError "processing_failed"
                    "Something went wrong while processing input.").

(** The outer [try { ... } catch (err) { ... }] of the handler. *)
Definition attempt (req : request) : M unit :=
  let stream := wantsStream req in
  try_catch
    (let b := req_body req in
     answerLanguage <- trimmed AnswerLanguage (body_answerLanguage b) ;;
     speakLanguage <- trimmed SpeakLanguage (body_speakLanguage b) ;;
     conversationId <- trimmed ConversationId (body_conversationId b) ;;
     uid <- trimmed Uid (body_uid b) ;;
     if negb (Js.truthy conversationId) then
       reject stream 400 "missing_conversation" "No conversationId."
     else if negb (Js.truthy answerLanguage)
             || negb (Js.truthy speakLanguage) then
       reject stream 400 "missing_language"
              "Please select both Speaking and Answer languages."
     else if uid_mismatch uid (firebaseUser req) then
       reject stream 401 "unauthenticated" "UID does not match."
     else
       match qualifying_audio req with
       | Some bytes =>
           text <- await (CallTranscribe bytes (STT_MODEL cfg)
                            (iso_lookup ISO speakLanguage)
                            (stt_prompt speakLanguage))
                         (transcribe P bytes (STT_MODEL cfg)
                            (iso_lookup ISO speakLanguage)
                            (stt_prompt speakLanguage)) ;;
           respond stream req uid conversationId speakLanguage
                   answerLanguage (Js.trim text)
       | None =>
           match qualifying_text b with
           | Some userText =>
               respond stream req uid conversationId speakLanguage
                       answerLanguage userText
           | None =>
               reject stream 400 "no_input"
                      "No valid audio or text provided."
           end
       end)
    outer_catch.

(** The route handler of [POST /api/ask]: the CORS echo, then the outer
    [try]. *)
Definition handler (req : request) : M unit :=
  cors_echo req ;; attempt req.

(** The world a request leaves behind, its headers being those the
    handler sets. *)
Definition run (req : request) : world := snd (handler req fresh).

(** Middleware, then handler. *)
Definition serve (req : request) : world := run (verifyFirebaseToken req).

End Gateway.

(* ================================================================== *)
(** ** The stream loop of the earlier SSE-only server *)

Module Legacy.

(** What has been written to the response, and whether it has ended. *)
Record channel := Channel {
  written : list string;
  finished : bool
}.

Definition opened : channel := {| written := []; finished := false |}.

Definition newline : string := String (ascii_of_nat 10) EmptyString.

(** [`data: ${text}\n\n`] *)
Definition data_line (text : string) : string :=
  "data: " ++ text ++ newline ++ newline.

Definition res_write (line : string) (ch : channel) : channel :=
  {| written := (written ch ++ [line])%list; finished := finished ch |}.

Definition res_end (ch : channel) : channel :=
  {| written := written ch; finished := true |}.

(** [for await (const chunk of stream) { ... }]: every chunk is written,
    whether its token is empty or not. *)
Fixpoint for_await (cs : list chunk) (fullAssistantText : string)
         (ch : channel) : string * channel :=
  match cs with
  | [] => (fullAssistantText, ch)
  | c :: rest =>
      let token := Js.or_empty c in
      for_await rest (fullAssistantText ++ token)
                (res_write (data_line token) ch)
  end.

(** The loop, then [res.write("data: [END]\n\n"); res.end()]. *)
Definition stream_reply (cs : list chunk) (ch : channel)
  : string * channel :=
  let '(fullAssistantText, ch') := for_await cs "" ch in
  (fullAssistantText, res_end (res_write (data_line "[END]") ch')).

End Legacy.

(* ================================================================== *)
(** ** Observations of a finished request *)

Definition frame_of (p : payload) : option frame :=
  match p with Data f => Some f | Json _ => None end.

Definition json_of (p : payload) : option json_body :=
  match p with Json b => Some b | Data _ => None end.

Fixpoint somes {A B} (f : A -> option B) (l : list A) : list B :=
  match l with
  | [] => []
  | a :: l' => match f a with Some b => b :: somes f l' | None => somes f l' end
  end.

(** The SSE frames written to the channel, in order. *)
Definition frames (w : world) : list frame := somes frame_of (sent (res w)).

(** The JSON bodies sent, in order. *)
Definition bodies (w : world) : list json_body := somes json_of (sent (res w)).

Definition http_status (w : world) : N := statusCode (res w).

Definition closed (w : world) : bool := ended (res w).

(** [tokens.join('')] *)
Definition join (l : list string) : string := fold_right append "" l.

(** The token of a chunk: [content || '']. *)
Definition tokens_of (cs : list chunk) : list string := map Js.or_empty cs.

(* ================================================================== *)
(** ** The paths of the handler

    The definitions of this part describe, path by path, the world a
    request leaves behind; the lemmas that follow prove that the handler
    produces exactly these worlds. *)

(** The world when the outer [try] is entered: nothing called, nothing
    sent, and the headers of the CORS echo, if any. *)
Definition started (hs : list (string * string)) : world :=
  {| calls := [];
     res := {| statusCode := 200; headers := hs; flushed := false;
               sent := []; ended := false |} |}.

(** The headers the CORS echo leaves. *)
Definition echoed_headers (req : request) : list (string * string) :=
  headers (res (snd (cors_echo req fresh))).

(** The world after further calls have been logged. *)
Definition logged (w : world) (cs : list call) : world :=
  {| calls := (calls w ++ cs)%list; res := res w |}.

(** The world after a reply has been written and the response ended. *)
Definition replied (w : world) (code : N) (hs : list (string * string))
           (ps : list payload) : world :=
  {| calls := calls w;
     res := {| statusCode := code; headers := hs; flushed := true;
               sent := (sent (res w) ++ ps)%list; ended := true |} |}.

(** The headers once the SSE headers have been set. *)
Definition sse_header_list (hs : list (string * string))
  : list (string * string) :=
  set_header "Connection" "keep-alive"
    (set_header "Cache-Control" "no-cache, no-transform"
       (set_header "Content-Type" "text/event-stream; charset=utf-8" hs)).

(** How a rejection travels: an error frame on the event stream, or a
    JSON body. *)
Definition rejection (stream : bool) (error msg : string) : payload :=
  if stream then Data (FrameRejected error msg)
  else Json (JsonError error msg).

(** The remapping of a failure, in the words of the specification: the
    message is searched for known substrings, and everything unrecognised
    collapses to [processing_failed]. *)
Definition remap (msg : string) : N * string * string :=
  if Js.includes "shorter than" msg || Js.includes "too short" msg then
    (400%N, "audio_too_short",
     "Audio too short. Please record at least 1 second.")
  else if Js.includes "invalid" msg && Js.includes "language" msg then
    (400%N, "invalid_language", "Unsupported language code.")
  else
    (500%N, "processing_failed",
     "Something went wrong while processing input.").

(** The text the outer [catch] inspects. *)
Definition inspected (err : exn) : string :=
  Js.toLowerCase
    (Js.or_else (err_error_message err) (Js.or_else (err_message err) "")).

(** The Firestore writes a request issues, and the error that stops
    them, if any. *)
Definition history_writes (P : providers)
           (uid conversationId userText assistantText
            speakLanguage answerLanguage : string)
  : list call * option exn :=
  let c1 := CallFirestoreSet uid conversationId in
  let t2 := Turn "user" userText speakLanguage answerLanguage in
  let t3 := Turn "assistant" assistantText speakLanguage answerLanguage in
  match firestore_set P uid conversationId with
  | Some e => ([c1], Some e)
  | None =>
      match firestore_add P uid conversationId t2 with
      | Some e => ([c1; CallFirestoreAdd uid conversationId t2], Some e)
      | None =>
          ([c1; CallFirestoreAdd uid conversationId t2;
            CallFirestoreAdd uid conversationId t3],
           firestore_add P uid conversationId t3)
      end
  end.

(** The guarded persistence block [if (adminApp && uid) { try ... }]:
    the calls it makes and whether its [catch] ran. *)
Definition persistence (cfg : config) (P : providers)
           (uid conversationId userText assistantText
            speakLanguage answerLanguage : string)
  : list call * bool :=
  if adminApp cfg && Js.truthy uid then
    let '(cs, err) :=
      history_writes P uid conversationId userText assistantText
                     speakLanguage answerLanguage in
    (cs, match err with Some _ => true | None => false end)
  else ([], false).

Definition synthesis_frames (o : exn + string) : list frame :=
  match o with
  | inr base64Audio =>
      if Js.truthy base64Audio then [FrameTts base64Audio] else []
  | inl ttsErr =>
      [FrameTtsError (Js.or_else (err_message ttsErr) (err_string ttsErr))]
  end.

(** The terminal frame of the [catch] of the streaming branch. *)
Definition stream_error_frame (err : exn) : frame :=
  FrameError (Js.or_else (err_message err) "processing_failed").

Definition delta_frames (cs : list chunk) : list frame :=
  map FrameDelta (filter Js.truthy (tokens_of cs)).

(** The world the streaming branch leaves behind. *)
Definition streamed (cfg : config) (P : providers)
           (uid conv sl al u : string) (msgs : list message) (w : world)
  : world :=
  let hs := sse_header_list (headers (res w)) in
  let code := statusCode (res w) in
  match chat_stream P msgs with
  | inl e =>
      replied (logged w [CallChatStream msgs]) code hs
              [Data (stream_error_frame e)]
  | inr s =>
      let text := join (tokens_of (chunks s)) in
      match failure s with
      | Some e =>
          replied (logged w [CallChatStream msgs]) code hs
                  (map Data (delta_frames (chunks s)
                             ++ [stream_error_frame e]))
      | None =>
          let p := persistence cfg P uid conv u text sl al in
          replied (logged w (CallChatStream msgs :: CallSpeech text :: fst p))
                  code hs
                  (map Data
                     (delta_frames (chunks s)
                      ++ [FrameMessageEnd]
                      ++ synthesis_frames (speech P text)
                      ++ (if snd p then [FrameWarn "history_write_failed"]
                          else [])
                      ++ [FrameDone u text]))
      end
  end%list.

(** The world the outer [catch] leaves behind. *)
Definition caught (w : world) (err : exn) : world :=
  let '(code, kind, msg) := remap (inspected err) in
  replied w code (headers (res w)) [Json (JsonError kind msg)].

(** The audio of the buffered reply. *)
Definition buffered_audio (o : exn + string) : string :=
  match o with inr base64Audio => base64Audio | inl _ => "" end.

(** The world after generation, in either mode. *)
Definition generated (cfg : config) (P : providers) (stream : bool)
           (uid conv sl al u : string) (msgs : list message) (w : world)
  : world :=
  if stream then streamed cfg P uid conv sl al u msgs w
  else
    match responses_create P msgs with
    | inl e => caught (logged w [CallResponses msgs]) e
    | inr o =>
        let a := Js.trim o in
        let p := persistence cfg P uid conv u a sl al in
        replied (logged w (CallResponses msgs :: CallSpeech a :: fst p))
                (statusCode (res w)) (headers (res w))
                [Json (JsonAnswer conv u a (buffered_audio (speech P a)))]
    end.

(** The world after the input text [u0] is known. *)
Definition responded (cfg : config) (P : providers) (stream : bool)
           (req : request) (uid conv sl al u0 : string) (w : world)
  : world :=
  let history := clientHistory (req_body req) in
  if CLEAN_TRANSCRIPT cfg && Js.truthy u0 then
    match responses_create P (cleanup_input sl u0) with
    | inl e => caught (logged w [CallCleanup (cleanup_input sl u0)]) e
    | inr o =>
        let u := Js.trim (Js.or_else o u0) in
        generated cfg P stream uid conv sl al u (compose al history u)
                  (logged w [CallCleanup (cleanup_input sl u0)])
    end
  else generated cfg P stream uid conv sl al u0 (compose al history u0) w.

(** The first of the four trimmed fields, in the order the handler reads
    them, that holds a truthy value other than a string. *)
Definition unreadable (b : body) : option text_field :=
  match body_answerLanguage b with
  | FieldOther => Some AnswerLanguage
  | _ =>
      match body_speakLanguage b with
      | FieldOther => Some SpeakLanguage
      | _ =>
          match body_conversationId b with
          | FieldOther => Some ConversationId
          | _ =>
              match body_uid b with
              | FieldOther => Some Uid
              | _ => None
              end
          end
      end
  end.

(** The world a request leaves behind once its four fields have been
    read as [al], [sl], [conv] and [uid], path by path. *)
Definition checked (cfg : config) (P : providers) (req : request)
           (hs : list (string * string)) (al sl conv uid : string)
  : world :=
  let stream := wantsStream req in
  let b := req_body req in
  let refused code error msg :=
    replied (started hs) code
            (if stream then sse_header_list hs else hs)
            [rejection stream error msg] in
  if negb (Js.truthy conv) then
    refused 400%N "missing_conversation" "No conversationId."
  else if negb (Js.truthy al) || negb (Js.truthy sl) then
    refused 400%N "missing_language"
            "Please select both Speaking and Answer languages."
  else if uid_mismatch uid (firebaseUser req) then
    refused 401%N "unauthenticated" "UID does not match."
  else
    match qualifying_audio req with
    | Some bytes =>
        let c := CallTranscribe bytes (STT_MODEL cfg) (iso_lookup ISO sl)
                                (stt_prompt sl) in
        match transcribe P bytes (STT_MODEL cfg) (iso_lookup ISO sl)
                         (stt_prompt sl) with
        | inl e => caught (logged (started hs) [c]) e
        | inr text =>
            responded cfg P stream req uid conv sl al (Js.trim text)
                      (logged (started hs) [c])
        end
    | None =>
        match qualifying_text b with
        | Some u0 =>
            responded cfg P stream req uid conv sl al u0 (started hs)
        | None =>
            refused 400%N "no_input" "No valid audio or text provided."
        end
    end.

(** The world a request whose four fields can be trimmed leaves
    behind. *)
Definition gated (cfg : config) (P : providers) (req : request)
           (hs : list (string * string)) : world :=
  let b := req_body req in
  checked cfg P req hs
    (Js.trim (field_text (body_answerLanguage b)))
    (Js.trim (field_text (body_speakLanguage b)))
    (Js.trim (field_text (body_conversationId b)))
    (Js.trim (field_text (body_uid b))).

(** The world a whole request leaves behind: a field that cannot be
    trimmed sends the request to the outer [catch] before any check. *)
Definition outcome (cfg : config) (P : providers) (req : request)
           (hs : list (string * string)) : world :=
  match unreadable (req_body req) with
  | Some f => caught (started hs) (not_a_function f)
  | None => gated cfg P req hs
  end.

(* ================================================================== *)
(** ** What a caller sees of an error *)

(** The error kind a payload carries, when it is an error reply. *)
Definition error_kind_of (p : payload) : option string :=
  match p with
  | Json (JsonError kind _) => Some kind
  | Data (FrameRejected kind _) => Some kind
  | _ => None
  end.

(** The error kinds a request was answered with. *)
Definition error_kinds (w : world) : list string :=
  somes error_kind_of (sent (res w)).

(* ================================================================== *)
(** ** The validation gate *)

Module Gate.

Definition conversationId (req : request) : string :=
  Js.trim (field_text (body_conversationId (req_body req))).
Definition answerLanguage (req : request) : string :=
  Js.trim (field_text (body_answerLanguage (req_body req))).
Definition speakLanguage (req : request) : string :=
  Js.trim (field_text (body_speakLanguage (req_body req))).
(** The declared owner identity. *)
Definition uid (req : request) : string :=
  Js.trim (field_text (body_uid (req_body req))).

Definition empty (s : string) : bool := s =? "".

(** The declared and the verified identity both exist and differ. *)
Definition identities_differ (req : request) : bool :=
  match firebaseUser req with
  | Some d =>
      negb (empty (uid req)) && negb (empty (decoded_uid d))
      && negb (uid req =? decoded_uid d)
  | None => false
  end.

(** An audio payload meeting the minimum size. *)
Definition has_audio (req : request) : bool :=
  match file req with
  | Some f =>
      match buffer f with
      | Some _ => negb (size f <? MIN_AUDIO_BYTES)%N
      | None => false
      end
  | None => false
  end.

(** A text field that is not empty once trimmed. *)
Definition has_text (req : request) : bool :=
  match body_text (req_body req) with
  | Some t => negb (empty (Js.trim t))
  | None => false
  end.

(** The validation gate in the words of the specification: four checks
    in a fixed order, the first failure deciding the status and the
    error kind. *)
Definition first_failure (req : request) : option (N * string) :=
  if empty (conversationId req) then Some (400%N, "missing_conversation")
  else if empty (answerLanguage req) || empty (speakLanguage req) then
    Some (400%N, "missing_language")
  else if identities_differ req then Some (401%N, "unauthenticated")
  else if negb (has_audio req) && negb (has_text req) then
    Some (400%N, "no_input")
  else None.

Definition kinds : list string :=
  ["missing_conversation"; "missing_language"; "unauthenticated";
   "no_input"].

(** The message that goes with each kind. *)
Definition message_of (kind : string) : string :=
  if kind =? "missing_conversation" then "No conversationId."
  else if kind =? "missing_language" then
    "Please select both Speaking and Answer languages."
  else if kind =? "unauthenticated" then "UID does not match."
  else "No valid audio or text provided.".

End Gate.

(** The worlds on the paths where the request went past the gate carry no
    validation error. *)
Definition past_gate (w : world) : Prop :=
  forall kind, In kind (error_kinds w) -> ~ In kind Gate.kinds.

Definition remapped_kinds : list string :=
  ["audio_too_short"; "invalid_language"; "processing_failed"].

(* ================================================================== *)
(** ** The stages a request goes through *)

(** The transcription call of a request with a qualifying recording. *)
Definition transcription_call (cfg : config) (req : request)
           (bytes : list Byte.byte) : call :=
  CallTranscribe bytes (STT_MODEL cfg)
                 (iso_lookup ISO (Gate.speakLanguage req))
                 (stt_prompt (Gate.speakLanguage req)).

Definition transcription (cfg : config) (P : providers) (req : request)
           (bytes : list Byte.byte) : exn + string :=
  transcribe P bytes (STT_MODEL cfg)
             (iso_lookup ISO (Gate.speakLanguage req))
             (stt_prompt (Gate.speakLanguage req)).

(** The request passes the first three checks of the gate: its four
    fields can be trimmed, and none of the three checks fails. *)
Definition reaches_input (req : request) : Prop :=
  unreadable (req_body req) = None
  /\ Gate.conversationId req <> ""
  /\ Gate.answerLanguage req <> ""
  /\ Gate.speakLanguage req <> ""
  /\ Gate.identities_differ req = false.

(** The request passed the gate and its input resolved to [u0], after
    the calls [pre]. *)
Definition input_resolved (cfg : config) (P : providers) (req : request)
           (u0 : string) (pre : list call) : Prop :=
  Gate.first_failure req = None /\
  ((exists bytes text,
       qualifying_audio req = Some bytes
       /\ transcription cfg P req bytes = inr text
       /\ u0 = Js.trim text
       /\ pre = [transcription_call cfg req bytes])
   \/ (qualifying_audio req = None
       /\ qualifying_text (req_body req) = Some u0
       /\ pre = [])).

(** The cleanup pass took [u0] to [u], with the calls [pre]. *)
Definition cleaned (cfg : config) (P : providers) (sl u0 u : string)
           (pre : list call) : Prop :=
  (CLEAN_TRANSCRIPT cfg && Js.truthy u0 = false /\ u = u0 /\ pre = [])
  \/ (CLEAN_TRANSCRIPT cfg && Js.truthy u0 = true
      /\ exists o,
           responses_create P (cleanup_input sl u0) = inr o
           /\ u = Js.trim (Js.or_else o u0)
           /\ pre = [CallCleanup (cleanup_input sl u0)]).

(** The generation call of a mode. *)
Definition generation_call (stream : bool) (msgs : list message) : call :=
  if stream then CallChatStream msgs else CallResponses msgs.

(** The messages a request sends to generation once its user text is
    [u]. *)
Definition messages_for (req : request) (u : string) : list message :=
  compose (Gate.answerLanguage req) (clientHistory (req_body req)) u.

(** Calls of the best-effort tail: synthesis and persistence. *)
Definition is_tail_call (c : call) : bool :=
  match c with
  | CallSpeech _ | CallFirestoreSet _ _ | CallFirestoreAdd _ _ _ => true
  | _ => false
  end.


(** The request without its uploaded file. *)
Definition without_file (req : request) : request :=
  {| query_stream := query_stream req;
     header_accept := header_accept req;
     header_origin := header_origin req;
     header_authorization := header_authorization req;
     req_body := req_body req;
     file := None;
     firebaseUser := firebaseUser req |}.


(* ================================================================== *)
(** ** Claims read as they are stated *)

(** The validation gate as the gate claim describes it: the first
    failing check alone decides the answer of the request, and a request
    that passes all four is never answered with a validation kind. *)
Definition gate_decides (cfg : config) (P : providers) (req : request)
  : Prop :=
  (forall code kind,
      Gate.first_failure req = Some (code, kind) ->
      calls (run cfg P req) = []
      /\ http_status (run cfg P req) = code
      /\ closed (run cfg P req) = true
      /\ sent (res (run cfg P req)) =
           [rejection (wantsStream req) kind (Gate.message_of kind)])
  /\ (Gate.first_failure req = None -> past_gate (run cfg P req)).

(** The answer to a request that failed in the outer [try] for a reason
    the [catch] does not recognise. *)
Definition processing_failed : payload :=
  Json (JsonError "processing_failed"
                  "Something went wrong while processing input.").

(** The answer to an identity mismatch: no collaborator called, status
    401, the [unauthenticated] error in the request's mode, channel
    closed. *)
Definition rejected_unauthenticated (cfg : config) (P : providers)
           (req : request) : Prop :=
  calls (run cfg P req) = []
  /\ http_status (run cfg P req) = 401%N
  /\ closed (run cfg P req) = true
  /\ sent (res (run cfg P req)) =
       [rejection (wantsStream req) "unauthenticated" "UID does not match."].

(** One of the three Firestore writes of a turn pair is refused: the
    touch of the conversation, or else the user turn, or else the
    assistant turn. *)
Definition write_fails (P : providers)
           (uid conversationId userText assistantText
            speakLanguage answerLanguage : string) : bool :=
  match firestore_set P uid conversationId with
  | Some _ => true
  | None =>
      match firestore_add P uid conversationId
              (Turn "user" userText speakLanguage answerLanguage) with
      | Some _ => true
      | None =>
          match firestore_add P uid conversationId
                  (Turn "assistant" assistantText speakLanguage
                        answerLanguage) with
          | Some _ => true
          | None => false
          end
      end
  end.

(** The frame sequence of a finished stream as the streaming claim
    describes it: delta frames that reconstruct the tokens, one
    end-of-message frame, at most one frame about synthesis (read
    generously: the audio or the synthesis warning), one done frame with
    the concatenated tokens, and nothing else. *)
Definition claimed_stream (tokens : list string) (fs : list frame) : Prop :=
  exists deltas synth transcript,
    fs = (map FrameDelta deltas ++ [FrameMessageEnd] ++ synth
          ++ [FrameDone transcript (join tokens)])%list
    /\ join deltas = join tokens
    /\ (synth = []
        \/ (exists a, synth = [FrameTts a])
        \/ (exists m, synth = [FrameTtsError m])).

(** The reply the remapping of failures promises for a failure [e]: the
    status and the error kind picked by [remap] from the lower-cased
    message, in a JSON error body, and the response closed. *)
Definition remapped_reply (e : exn) (w : world) : Prop :=
  let '(code, kind, msg) := remap (inspected e) in
  http_status w = code
  /\ sent (res w) = [Json (JsonError kind msg)]
  /\ closed w = true.

(** Every failing generation stream is answered so. *)
Definition stream_failure_remapped (cfg : config) (P : providers)
           (req : request) (msgs : list message) (e : exn) : Prop :=
  In (CallChatStream msgs) (calls (run cfg P req)) ->
  chat_stream P msgs = inl e ->
  remapped_reply e (run cfg P req).


(** A request whose recording is under the size threshold and whose text
    does not qualify either is answered [no_input]. *)
Definition undersized_audio_no_input (cfg : config) (P : providers)
           (req : request) : Prop :=
  (exists f, file req = Some f /\ (size f < MIN_AUDIO_BYTES)%N) ->
  Gate.has_text req = false ->
  error_kinds (run cfg P req) = ["no_input"].


(** The request was answered with the turn pair [transcript], [text]. *)
Definition answered (w : world) (transcript text : string) : Prop :=
  (exists conv audio,
      In (Json (JsonAnswer conv transcript text audio)) (sent (res w)))
  \/ In (Data (FrameDone transcript text)) (sent (res w)).

(** Every request whose declared and verified identities differ is
    answered so. *)
Definition mismatch_always_401 (cfg : config) (P : providers)
           (req : request) : Prop :=
  Gate.identities_differ req = true -> rejected_unauthenticated cfg P req.

(* ================================================================== *)
(** ** Sample collaborators and requests *)

Module Sample.

Definition failure_of (msg : string) : exn :=
  {| err_error_message := ""; err_message := msg;
     err_string := "Error: " ++ msg |}.

(** Collaborators that all succeed. *)
Definition P : providers :=
  {| verifyIdToken := fun token =>
       if token =? "id-token-of-bob" then inr (Decoded "bob")
       else inl (failure_of "Decoding Firebase ID token failed");
     transcribe := fun _ _ _ _ => inr " What is 2+2? ";
     responses_create := fun _ => inr " Four! ";
     chat_stream := fun _ =>
       inr (Stream [None; Some "Fo"; Some ""; Some "ur!"; None] None);
     speech := fun _ => inr "QUJD";
     firestore_set := fun _ _ => None;
     firestore_add := fun _ _ _ => None |}.

(** Firebase Admin initialised, transcript cleanup off. *)
Definition cfg : config :=
  {| adminApp := true; STT_MODEL := "whisper-1";
     CLEAN_TRANSCRIPT := false |}.

Definition form (conversationId uid text : option string) : body :=
  {| body_answerLanguage := FieldText "English";
     body_speakLanguage := FieldText "English";
     body_conversationId := field_of conversationId;
     body_uid := field_of uid;
     body_history := HistoryAbsent;
     body_text := text |}.

(** A form whose [uid] field was sent twice, so that it arrives as an
    array, and which has no conversation identifier. *)
Definition repeated_uid : body :=
  {| body_answerLanguage := FieldText "English";
     body_speakLanguage := FieldText "English";
     body_conversationId := FieldAbsent;
     body_uid := FieldOther;
     body_history := HistoryAbsent;
     body_text := Some "What is 2+2?" |}.

(** A request: [stream] asks for an event stream through [?stream=1]. *)
Definition ask (stream : bool) (b : body) (f : option upload)
           (user : option decoded) : request :=
  {| query_stream := if stream then Some "1" else None;
     header_accept := None;
     header_origin := None;
     header_authorization := None;
     req_body := b;
     file := f;
     firebaseUser := user |}.

(** The same collaborators with a document store that refuses writes. *)
Definition P_store_down : providers :=
  {| verifyIdToken := verifyIdToken P;
     transcribe := transcribe P;
     responses_create := responses_create P;
     chat_stream := chat_stream P;
     speech := speech P;
     firestore_set := fun _ _ => Some (failure_of "UNAVAILABLE");
     firestore_add := firestore_add P |}.

(** The same collaborators with a speech synthesis that fails. *)
Definition P_no_speech : providers :=
  {| verifyIdToken := verifyIdToken P;
     transcribe := transcribe P;
     responses_create := responses_create P;
     chat_stream := chat_stream P;
     speech := fun _ => inl (failure_of "model_not_found");
     firestore_set := firestore_set P;
     firestore_add := firestore_add P |}.

(** A typed question, Alice's uid declared, no identity verified. *)
Definition typed (stream : bool) : request :=
  ask stream (form (Some "c1") (Some "alice") (Some "What is 2+2?")) None
      None.

(** Alice's uid is declared, Bob's token was verified, and the
    conversation identifier is missing. *)
Definition mismatch_without_conversation : request :=
  ask false (form None (Some "alice") (Some "What is 2+2?")) None
      (Some (Decoded "bob")).

(** The same with a conversation identifier. *)
Definition mismatch : request :=
  ask true (form (Some "c1") (Some "alice") (Some "What is 2+2?")) None
      (Some (Decoded "bob")).

(** The chunks [P] streams. *)
Definition streamed_chunks : list chunk :=
  [None; Some "Fo"; Some ""; Some "ur!"; None].

(** A streamed request whose history write fails. *)
Definition stream_store_down : world :=
  run cfg P_store_down (typed true).



(** A recording of 6000 bytes. *)
Definition recording : upload :=
  {| buffer := Some (repeat Byte.x00 (N.to_nat 6000)); size := 6000 |}.


(** A spoken question sent together with a typed one. *)
Definition spoken (stream : bool) : request :=
  ask stream (form (Some "c1") None (Some "What is 2+2?")) (Some recording)
      None.

(** Collaborators whose generation is rate limited. *)
Definition P_generation_down : providers :=
  {| verifyIdToken := verifyIdToken P;
     transcribe := transcribe P;
     responses_create := fun _ => inl (failure_of "Rate limit reached");
     chat_stream := fun _ => inl (failure_of "Rate limit reached");
     speech := speech P;
     firestore_set := firestore_set P;
     firestore_add := firestore_add P |}.

(** The failure the transcription reports for a recording that is too
    short. *)
Definition short_audio : exn :=
  {| err_error_message :=
       "Audio file is too short. Minimum audio length is 0.1 seconds.";
     err_message := "400 Audio file is too short.";
     err_string := "Error: 400 Audio file is too short." |}.

(** Collaborators whose transcription finds the recording too short. *)
Definition P_short_audio : providers :=
  {| verifyIdToken := verifyIdToken P;
     transcribe := fun _ _ _ _ => inl short_audio;
     responses_create := responses_create P;
     chat_stream := chat_stream P;
     speech := speech P;
     firestore_set := firestore_set P;
     firestore_add := firestore_add P |}.

(** Firebase Admin initialised, transcript cleanup on. *)
Definition cfg_cleanup : config :=
  {| adminApp := true; STT_MODEL := "whisper-1";
     CLEAN_TRANSCRIPT := true |}.

(** Collaborators whose cleanup pass fails while generation works. *)
Definition P_cleanup_down : providers :=
  {| verifyIdToken := verifyIdToken P;
     transcribe := transcribe P;
     responses_create := fun input =>
       match input with
       | m :: _ =>
           if String.prefix "Fix obvious" (content m)
           then inl (failure_of "Rate limit reached")
           else inr " Four! "
       | [] => inr " Four! "
       end;
     chat_stream := chat_stream P;
     speech := speech P;
     firestore_set := firestore_set P;
     firestore_add := firestore_add P |}.


(** A recording of 100 bytes. *)
Definition click : upload :=
  {| buffer := Some (repeat Byte.x00 100); size := 100 |}.

(** A click, no text and no conversation identifier. *)
Definition click_without_conversation : request :=
  ask false (form None None None) (Some click) None.

(** A click sent with a typed question. *)
Definition click_with_text (stream : bool) : request :=
  ask stream (form (Some "c1") None (Some "  What is 2+2? ")) (Some click)
      None.

(** A click and nothing else. *)
Definition click_alone (stream : bool) : request :=
  ask stream (form (Some "c1") None (Some "   ")) (Some click) None.


End Sample.

(* ================================================================== *)
(** ** Further observations *)

(** The stage of the handler a call belongs to: transcription, cleanup,
    generation, synthesis, then the three Firestore writes. *)
Definition stage (c : call) : nat :=
  match c with
  | CallTranscribe _ _ _ _ => 0
  | CallCleanup _ => 1
  | CallResponses _ | CallChatStream _ => 2
  | CallSpeech _ => 3
  | CallFirestoreSet _ _ => 4
  | CallFirestoreAdd _ _ t => if turn_role t =? "user" then 5 else 6
  end.

(** Strictly increasing. *)
Fixpoint ascending (l : list nat) : bool :=
  match l with
  | a :: ((b :: _) as rest) => (a <? b)%nat && ascending rest
  | _ => true
  end.

Definition is_firestore_call (c : call) : bool :=
  match c with
  | CallFirestoreSet _ _ | CallFirestoreAdd _ _ _ => true
  | _ => false
  end.

Definition is_warning (f : frame) : bool :=
  match f with FrameWarn _ => true | _ => false end.

(** The frames of a stream without its persistence warnings. *)
Definition without_warnings (fs : list frame) : list frame :=
  filter (fun f => negb (is_warning f)) fs.

(** The collaborators with another document store. *)
Definition with_store (P : providers)
           (set : string -> string -> option exn)
           (add : string -> string -> turn -> option exn) : providers :=
  {| verifyIdToken := verifyIdToken P;
     transcribe := transcribe P;
     responses_create := responses_create P;
     chat_stream := chat_stream P;
     speech := speech P;
     firestore_set := set;
     firestore_add := add |}.

(** [res.getHeader(name)] on a header list. *)
Definition header_value (name : string) (hs : list (string * string))
  : option string :=
  option_map snd (find (fun h => fst h =? name) hs).

(** The message the outer [catch] reads: [err.error.message], else
    [err.message]. *)
Definition read_message (err : exn) : string :=
  Js.or_else (err_error_message err) (err_message err).

(** The three Firestore writes of a turn pair, in the order the handler
    issues them. *)
Definition writes (uid conv u a sl al : string) : list call :=
  [CallFirestoreSet uid conv;
   CallFirestoreAdd uid conv (Turn "user" u sl al);
   CallFirestoreAdd uid conv (Turn "assistant" a sl al)].

(** What a caller can see of a response once the persistence warnings
    are set aside. *)
Definition visible (w : world)
  : N * bool * list json_body * list frame * list (string * string) :=
  (http_status w, closed w, bodies w, without_warnings (frames w),
   headers (res w)).

(** The world a request leaves behind when the handler is entered with
    the headers [hs] already on the response: what the middleware in
    front of the route has set. *)
Definition run_from (cfg : config) (P : providers) (req : request)
           (hs : list (string * string)) : world :=
  snd (handler cfg P req (started hs)).

(** The headers after the CORS echo, on a response that came with the
    headers [hs]. *)
Definition echoed_onto (req : request) (hs : list (string * string))
  : list (string * string) :=
  headers (res (snd (cors_echo req (started hs)))).

(** The origin the CORS echo of the handler lets through. *)
Definition echoed_origin (req : request) : option string :=
  match header_origin req with
  | Some origin =>
      if existsb (String.eqb origin) allowedOrigins then Some origin
      else None
  | None => None
  end.

Definition nonempty {A} (l : list A) : bool :=
  match l with [] => false | _ :: _ => true end.

(** [p] occurs in [s]. *)
Definition occurs (p s : string) : Prop := exists a b, s = a ++ p ++ b.

Definition not_line_terminator (c : ascii) : bool :=
  negb (Js.is_line_terminator c).

(** An [Authorization] header of the bearer scheme that carries [token]:
    the word Bearer in any letter case, some white space, the token. *)
Definition bearer_header (h token : string) : Prop :=
  exists scheme sep,
    h = scheme ++ sep ++ token
    /\ Js.map_chars Js.lower_ascii_char scheme = "bearer"
    /\ sep <> ""
    /\ Js.all_chars Js.is_ws sep = true.

(** The status and the payloads the outer [catch] answers a failure
    with. *)
Definition catch_reply (err : exn) : N * list payload :=
  let w := snd (outer_catch err fresh) in
  (http_status w, sent (res w)).

(* ================================================================== *)
(** ** The earlier SSE-only server

    The route handler of the earlier server answers every accepted
    request as a stream of raw [data:] lines. Its response is kept here
    with what the handler itself does to it: the status, the headers it
    sets, whether the headers have gone out ([res.headersSent]), the
    body given to [res.json], and the channel of raw lines. What the
    [cors] middleware in front of the route does to a request or to the
    headers is not part of it. *)

Module Earlier.

Record world := World {
  calls : list call;
  statusCode : N;
  headers : list (string * string);
  headersSent : bool;
  json_sent : option json_body;
  channel : Legacy.channel
}.

Definition fresh : world :=
  {| calls := []; statusCode := 200; headers := []; headersSent := false;
     json_sent := None; channel := Legacy.opened |}.

Definition M (A : Type) : Type := world -> result A * world.

Definition ret {A} (a : A) : M A := fun w => (Return a, w).

Definition bind {A B} (m : M A) (k : A -> M B) : M B :=
  fun w => match m w with
           | (Return a, w') => k a w'
           | (Throw e, w') => (Throw e, w')
           end.

Definition throw {A} (e : exn) : M A := fun w => (Throw e, w).

(** [try { m } catch (e) { h e }] *)
Definition try_catch {A} (m : M A) (h : exn -> M A) : M A :=
  fun w => match m w with
           | (Return a, w') => (Return a, w')
           | (Throw e, w') => h e w'
           end.

Declare Scope sse_scope.
Delimit Scope sse_scope with sse.
Notation "x <- m ;; k" := (bind m (fun x => k))
  (at level 61, m at next level, right associativity) : sse_scope.
Notation "m ;; k" := (bind m (fun _ => k))
  (at level 61, right associativity) : sse_scope.
Local Open Scope sse_scope.

Definition await {A} (c : call) (outcome : exn + A) : M A :=
  fun w => (match outcome with inl e => Throw e | inr a => Return a end,
            {| calls := calls w ++ [c]; statusCode := statusCode w;
               headers := headers w; headersSent := headersSent w;
               json_sent := json_sent w; channel := channel w |}).

Definition await_unit (c : call) (outcome : option exn) : M unit :=
  await c (match outcome with Some e => inl e | None => inr tt end).

Definition on_world (f : world -> world) : M unit :=
  fun w => (Return tt, f w).

(** [res.status(code)] *)
Definition status (code : N) : M unit :=
  on_world (fun w =>
    {| calls := calls w; statusCode := code; headers := headers w;
       headersSent := headersSent w; json_sent := json_sent w;
       channel := channel w |}).

(** [res.setHeader(name, value)] *)
Definition setHeader (name value : string) : M unit :=
  on_world (fun w =>
    {| calls := calls w; statusCode := statusCode w;
       headers := set_header name value (headers w);
       headersSent := headersSent w; json_sent := json_sent w;
       channel := channel w |}).

(** [res.flushHeaders?.()] *)
Definition flushHeaders : M unit :=
  on_world (fun w =>
    {| calls := calls w; statusCode := statusCode w; headers := headers w;
       headersSent := true; json_sent := json_sent w;
       channel := channel w |}).

(** [res.write(line)] *)
Definition write (line : string) : M unit :=
  on_world (fun w =>
    {| calls := calls w; statusCode := statusCode w; headers := headers w;
       headersSent := true; json_sent := json_sent w;
       channel := Legacy.res_write line (channel w) |}).

(** [res.end()] *)
Definition end_ : M unit :=
  on_world (fun w =>
    {| calls := calls w; statusCode := statusCode w; headers := headers w;
       headersSent := true; json_sent := json_sent w;
       channel := Legacy.res_end (channel w) |}).

(** [res.json(b)]: the body goes out and the response ends. *)
Definition json (b : json_body) : M unit :=
  on_world (fun w =>
    {| calls := calls w; statusCode := statusCode w; headers := headers w;
       headersSent := true; json_sent := Some b;
       channel := Legacy.res_end (channel w) |}).

Definition allowedOrigins : list string :=
  [ "http://localhost:3000";
    "http://127.0.0.1:3000";
    "http://localhost:5173";
    "http://127.0.0.1:5173";
    "https://elearning-for-kids.onrender.com";
    "https://krishnan-govindan.github.io" ].

(** The [origin] callback of the [cors] options: a request without
    origin is let through, one with an origin only when the allow list
    has it; any other is refused before the route is reached. *)
Definition cors_admits (req : request) : bool :=
  match header_origin req with
  | Some origin =>
      if Js.truthy origin then existsb (String.eqb origin) allowedOrigins
      else true
  | None => true
  end.

(** A callback handed to [process.nextTick]. *)
Inductive tick :=
| TtsTick (fullAssistantText : string)
| StoreTick (uid conversationId userText fullAssistantText
             speakLanguage answerLanguage : string).

Section Handler.

Variable cfg : config.
Variable P : providers.

Definition cleanup_input (speakLanguage userText : string)
  : list message :=
  [ Message "system"
      ("Fix obvious transcription errors in " ++ speakLanguage
       ++ " child speech.");
    Message "user" userText ].

(** The optional transcript cleanup. *)
Definition cleanup (speakLanguage userText : string) : M string :=
  if CLEAN_TRANSCRIPT cfg && Js.truthy userText then
    output_text <- await (CallCleanup (cleanup_input speakLanguage userText))
                         (responses_create P
                            (cleanup_input speakLanguage userText)) ;;
    ret (Js.trim (Js.or_else output_text userText))
  else ret userText.

(** The SSE headers, with the CORS echo in front. *)
Definition stream_headers (req : request) : M unit :=
  (match header_origin req with
   | Some origin =>
       if Js.truthy origin && existsb (String.eqb origin) allowedOrigins
       then
         setHeader "Access-Control-Allow-Origin" origin ;;
         setHeader "Access-Control-Allow-Headers"
                   "Content-Type, Authorization" ;;
         setHeader "Access-Control-Allow-Methods" "GET,POST,OPTIONS"
       else ret tt
   | None => ret tt
   end) ;;
  setHeader "Content-Type" "text/event-stream; charset=utf-8" ;;
  setHeader "Cache-Control" "no-cache, no-transform" ;;
  setHeader "Connection" "keep-alive" ;;
  flushHeaders.

(** [for await (const chunk of stream) { ... }]: every chunk is written
    as a raw line, whether its token is empty or not. *)
Fixpoint for_await (cs : list chunk) (fullAssistantText : string)
  : M string :=
  match cs with
  | [] => ret fullAssistantText
  | c :: rest =>
      let token := Js.or_empty c in
      write (Legacy.data_line token) ;;
      for_await rest (fullAssistantText ++ token)
  end.

(** Everything after the input text is known. The two callbacks are
    handed to [process.nextTick] and returned here as the queue. *)
Definition respond (req : request)
           (uid conversationId speakLanguage answerLanguage
            userText : string) : M (list tick) :=
  userText <- cleanup speakLanguage userText ;;
  let messages :=
    compose answerLanguage (clientHistory (req_body req)) userText in
  stream_headers req ;;
  stream <- await (CallChatStream messages) (chat_stream P messages) ;;
  fullAssistantText <- for_await (chunks stream) "" ;;
  (match failure stream with
   | Some e => throw e
   | None => ret tt
   end) ;;
  write (Legacy.data_line "[END]") ;;
  end_ ;;
  ret (TtsTick fullAssistantText
       :: (if adminApp cfg && Js.truthy uid then
             [StoreTick uid conversationId userText fullAssistantText
                        speakLanguage answerLanguage]
           else [])).

(** [(body.f || "").trim()] *)
Definition trimmed (f : text_field) (v : field) : M string :=
  match v with
  | FieldOther => throw (not_a_function f)
  | FieldAbsent | FieldText _ => ret (Js.trim (field_text v))
  end.

(** [res.status(code).json({ error, message })] *)
Definition reject (code : N) (error msg : string) : M (list tick) :=
  status code ;; json (JsonError error msg) ;; ret [].

(** The body of the [try]. *)
Definition attempt (req : request) : M (list tick) :=
  let b := req_body req in
  answerLanguage <- trimmed AnswerLanguage (body_answerLanguage b) ;;
  speakLanguage <- trimmed SpeakLanguage (body_speakLanguage b) ;;
  conversationId <- trimmed ConversationId (body_conversationId b) ;;
  uid <- trimmed Uid (body_uid b) ;;
  if negb (Js.truthy conversationId) then
    reject 400 "missing_conversation" "No conversationId."
  else if negb (Js.truthy answerLanguage)
          || negb (Js.truthy speakLanguage) then
    reject 400 "missing_language"
           "Please select both Speaking and Answer languages."
  else if uid_mismatch uid (firebaseUser req) then
    reject 401 "unauthenticated" "UID does not match."
  else
    match qualifying_audio req with
    | Some bytes =>
        text <- await (CallTranscribe bytes (STT_MODEL cfg)
                         (iso_lookup ISO speakLanguage)
                         (stt_prompt speakLanguage))
                      (transcribe P bytes (STT_MODEL cfg)
                         (iso_lookup ISO speakLanguage)
                         (stt_prompt speakLanguage)) ;;
        respond req uid conversationId speakLanguage answerLanguage
                (Js.trim text)
    | None =>
        match qualifying_text b with
        | Some userText =>
            respond req uid conversationId speakLanguage answerLanguage
                    userText
        | None =>
            reject 400 "no_input" "No valid audio or text provided."
        end
    end.

(** The [catch]: [if (!res.headersSent) res.status(500).json(...)]. *)
Definition catch_all (err : exn) : M (list tick) :=
  fun w =>
    if headersSent w then (Return [], w)
    else reject 500 "processing_failed" "Something went wrong." w.

(** The three dependent Firestore writes. *)
Definition write_history (uid conversationId userText assistantText
                          speakLanguage answerLanguage : string)
  : M unit :=
  await_unit (CallFirestoreSet uid conversationId)
             (firestore_set P uid conversationId) ;;
  (let t := Turn "user" userText speakLanguage answerLanguage in
   await_unit (CallFirestoreAdd uid conversationId t)
              (firestore_add P uid conversationId t)) ;;
  (let t := Turn "assistant" assistantText speakLanguage answerLanguage in
   await_unit (CallFirestoreAdd uid conversationId t)
              (firestore_add P uid conversationId t)).

(** A queued callback, each a [try] with a [catch] that only logs. *)
Definition run_tick (t : tick) : M unit :=
  match t with
  | TtsTick fullAssistantText =>
      try_catch
        (await (CallSpeech fullAssistantText)
               (speech P fullAssistantText) ;;
         ret tt)
        (fun _ => ret tt)
  | StoreTick uid conversationId userText fullAssistantText
              speakLanguage answerLanguage =>
      try_catch
        (write_history uid conversationId userText fullAssistantText
                       speakLanguage answerLanguage)
        (fun _ => ret tt)
  end.

(** The queue of [process.nextTick], served in the order it was filled
    once the handler has returned. The first callback makes its only
    call before the second one makes its first, so the calls come out
    in this order however the two interleave afterwards. *)
Fixpoint run_ticks (queue : list tick) : M unit :=
  match queue with
  | [] => ret tt
  | t :: rest => run_tick t ;; run_ticks rest
  end.

(** The route handler of [POST /api/ask], then the queued callbacks. *)
Definition handler (req : request) : M unit :=
  queue <- try_catch (attempt req) catch_all ;;
  run_ticks queue.

(** The world a request leaves behind once it has reached the route:
    [cors_admits] tells which requests the middleware lets through. *)
Definition run (req : request) : world := snd (handler req fresh).

End Handler.

(** *** The paths of the earlier handler *)

(** A request answered with a JSON body after the calls [cs]. *)
Definition answered (cs : list call) (code : N) (b : json_body) : world :=
  {| calls := cs; statusCode := code; headers := []; headersSent := true;
     json_sent := Some b;
     channel := {| Legacy.written := []; Legacy.finished := true |} |}.

(** A request that failed before the headers went out. *)
Definition failed (cs : list call) : world :=
  answered cs 500 (JsonError "processing_failed" "Something went wrong.").

(** The world when the [try] is entered and [cs] has been called. *)
Definition started (cs : list call) : world :=
  {| calls := cs; statusCode := 200; headers := []; headersSent := false;
     json_sent := None; channel := Legacy.opened |}.

(** The headers of a streamed reply. *)
Definition stream_header_list (req : request) : list (string * string) :=
  headers (snd (stream_headers req fresh)).

(** A request whose headers went out, with the raw lines written and
    whether the response has ended. *)
Definition streaming (req : request) (cs : list call)
           (lines : list string) (fin : bool) : world :=
  {| calls := cs; statusCode := 200; headers := stream_header_list req;
     headersSent := true; json_sent := None;
     channel := {| Legacy.written := lines; Legacy.finished := fin |} |}.

(** The calls of the queued callbacks. *)
Definition background (cfg : config) (P : providers)
           (uid conv u text sl al : string) : list call :=
  CallSpeech text :: fst (persistence cfg P uid conv u text sl al).

(** The world after the text [u] that goes to generation is known. *)
Definition generated (cfg : config) (P : providers) (req : request)
           (uid conv sl al u : string) (pre : list call) : world :=
  let msgs := compose al (clientHistory (req_body req)) u in
  match chat_stream P msgs with
  | inl _ => streaming req (pre ++ [CallChatStream msgs]) [] false
  | inr s =>
      let lines := map Legacy.data_line (tokens_of (chunks s)) in
      match failure s with
      | Some _ => streaming req (pre ++ [CallChatStream msgs]) lines false
      | None =>
          streaming req
            (pre ++ CallChatStream msgs
                 :: background cfg P uid conv u
                      (join (tokens_of (chunks s))) sl al)
            (lines ++ [Legacy.data_line "[END]"]) true
      end
  end%list.

(** The world after the input text [u0] is known. *)
Definition responded (cfg : config) (P : providers) (req : request)
           (uid conv sl al u0 : string) (pre : list call) : world :=
  if CLEAN_TRANSCRIPT cfg && Js.truthy u0 then
    match responses_create P (cleanup_input sl u0) with
    | inl _ => failed (pre ++ [CallCleanup (cleanup_input sl u0)])
    | inr o =>
        generated cfg P req uid conv sl al (Js.trim (Js.or_else o u0))
                  (pre ++ [CallCleanup (cleanup_input sl u0)])
    end
  else generated cfg P req uid conv sl al u0 pre.

(** The world a request leaves behind once its four fields have been
    read as [al], [sl], [conv] and [uid], path by path. *)
Definition checked (cfg : config) (P : providers) (req : request)
           (al sl conv uid : string) : world :=
  let b := req_body req in
  if negb (Js.truthy conv) then
    answered [] 400 (JsonError "missing_conversation" "No conversationId.")
  else if negb (Js.truthy al) || negb (Js.truthy sl) then
    answered [] 400
      (JsonError "missing_language"
                 "Please select both Speaking and Answer languages.")
  else if uid_mismatch uid (firebaseUser req) then
    answered [] 401 (JsonError "unauthenticated" "UID does not match.")
  else
    match qualifying_audio req with
    | Some bytes =>
        let c := CallTranscribe bytes (STT_MODEL cfg) (iso_lookup ISO sl)
                                (stt_prompt sl) in
        match transcribe P bytes (STT_MODEL cfg) (iso_lookup ISO sl)
                         (stt_prompt sl) with
        | inl _ => failed [c]
        | inr text =>
            responded cfg P req uid conv sl al (Js.trim text) [c]
        end
    | None =>
        match qualifying_text b with
        | Some u0 => responded cfg P req uid conv sl al u0 []
        | None =>
            answered [] 400
              (JsonError "no_input" "No valid audio or text provided.")
        end
    end.

(** The world a whole request leaves behind: a field that cannot be
    trimmed sends the request to the [catch] before any check. *)
Definition outcome (cfg : config) (P : providers) (req : request)
  : world :=
  let b := req_body req in
  match unreadable b with
  | Some _ => failed []
  | None =>
      checked cfg P req
        (Js.trim (field_text (body_answerLanguage b)))
        (Js.trim (field_text (body_speakLanguage b)))
        (Js.trim (field_text (body_conversationId b)))
        (Js.trim (field_text (body_uid b)))
  end.

(** What a client sees of a request. *)
Definition reply (w : world)
  : N * list (string * string) * option json_body * Legacy.channel :=
  (statusCode w, headers w, json_sent w, channel w).

End Earlier.

(** The collaborators with another speech synthesis and another store. *)
Definition with_background (P : providers) (tts : string -> exn + string)
           (set : string -> string -> option exn)
           (add : string -> string -> turn -> option exn) : providers :=
  {| verifyIdToken := verifyIdToken P;
     transcribe := transcribe P;
     responses_create := responses_create P;
     chat_stream := chat_stream P;
     speech := tts;
     firestore_set := set;
     firestore_add := add |}.

(** A call that comes before the headers of a streamed reply, and
    fails. *)
Definition fails_early (P : providers) (c : call) : bool :=
  match c with
  | CallTranscribe audio model language prompt =>
      match transcribe P audio model language prompt with
      | inl _ => true
      | inr _ => false
      end
  | CallCleanup input =>
      match responses_create P input with
      | inl _ => true
      | inr _ => false
      end
  | _ => false
  end.

(** The calls of the input stage. *)
Definition is_early (c : call) : bool :=
  match c with
  | CallTranscribe _ _ _ _ | CallCleanup _ => true
  | _ => false
  end.

(** The calls of the queued callbacks. *)
Definition is_background (c : call) : bool :=
  match c with
  | CallSpeech _ | CallFirestoreSet _ _ | CallFirestoreAdd _ _ _ => true
  | _ => false
  end.

(** The generation stream cannot be opened, or breaks on the way. *)
Definition generation_fails (P : providers) (msgs : list message) : bool :=
  match chat_stream P msgs with
  | inl _ => true
  | inr s => match failure s with Some _ => true | None => false end
  end.

(** The chunks the generation stream yields before it ends or breaks. *)
Definition yielded (P : providers) (msgs : list message) : list chunk :=
  match chat_stream P msgs with
  | inl _ => []
  | inr s => chunks s
  end.

(** [res.json] bodies as a list. *)
Definition body_list (b : option json_body) : list json_body :=
  match b with Some x => [x] | None => [] end.

(** The collaborators with another streamed generation. *)
Definition with_generation (P : providers)
           (gen : list message -> exn + completion_stream) : providers :=
  {| verifyIdToken := verifyIdToken P;
     transcribe := transcribe P;
     responses_create := responses_create P;
     chat_stream := gen;
     speech := speech P;
     firestore_set := firestore_set P;
     firestore_add := firestore_add P |}.

(** A world of the earlier server after the calls [cs]. *)
Definition earlier_logged (w : Earlier.world) (cs : list call)
  : Earlier.world :=
  {| Earlier.calls := (Earlier.calls w ++ cs)%list;
     Earlier.statusCode := Earlier.statusCode w;
     Earlier.headers := Earlier.headers w;
     Earlier.headersSent := Earlier.headersSent w;
     Earlier.json_sent := Earlier.json_sent w;
     Earlier.channel := Earlier.channel w |}.

(** A recording sent with [speakLanguage] as the speaking language. *)
Definition spoken_in (speakLanguage : string) : request :=
  Sample.ask false
    {| body_answerLanguage := FieldText "English";
       body_speakLanguage := FieldText speakLanguage;
       body_conversationId := FieldText "c1";
       body_uid := FieldAbsent;
       body_history := HistoryAbsent;
       body_text := None |}
    (Some Sample.recording) None.

(** The request asks for an event stream: through the query parameter,
    or through its [Accept] header. *)
Definition asks_for_stream (req : request) : Prop :=
  Js.trim (Js.or_empty (query_stream req)) = "1"
  \/ occurs "text/event-stream"
       (Js.map_chars Js.lower_ascii_char (Js.or_empty (header_accept req))).

(** A typed question that asks for a stream through its [Accept]
    header. *)
Definition accept_stream : request :=
  {| query_stream := Some "true";
     header_accept := Some "application/json, Text/Event-Stream;q=0.9";
     header_origin := None; header_authorization := None;
     req_body := Sample.form (Some "c1") None (Some "What is 2+2?");
     file := None; firebaseUser := None |}.
Unset Implicit Arguments.

(* ================================================================== *)
(** ** Facts about strings and lists *)

Lemma append_empty_r (s : string) : s ++ "" = s.
Proof. induction s as [|c s IH]; simpl; [reflexivity | now rewrite IH]. Qed.

Lemma append_assoc (a b c : string) : (a ++ b) ++ c = a ++ (b ++ c).
Proof. induction a as [|x a IH]; simpl; [reflexivity | now rewrite IH]. Qed.

Lemma truthy_false (s : string) : Js.truthy s = false <-> s = "".
Proof. destruct s; simpl; split; intro H; congruence. Qed.

Lemma truthy_true (s : string) : Js.truthy s = true <-> s <> "".
Proof. destruct s; simpl; split; intro H; congruence. Qed.





Lemma join_filter_truthy (l : list string) :
  join (filter Js.truthy l) = join l.
Proof.
  induction l as [|a l IH]; simpl; [reflexivity|].
  destruct a; simpl; now rewrite IH.
Qed.


(* ================================================================== *)
(** ** The handler, step by step *)

Lemma cors_echo_run (req : request) :
  exists hs, cors_echo req fresh = (Return tt, started hs).
Proof.
  unfold cors_echo.
  destruct (header_origin req) as [origin|]; [|now exists []].
  destruct (Js.truthy origin && existsb (String.eqb origin) allowedOrigins);
    [|now exists []].
  eexists. reflexivity.
Qed.

Lemma for_await_run (cs : list chunk) (acc : string) (w : world) :
  flushed (res w) = true ->
  for_await cs acc w =
    (Return (acc ++ join (tokens_of cs)),
     {| calls := calls w;
        res := {| statusCode := statusCode (res w);
                  headers := headers (res w);
                  flushed := true;
                  sent := sent (res w)
                          ++ map (fun t => Data (FrameDelta t))
                                 (filter Js.truthy (tokens_of cs));
                  ended := ended (res w) |} |}).
Proof.
  revert acc w. induction cs as [|c cs IH]; intros acc w Hf.
  - destruct w as [k [st hs fl se en]]. simpl in *. subst fl.
    unfold ret. now rewrite append_empty_r, app_nil_r.
  - cbn [for_await tokens_of map filter join fold_right].
    destruct (Js.truthy (Js.or_empty c)) eqn:T.
    + unfold bind, send, write, on_res. rewrite IH by reflexivity.
      cbn [calls res statusCode headers sent ended flushed].
      rewrite append_assoc, <- app_assoc. reflexivity.
    + apply truthy_false in T. rewrite T. rewrite IH by exact Hf.
      reflexivity.
Qed.

(** The earlier SSE-only server writes one raw line per chunk, empty
    tokens included, then the [END] line, and ends the response: it sends
    no JSON frame, and no done frame in particular. *)
Lemma legacy_for_await_run (cs : list chunk) (acc : string)
      (ch : Legacy.channel) :
  Legacy.for_await cs acc ch =
    (acc ++ join (tokens_of cs),
     {| Legacy.written :=
          (Legacy.written ch ++ map Legacy.data_line (tokens_of cs))%list;
        Legacy.finished := Legacy.finished ch |}).
Proof.
  revert acc ch. induction cs as [|c cs IH]; intros acc ch.
  - destruct ch. simpl. now rewrite append_empty_r, app_nil_r.
  - cbn [Legacy.for_await tokens_of map join fold_right]. rewrite IH.
    unfold Legacy.res_write. cbn [Legacy.written Legacy.finished].
    now rewrite append_assoc, <- app_assoc.
Qed.

Lemma legacy_stream_reply_run (cs : list chunk) :
  Legacy.stream_reply cs Legacy.opened =
    (join (tokens_of cs),
     {| Legacy.written :=
          (map Legacy.data_line (tokens_of cs)
           ++ [Legacy.data_line "[END]"])%list;
        Legacy.finished := true |}).
Proof.
  unfold Legacy.stream_reply. rewrite legacy_for_await_run. reflexivity.
Qed.

Lemma reject_run (stream : bool) code error msg (w : world) :
  reject stream code error msg w =
    (Return tt,
     replied w code
       (if stream then sse_header_list (headers (res w))
        else headers (res w))
       [rejection stream error msg]).
Proof.
  destruct w as [k [st hs fl se en]]. destruct stream; reflexivity.
Qed.

Lemma outer_catch_run (err : exn) (w : world) :
  outer_catch err w =
    (Return tt,
     let '(code, kind, msg) := remap (inspected err) in
     replied w code (headers (res w)) [Json (JsonError kind msg)]).
Proof.
  destruct w as [k [st hs fl se en]].
  unfold outer_catch, remap, inspected.
  destruct (_ || _); [reflexivity|].
  destruct (_ && _); reflexivity.
Qed.

Lemma write_history_run P uid conv u a sl al (w : world) :
  write_history P uid conv u a sl al w =
    (match snd (history_writes P uid conv u a sl al) with
     | Some e => Throw e
     | None => Return tt
     end,
     logged w (fst (history_writes P uid conv u a sl al))).
Proof.
  unfold write_history, history_writes, await_unit, await, bind, logged.
  destruct (firestore_set P uid conv); cbn [calls res fst snd]; [reflexivity|].
  destruct (firestore_add P uid conv _); cbn [calls res fst snd];
    rewrite <- ?app_assoc; [reflexivity|].
  destruct (firestore_add P uid conv _); cbn [calls res fst snd];
    rewrite <- ?app_assoc; reflexivity.
Qed.

Lemma streaming_run cfg P uid conv sl al u msgs (w : world) :
  streaming cfg P uid conv sl al u msgs w =
    (Return tt, streamed cfg P uid conv sl al u msgs w).
Proof.
  destruct w as [k [st hs fl se en]].
  unfold streaming, streamed, sse_headers, sse_header_list.
  unfold bind at 1 2 3 4. unfold setHeader at 1 2 3, flushHeaders, on_res.
  cbn [calls res statusCode headers flushed sent ended].
  unfold try_catch at 1. unfold bind at 1. unfold await at 1.
  cbn [calls res statusCode headers flushed sent ended].
  destruct (chat_stream P msgs) as [e|s]; [reflexivity|].
  unfold bind at 1. rewrite for_await_run by reflexivity.
  cbn [calls res statusCode headers flushed sent ended append].
  destruct (failure s) as [e|].
  { unfold endWith, try_finally, bind, throw, send, write, end_, on_res,
      replied, logged, delta_frames.
    cbn [calls res statusCode headers flushed sent ended].
    rewrite map_app, map_map, <- app_assoc. reflexivity. }
  unfold persistence.
  set (text := join (tokens_of (chunks s))).
  unfold endWith, try_finally, bind, ret, try_catch, await, send, write,
    end_, on_res.
  cbn [calls res statusCode headers flushed sent ended].
  unfold synthesis_frames, replied, logged, delta_frames.
  assert (Hw : forall a (x : world),
             write_history P uid conv u a sl al x =
             (match snd (history_writes P uid conv u a sl al) with
              | Some e => Throw e | None => Return tt end,
              logged x (fst (history_writes P uid conv u a sl al))))
    by (intros; apply write_history_run).
  destruct (speech P text) as [e|b]; [|destruct (Js.truthy b)];
    destruct (adminApp cfg && Js.truthy uid);
    cbn [calls res statusCode headers flushed sent ended];
    rewrite ?Hw; unfold logged;
    destruct (history_writes P uid conv u text sl al) as [cs [e'|]];
    cbn [calls res statusCode headers flushed sent ended fst snd];
    rewrite ?map_app, ?map_map; cbn [map app];
    rewrite <- ?app_assoc; cbn [app]; reflexivity.
Qed.

Lemma logged_logged (w : world) (a b : list call) :
  logged (logged w a) b = logged w (a ++ b).
Proof. unfold logged. cbn [calls res]. now rewrite app_assoc. Qed.

Lemma respond_run cfg P stream req uid conv sl al u0 (w : world) :
  try_catch (respond cfg P stream req uid conv sl al u0) outer_catch w =
    (Return tt, responded cfg P stream req uid conv sl al u0 w).
Proof.
  assert (G : forall u w',
    try_catch
      (if stream then
         streaming cfg P uid conv sl al u
                   (compose al (clientHistory (req_body req)) u)
       else
         buffered cfg P uid conv sl al u
                  (compose al (clientHistory (req_body req)) u))
      outer_catch w' =
    (Return tt,
     generated cfg P stream uid conv sl al u
               (compose al (clientHistory (req_body req)) u) w')).
  { intros u w'. unfold generated, try_catch. destruct stream.
    - now rewrite streaming_run.
    - unfold buffered, bind at 1, await at 1.
      destruct (responses_create P _) as [e|o].
      + now rewrite outer_catch_run.
      + unfold bind, try_catch, await, ret, json, write, end_, on_res.
        cbn [calls res statusCode headers flushed sent ended].
        unfold persistence.
        destruct (speech P (Js.trim o));
          destruct (adminApp cfg && Js.truthy uid);
          cbn [calls res statusCode headers flushed sent ended];
          rewrite ?write_history_run; unfold logged, replied;
          destruct (history_writes P uid conv u (Js.trim o) sl al)
            as [cs [e'|]];
          cbn [calls res statusCode headers flushed sent ended fst snd
               buffered_audio];
          rewrite <- ?app_assoc; cbn [app]; rewrite ?app_nil_r;
          reflexivity. }
  unfold respond, responded, cleanup.
  destruct (CLEAN_TRANSCRIPT cfg && Js.truthy u0).
  - unfold try_catch at 1, bind at 1, bind at 1, await at 1.
    destruct (responses_create P (cleanup_input sl u0)) as [e|o].
    + now rewrite outer_catch_run.
    + unfold ret. specialize (G (Js.trim (Js.or_else o u0))).
      unfold try_catch in G. apply G.
  - unfold try_catch at 1, bind at 1, ret.
    specialize (G u0). unfold try_catch in G. apply G.
Qed.

Lemma trimmed_run (f : text_field) (v : field) (k : string -> M unit)
      (h : exn -> M unit) (w : world) :
  try_catch (bind (trimmed f v) k) h w =
    match v with
    | FieldOther => h (not_a_function f) w
    | FieldAbsent | FieldText _ =>
        try_catch (k (Js.trim (field_text v))) h w
    end.
Proof. destruct v; reflexivity. Qed.

Lemma attempt_run cfg P req hs :
  attempt cfg P req (started hs) = (Return tt, outcome cfg P req hs).
Proof.
  assert (K : forall al sl conv uid,
    try_catch
      (if negb (Js.truthy conv) then
         reject (wantsStream req) 400 "missing_conversation"
                "No conversationId."
       else if negb (Js.truthy al) || negb (Js.truthy sl) then
         reject (wantsStream req) 400 "missing_language"
                "Please select both Speaking and Answer languages."
       else if uid_mismatch uid (firebaseUser req) then
         reject (wantsStream req) 401 "unauthenticated" "UID does not match."
       else
         match qualifying_audio req with
         | Some bytes =>
             bind (await (CallTranscribe bytes (STT_MODEL cfg)
                            (iso_lookup ISO sl) (stt_prompt sl))
                         (transcribe P bytes (STT_MODEL cfg)
                            (iso_lookup ISO sl) (stt_prompt sl)))
                  (fun text =>
                     respond cfg P (wantsStream req) req uid conv sl al
                             (Js.trim text))
         | None =>
             match qualifying_text (req_body req) with
             | Some userText =>
                 respond cfg P (wantsStream req) req uid conv sl al userText
             | None =>
                 reject (wantsStream req) 400 "no_input"
                        "No valid audio or text provided."
             end
         end)
      outer_catch (started hs) =
    (Return tt, checked cfg P req hs al sl conv uid)).
  { intros al sl conv uid. unfold checked.
    destruct (negb (Js.truthy _)).
    { unfold try_catch. now rewrite reject_run. }
    destruct (_ || _).
    { unfold try_catch. now rewrite reject_run. }
    destruct (uid_mismatch _ _).
    { unfold try_catch. now rewrite reject_run. }
    destruct (qualifying_audio req) as [bytes|].
    - pose proof (respond_run cfg P (wantsStream req) req uid conv sl al)
        as R.
      unfold try_catch in R |- *. unfold bind, await.
      destruct (transcribe P bytes _ _ _) as [e|text].
      + now rewrite outer_catch_run.
      + apply R.
    - destruct (qualifying_text _) as [u0|].
      + apply respond_run.
      + unfold try_catch. now rewrite reject_run. }
  unfold attempt, outcome, gated, unreadable. cbv zeta.
  rewrite trimmed_run.
  destruct (body_answerLanguage (req_body req));
    cbv beta iota; [ | |apply outer_catch_run];
    (rewrite trimmed_run;
     destruct (body_speakLanguage (req_body req));
     cbv beta iota; [ | |apply outer_catch_run];
     (rewrite trimmed_run;
      destruct (body_conversationId (req_body req));
      cbv beta iota; [ | |apply outer_catch_run];
      (rewrite trimmed_run;
       destruct (body_uid (req_body req));
       cbv beta iota; [ | |apply outer_catch_run]; apply K))).
Qed.

(** Every request is answered along one of the paths of [outcome]. *)
Lemma run_is_outcome cfg P req :
  run cfg P req = outcome cfg P req (echoed_headers req).
Proof.
  unfold echoed_headers.
  destruct (cors_echo_run req) as [hs Hc].
  unfold run, handler, bind. rewrite Hc. cbn [snd res headers started].
  now rewrite attempt_run.
Qed.

Lemma run_outcome cfg P req :
  exists hs, run cfg P req = outcome cfg P req hs.
Proof. exists (echoed_headers req). apply run_is_outcome. Qed.

(* ================================================================== *)
(** ** Observations *)

Lemma somes_app {A B} (f : A -> option B) (l1 l2 : list A) :
  somes f (l1 ++ l2)%list = (somes f l1 ++ somes f l2)%list.
Proof.
  induction l1 as [|a l1 IH]; simpl; [reflexivity|].
  destruct (f a); simpl; now rewrite IH.
Qed.

Lemma somes_map_some {A B C} (f : B -> option C) (g : A -> B) (h : A -> C)
      (l : list A) :
  (forall a, f (g a) = Some (h a)) -> somes f (map g l) = map h l.
Proof.
  intro H. induction l as [|a l IH]; simpl; [reflexivity|].
  now rewrite H, IH.
Qed.

Lemma somes_map_none {A B C} (f : B -> option C) (g : A -> B) (l : list A) :
  (forall a, f (g a) = None) -> somes f (map g l) = [].
Proof.
  intro H. induction l as [|a l IH]; simpl; [reflexivity|].
  now rewrite H, IH.
Qed.

Lemma frames_data (fs : list frame) : somes frame_of (map Data fs) = fs.
Proof.
  rewrite (somes_map_some frame_of Data (fun f => f)) by reflexivity.
  apply map_id.
Qed.

Lemma bodies_data (fs : list frame) : somes json_of (map Data fs) = [].
Proof. now apply somes_map_none. Qed.

(* ================================================================== *)
(** ** The validation gate *)

Lemma empty_truthy (s : string) : Gate.empty s = negb (Js.truthy s).
Proof. now destruct s. Qed.

Lemma identities_differ_mismatch (req : request) :
  Gate.identities_differ req = uid_mismatch (Gate.uid req) (firebaseUser req).
Proof.
  unfold Gate.identities_differ, uid_mismatch.
  destruct (firebaseUser req); [|reflexivity].
  now rewrite !empty_truthy, !negb_involutive.
Qed.

Lemma has_audio_qualifying (req : request) :
  Gate.has_audio req =
    match qualifying_audio req with Some _ => true | None => false end.
Proof.
  unfold Gate.has_audio, qualifying_audio.
  destruct (file req) as [f|]; [|reflexivity].
  destruct (buffer f); [|reflexivity].
  rewrite N.ltb_antisym, negb_involutive.
  now destruct (MIN_AUDIO_BYTES <=? size f)%N.
Qed.

Lemma has_text_qualifying (req : request) :
  Gate.has_text req =
    match qualifying_text (req_body req) with
    | Some _ => true | None => false
    end.
Proof.
  unfold Gate.has_text, qualifying_text.
  destruct (body_text (req_body req)) as [t|]; [|reflexivity].
  rewrite empty_truthy, negb_involutive. now destruct (Js.truthy (Js.trim t)).
Qed.

Lemma caught_kinds (w : world) (e : exn) :
  error_kinds w = [] ->
  exists kind,
    error_kinds (caught w e) = [kind] /\
    In kind ["audio_too_short"; "invalid_language"; "processing_failed"].
Proof.
  intro H. unfold caught, remap.
  destruct (_ || _); [|destruct (_ && _)];
    unfold error_kinds, replied; cbn [sent res]; rewrite somes_app;
    fold (error_kinds w); rewrite H; eexists; (split; [reflexivity|]);
    simpl; auto.
Qed.

Lemma caught_past_gate (w : world) (e : exn) :
  error_kinds w = [] -> past_gate (caught w e).
Proof.
  intro H. destruct (caught_kinds w e H) as (kind & Hk & Hin).
  intros k Hi. rewrite Hk in Hi. destruct Hi as [<-|[]].
  unfold Gate.kinds.
  simpl in Hin. intro Hc. simpl in Hc.
  repeat (destruct Hin as [Hin|Hin]; [subst kind|]);
    try contradiction;
    repeat (destruct Hc as [Hc|Hc]; [discriminate Hc|]); contradiction.
Qed.

Lemma error_kinds_replied_data (w : world) code hs (fs : list frame) :
  (forall f, In f fs -> error_kind_of (Data f) = None) ->
  error_kinds (replied w code hs (map Data fs)) = error_kinds w.
Proof.
  intro H. unfold error_kinds, replied. cbn [sent res].
  rewrite somes_app.
  assert (E : somes error_kind_of (map Data fs) = []).
  { induction fs as [|f fs IH]; [reflexivity|]. simpl map.
    cbn [somes]. rewrite (H f) by now left.
    apply IH. intros g Hg. apply H. now right. }
  rewrite E. apply app_nil_r.
Qed.

Lemma delta_frames_kind (cs : list chunk) (f : frame) :
  In f (delta_frames cs) -> exists t, f = FrameDelta t.
Proof.
  unfold delta_frames. intro H. apply in_map_iff in H.
  destruct H as (t & <- & _). now exists t.
Qed.

Lemma synthesis_frames_kind (o : exn + string) (f : frame) :
  In f (synthesis_frames o) ->
  (exists a, f = FrameTts a) \/ (exists m, f = FrameTtsError m).
Proof.
  unfold synthesis_frames. destruct o as [e|b].
  - intros [<-|[]]. right. eauto.
  - destruct (Js.truthy b); [|intros []]. intros [<-|[]]. left. eauto.
Qed.

Lemma error_kinds_streamed cfg P uid conv sl al u msgs (w : world) :
  error_kinds (streamed cfg P uid conv sl al u msgs w) = error_kinds w.
Proof.
  unfold streamed.
  destruct (chat_stream P msgs) as [e|s].
  - now rewrite (error_kinds_replied_data _ _ _ [stream_error_frame e])
      by (intros f [<-|[]]; reflexivity).
  - destruct (failure s) as [e|].
    + rewrite error_kinds_replied_data; [reflexivity|].
      intros f Hf. apply in_app_or in Hf. destruct Hf as [Hf|[<-|[]]].
      * apply delta_frames_kind in Hf. destruct Hf as [t ->]. reflexivity.
      * reflexivity.
    + rewrite error_kinds_replied_data; [reflexivity|].
      intros f Hf.
      apply in_app_or in Hf. destruct Hf as [Hf|Hf].
      { apply delta_frames_kind in Hf. destruct Hf as [t ->]. reflexivity. }
      destruct Hf as [<-|Hf]; [reflexivity|]. cbn [app] in Hf.
      apply in_app_or in Hf. destruct Hf as [Hf|Hf].
      { apply synthesis_frames_kind in Hf.
        destruct Hf as [[a ->]|[m ->]]; reflexivity. }
      apply in_app_or in Hf. destruct Hf as [Hf|[<-|[]]]; [|reflexivity].
      destruct (snd _); [destruct Hf as [<-|[]]; reflexivity | destruct Hf].
Qed.

(** Past the gate a request is answered without an error kind, or with one
    of the three kinds of the outer [catch]. *)
Lemma responded_kinds cfg P stream req uid conv sl al u0 (w : world) :
  error_kinds w = [] ->
  error_kinds (responded cfg P stream req uid conv sl al u0 w) = [] \/
  exists kind,
    error_kinds (responded cfg P stream req uid conv sl al u0 w) = [kind]
    /\ In kind remapped_kinds.
Proof.
  intro H.
  assert (G : forall u msgs w', error_kinds w' = [] ->
    error_kinds (generated cfg P stream uid conv sl al u msgs w') = [] \/
    exists kind,
      error_kinds (generated cfg P stream uid conv sl al u msgs w') = [kind]
      /\ In kind remapped_kinds).
  { intros u msgs w' H'. unfold generated. destruct stream.
    - left. now rewrite error_kinds_streamed.
    - destruct (responses_create P msgs) as [e|o].
      + right. apply caught_kinds. exact H'.
      + left. unfold error_kinds, replied. cbn [sent res logged].
        rewrite somes_app. fold (error_kinds w'). now rewrite H'. }
  unfold responded.
  destruct (CLEAN_TRANSCRIPT cfg && Js.truthy u0); [|now apply G].
  destruct (responses_create P (cleanup_input sl u0)) as [e|o].
  - right. apply caught_kinds. exact H.
  - apply G. exact H.
Qed.

Lemma remapped_not_gate (kind : string) :
  In kind remapped_kinds -> ~ In kind Gate.kinds.
Proof.
  unfold remapped_kinds, Gate.kinds. simpl. intros Hin Hc.
  repeat (destruct Hin as [Hin|Hin]; [subst kind|]); try contradiction;
    repeat (destruct Hc as [Hc|Hc]; [discriminate Hc|]); contradiction.
Qed.

Lemma responded_past_gate cfg P stream req uid conv sl al u0 (w : world) :
  error_kinds w = [] ->
  past_gate (responded cfg P stream req uid conv sl al u0 w).
Proof.
  intro H. intros kind Hin.
  destruct (responded_kinds cfg P stream req uid conv sl al u0 w H)
    as [E|(k & E & Hk)]; rewrite E in Hin.
  - destruct Hin.
  - destruct Hin as [<-|[]]. now apply remapped_not_gate.
Qed.

(** The first failing check, read off the code's own tests. *)
Lemma first_failure_code (req : request) :
  Gate.first_failure req =
    if negb (Js.truthy (Gate.conversationId req)) then
      Some (400%N, "missing_conversation")
    else if negb (Js.truthy (Gate.answerLanguage req))
            || negb (Js.truthy (Gate.speakLanguage req)) then
      Some (400%N, "missing_language")
    else if uid_mismatch (Gate.uid req) (firebaseUser req) then
      Some (401%N, "unauthenticated")
    else
      match qualifying_audio req, qualifying_text (req_body req) with
      | None, None => Some (400%N, "no_input")
      | _, _ => None
      end.
Proof.
  unfold Gate.first_failure.
  rewrite !empty_truthy, identities_differ_mismatch, has_audio_qualifying,
    has_text_qualifying.
  destruct (qualifying_audio req), (qualifying_text (req_body req));
    reflexivity.
Qed.

Lemma outcome_readable cfg P (req : request) hs :
  unreadable (req_body req) = None ->
  outcome cfg P req hs =
    checked cfg P req hs (Gate.answerLanguage req) (Gate.speakLanguage req)
            (Gate.conversationId req) (Gate.uid req).
Proof. intro R. unfold outcome. rewrite R. reflexivity. Qed.

Lemma outcome_unreadable cfg P (req : request) hs f :
  unreadable (req_body req) = Some f ->
  outcome cfg P req hs = caught (started hs) (not_a_function f).
Proof. intro R. unfold outcome. rewrite R. reflexivity. Qed.

(** The message of the [TypeError] matches none of the patterns of the
    outer [catch]. *)
Lemma not_a_function_remap (f : text_field) :
  remap (inspected (not_a_function f)) =
    (500%N, "processing_failed",
     "Something went wrong while processing input.").
Proof. destruct f; vm_compute; reflexivity. Qed.

(** A field that cannot be trimmed ends the request in the outer
    [catch], before any check and any call. *)
Lemma run_unreadable cfg P (req : request) f :
  unreadable (req_body req) = Some f ->
  run cfg P req =
    replied (started (echoed_headers req)) 500 (echoed_headers req)
      [Json (JsonError "processing_failed"
               "Something went wrong while processing input.")].
Proof.
  intro R. rewrite run_is_outcome, (outcome_unreadable _ _ _ _ _ R).
  unfold caught. rewrite not_a_function_remap. reflexivity.
Qed.

(** A failing check answers the request on the spot. *)
Lemma gate_rejects cfg P (req : request) code kind :
  unreadable (req_body req) = None ->
  Gate.first_failure req = Some (code, kind) ->
  calls (run cfg P req) = []
  /\ http_status (run cfg P req) = code
  /\ closed (run cfg P req) = true
  /\ sent (res (run cfg P req)) =
       [rejection (wantsStream req) kind (Gate.message_of kind)].
Proof.
  intro Rd. destruct (run_outcome cfg P req) as [hs ->].
  rewrite (outcome_readable _ _ _ _ Rd).
  rewrite first_failure_code. unfold checked.
  destruct (negb (Js.truthy (Gate.conversationId req))).
  { intros [= <- <-]. now repeat split. }
  destruct (_ || _).
  { intros [= <- <-]. now repeat split. }
  destruct (uid_mismatch _ _).
  { intros [= <- <-]. now repeat split. }
  destruct (qualifying_audio req) as [bytes|]; [discriminate|].
  destruct (qualifying_text (req_body req)) as [u0|]; [discriminate|].
  intros [= <- <-]. now repeat split.
Qed.

(** Past the four checks the request goes on to input resolution. *)
Lemma gate_passes cfg P (req : request) :
  unreadable (req_body req) = None ->
  Gate.first_failure req = None ->
  exists hs,
    run cfg P req =
      match qualifying_audio req with
      | Some bytes =>
          let c := CallTranscribe bytes (STT_MODEL cfg)
                     (iso_lookup ISO (Gate.speakLanguage req))
                     (stt_prompt (Gate.speakLanguage req)) in
          match transcribe P bytes (STT_MODEL cfg)
                  (iso_lookup ISO (Gate.speakLanguage req))
                  (stt_prompt (Gate.speakLanguage req)) with
          | inl e => caught (logged (started hs) [c]) e
          | inr text =>
              responded cfg P (wantsStream req) req (Gate.uid req)
                (Gate.conversationId req) (Gate.speakLanguage req)
                (Gate.answerLanguage req) (Js.trim text)
                (logged (started hs) [c])
          end
      | None =>
          responded cfg P (wantsStream req) req (Gate.uid req)
            (Gate.conversationId req) (Gate.speakLanguage req)
            (Gate.answerLanguage req)
            (Js.or_empty (qualifying_text (req_body req))) (started hs)
      end.
Proof.
  intros Rd H. destruct (run_outcome cfg P req) as [hs ->]. exists hs.
  rewrite (outcome_readable _ _ _ _ Rd). revert H.
  rewrite first_failure_code. unfold checked.
  destruct (negb (Js.truthy (Gate.conversationId req))); [discriminate|].
  destruct (_ || _); [discriminate|].
  destruct (uid_mismatch _ _); [discriminate|].
  destruct (qualifying_audio req) as [bytes|]; [reflexivity|].
  destruct (qualifying_text (req_body req)) as [u0|]; [reflexivity|].
  discriminate.
Qed.

(** Past the gate no validation error is reported. *)
Lemma gate_passed cfg P (req : request) :
  unreadable (req_body req) = None ->
  Gate.first_failure req = None -> past_gate (run cfg P req).
Proof.
  intros Rd H. destruct (gate_passes cfg P req Rd H) as [hs ->].
  destruct (qualifying_audio req) as [bytes|].
  - cbv zeta. destruct (transcribe P bytes _ _ _) as [e|text].
    + now apply caught_past_gate.
    + now apply responded_past_gate.
  - now apply responded_past_gate.
Qed.

(** C3, as stated, fails: a form without conversation identifier whose
    [uid] field arrives as an array fails the first check, and yet it is
    answered 500 [processing_failed], as a JSON body even when a stream
    was asked for, because trimming the field throws before any check
    is made. *)
Lemma unreadable_field_before_the_gate :
  Gate.first_failure (Sample.ask true Sample.repeated_uid None None)
    = Some (400%N, "missing_conversation")
  /\ http_status (run Sample.cfg Sample.P
                      (Sample.ask true Sample.repeated_uid None None))
     = 500%N
  /\ sent (res (run Sample.cfg Sample.P
                    (Sample.ask true Sample.repeated_uid None None)))
     = [processing_failed]
  /\ ~ gate_decides Sample.cfg Sample.P
                    (Sample.ask true Sample.repeated_uid None None).
Proof.
  repeat split; try reflexivity.
  intros [H _]. destruct (H _ _ eq_refl) as (_ & Hs & _). discriminate Hs.
Qed.

(** C3, amended. For every request whose four trimmed fields are strings
    or absent, the four validation checks run in the order conversation
    identifier, language selections, identity match, input, and stop at
    the first failure: that failure alone decides the HTTP status and
    the error kind, no collaborator has been called by then, and the
    error travels as an error frame in streaming mode and as a JSON body
    in buffered mode, with the same status, kind and message; a request
    that passes all four is never answered with one of the four
    validation kinds. A request in which one of the four fields holds a
    truthy value that is not a string never reaches the checks: it is
    answered 500 [processing_failed], as a JSON body in either mode, and
    no collaborator is called. *)
Theorem validation_gate_order cfg P (req : request) :
  (unreadable (req_body req) = None ->
   (forall code kind,
       Gate.first_failure req = Some (code, kind) ->
       calls (run cfg P req) = []
       /\ http_status (run cfg P req) = code
       /\ closed (run cfg P req) = true
       /\ sent (res (run cfg P req)) =
            [rejection (wantsStream req) kind (Gate.message_of kind)])
   /\ (Gate.first_failure req = None -> past_gate (run cfg P req)))
  /\ (unreadable (req_body req) <> None ->
      calls (run cfg P req) = []
      /\ http_status (run cfg P req) = 500%N
      /\ closed (run cfg P req) = true
      /\ sent (res (run cfg P req)) = [processing_failed]).
Proof.
  split.
  - intro Rd. split; [intros code kind; now apply gate_rejects|].
    now apply gate_passed.
  - destruct (unreadable (req_body req)) as [f|] eqn:U; [|congruence].
    intros _. rewrite (run_unreadable cfg P req f U). now repeat split.
Qed.

Lemma validation_gate_order_witness :
  (calls (run Sample.cfg Sample.P Sample.mismatch) = []
   /\ http_status (run Sample.cfg Sample.P Sample.mismatch) = 401%N
   /\ closed (run Sample.cfg Sample.P Sample.mismatch) = true
   /\ sent (res (run Sample.cfg Sample.P Sample.mismatch)) =
        [rejection (wantsStream Sample.mismatch) "unauthenticated"
                   (Gate.message_of "unauthenticated")])
  /\ past_gate (run Sample.cfg Sample.P (Sample.typed false))
  /\ sent (res (run Sample.cfg Sample.P
                    (Sample.ask true Sample.repeated_uid None None)))
     = [processing_failed].
Proof.
  split; [|split].
  - apply (proj1 (proj1 (validation_gate_order Sample.cfg Sample.P
                           Sample.mismatch) eq_refl) 401%N "unauthenticated").
    reflexivity.
  - apply (proj2 (proj1 (validation_gate_order Sample.cfg Sample.P
                           (Sample.typed false)) eq_refl)).
    reflexivity.
  - apply (proj2 (validation_gate_order Sample.cfg Sample.P
                    (Sample.ask true Sample.repeated_uid None None))).
    discriminate.
Defined.

(* ================================================================== *)
(** ** The four ways a request ends *)

Lemma run_paths cfg P (req : request) :
  exists hs,
    (exists f,
        unreadable (req_body req) = Some f
        /\ run cfg P req = caught (started hs) (not_a_function f))
    \/ (exists code kind,
        Gate.first_failure req = Some (code, kind)
        /\ run cfg P req =
             replied (started hs) code
               (if wantsStream req then sse_header_list hs else hs)
               [rejection (wantsStream req) kind (Gate.message_of kind)])
    \/ (exists bytes e,
          Gate.first_failure req = None
          /\ qualifying_audio req = Some bytes
          /\ transcription cfg P req bytes = inl e
          /\ run cfg P req =
               caught (logged (started hs) [transcription_call cfg req bytes])
                      e)
    \/ (exists u0 pre e,
          input_resolved cfg P req u0 pre
          /\ CLEAN_TRANSCRIPT cfg && Js.truthy u0 = true
          /\ responses_create P (cleanup_input (Gate.speakLanguage req) u0)
               = inl e
          /\ run cfg P req =
               caught (logged (started hs)
                         (pre ++ [CallCleanup
                                    (cleanup_input (Gate.speakLanguage req)
                                                   u0)]))
                      e)
    \/ (exists u0 pre u pre',
          input_resolved cfg P req u0 pre
          /\ cleaned cfg P (Gate.speakLanguage req) u0 u pre'
          /\ run cfg P req =
               generated cfg P (wantsStream req) (Gate.uid req)
                 (Gate.conversationId req) (Gate.speakLanguage req)
                 (Gate.answerLanguage req) u (messages_for req u)
                 (logged (started hs) (pre ++ pre'))).
Proof.
  destruct (unreadable (req_body req)) as [f|] eqn:Rd.
  { exists (echoed_headers req). left. exists f. split; [reflexivity|].
    rewrite run_is_outcome. now apply outcome_unreadable. }
  destruct (Gate.first_failure req) as [[code kind]|] eqn:F.
  { destruct (run_outcome cfg P req) as [hs E]. exists hs. right. left.
    exists code, kind. split; [reflexivity|]. rewrite E. revert F.
    rewrite (outcome_readable _ _ _ _ Rd).
    rewrite first_failure_code. unfold checked.
    destruct (negb (Js.truthy (Gate.conversationId req)));
      [now intros [= <- <-]|].
    destruct (_ || _); [now intros [= <- <-]|].
    destruct (uid_mismatch _ _); [now intros [= <- <-]|].
    destruct (qualifying_audio req); [discriminate|].
    destruct (qualifying_text (req_body req)); [discriminate|].
    now intros [= <- <-]. }
  destruct (gate_passes cfg P req Rd F) as [hs E]. exists hs. right. right.
  assert (R : forall u0 pre,
    input_resolved cfg P req u0 pre ->
    run cfg P req =
      responded cfg P (wantsStream req) req (Gate.uid req)
        (Gate.conversationId req) (Gate.speakLanguage req)
        (Gate.answerLanguage req) u0 (logged (started hs) pre) ->
    (exists u0 pre e,
        input_resolved cfg P req u0 pre
        /\ CLEAN_TRANSCRIPT cfg && Js.truthy u0 = true
        /\ responses_create P (cleanup_input (Gate.speakLanguage req) u0)
             = inl e
        /\ run cfg P req =
             caught (logged (started hs)
                       (pre ++ [CallCleanup
                                  (cleanup_input (Gate.speakLanguage req)
                                                 u0)]))
                    e)
    \/ (exists u0 pre u pre',
          input_resolved cfg P req u0 pre
          /\ cleaned cfg P (Gate.speakLanguage req) u0 u pre'
          /\ run cfg P req =
               generated cfg P (wantsStream req) (Gate.uid req)
                 (Gate.conversationId req) (Gate.speakLanguage req)
                 (Gate.answerLanguage req) u (messages_for req u)
                 (logged (started hs) (pre ++ pre')))).
  { intros u0 pre I ->. unfold responded.
    destruct (CLEAN_TRANSCRIPT cfg && Js.truthy u0) eqn:C.
    - destruct (responses_create P _) as [e|o] eqn:O.
      + left. exists u0, pre, e. rewrite logged_logged.
        split; [exact I|]. split; [exact C|]. split; [exact O|].
        reflexivity.
      + right. exists u0, pre, (Js.trim (Js.or_else o u0)),
          [CallCleanup (cleanup_input (Gate.speakLanguage req) u0)].
        rewrite logged_logged. split; [exact I|]. split; [|reflexivity].
        right. split; [exact C|]. exists o. now repeat split.
    - right. exists u0, pre, u0, []. rewrite app_nil_r.
      split; [exact I|]. split; [|reflexivity]. left. now repeat split. }
  destruct (qualifying_audio req) as [bytes|] eqn:A.
  - cbv zeta in E.
    fold (transcription_call cfg req bytes) (transcription cfg P req bytes)
      in E.
    destruct (transcription cfg P req bytes) as [e|text] eqn:T.
    + left. exists bytes, e. split; [reflexivity|]. split; [reflexivity|].
      split; [exact T|]. exact E.
    + right.
      apply (R (Js.trim text) [transcription_call cfg req bytes]);
        [|exact E].
      split; [exact F|]. left. exists bytes, text.
      split; [exact A|]. split; [exact T|]. split; reflexivity.
  - right.
    assert (Q : exists u0, qualifying_text (req_body req) = Some u0).
    { revert F. rewrite first_failure_code.
      destruct (negb _); [discriminate|]. destruct (_ || _); [discriminate|].
      destruct (uid_mismatch _ _); [discriminate|]. rewrite A.
      destruct (qualifying_text (req_body req)) as [u0|]; [|discriminate].
      intros _. now exists u0. }
    destruct Q as [u0 Q]. rewrite Q in E.
    apply (R u0 []); [|exact E].
    split; [exact F|]. right. split; [exact A|]. split; [exact Q|].
    reflexivity.
Qed.

(** The paths of a request that called a collaborator. *)
Lemma run_paths_in cfg P (req : request) (c : call) :
  In c (calls (run cfg P req)) ->
  exists hs,
    (exists code kind,
        Gate.first_failure req = Some (code, kind)
        /\ run cfg P req =
             replied (started hs) code
               (if wantsStream req then sse_header_list hs else hs)
               [rejection (wantsStream req) kind (Gate.message_of kind)])
    \/ (exists bytes e,
          Gate.first_failure req = None
          /\ qualifying_audio req = Some bytes
          /\ transcription cfg P req bytes = inl e
          /\ run cfg P req =
               caught (logged (started hs) [transcription_call cfg req bytes])
                      e)
    \/ (exists u0 pre e,
          input_resolved cfg P req u0 pre
          /\ CLEAN_TRANSCRIPT cfg && Js.truthy u0 = true
          /\ responses_create P (cleanup_input (Gate.speakLanguage req) u0)
               = inl e
          /\ run cfg P req =
               caught (logged (started hs)
                         (pre ++ [CallCleanup
                                    (cleanup_input (Gate.speakLanguage req)
                                                   u0)]))
                      e)
    \/ (exists u0 pre u pre',
          input_resolved cfg P req u0 pre
          /\ cleaned cfg P (Gate.speakLanguage req) u0 u pre'
          /\ run cfg P req =
               generated cfg P (wantsStream req) (Gate.uid req)
                 (Gate.conversationId req) (Gate.speakLanguage req)
                 (Gate.answerLanguage req) u (messages_for req u)
                 (logged (started hs) (pre ++ pre'))).
Proof.
  intro Hin. destruct (run_paths cfg P req) as [hs [(f & _ & R)|H]].
  - rewrite R in Hin. unfold caught in Hin.
    destruct (remap (inspected (not_a_function f))) as [[code kind] msg].
    destruct Hin.
  - exists hs. exact H.
Qed.

Lemma persistence_tail cfg P uid conv u a sl al :
  forallb is_tail_call (fst (persistence cfg P uid conv u a sl al)) = true.
Proof.
  unfold persistence, history_writes.
  destruct (adminApp cfg && Js.truthy uid); [|reflexivity].
  destruct (firestore_set P uid conv); [reflexivity|].
  destruct (firestore_add P uid conv _); reflexivity.
Qed.

(** Generation logs its own call, then only calls of the tail. *)
Lemma generated_calls cfg P stream uid conv sl al u msgs (w : world) :
  exists tail,
    calls (generated cfg P stream uid conv sl al u msgs w) =
      (calls w ++ generation_call stream msgs :: tail)%list
    /\ forallb is_tail_call tail = true.
Proof.
  unfold generated, streamed, caught, generation_call.
  destruct stream.
  - destruct (chat_stream P msgs) as [e|s]; [now exists []|].
    destruct (failure s); [now exists []|].
    eexists. split; [reflexivity|]. cbn [forallb is_tail_call andb].
    apply persistence_tail.
  - destruct (responses_create P msgs) as [e|o].
    + exists []. split; [|reflexivity].
      now destruct (remap (inspected e)) as [[code kind] msg].
    + eexists. split; [reflexivity|]. cbn [forallb is_tail_call andb].
      apply persistence_tail.
Qed.

Lemma calls_caught (w : world) (e : exn) : calls (caught w e) = calls w.
Proof.
  unfold caught. now destruct (remap (inspected e)) as [[code kind] msg].
Qed.

Lemma input_resolved_pre cfg P req u0 pre c :
  input_resolved cfg P req u0 pre -> In c pre ->
  exists bytes text,
    c = transcription_call cfg req bytes
    /\ transcription cfg P req bytes = inr text
    /\ u0 = Js.trim text.
Proof.
  intros [_ [(bytes & text & A & T & U & ->)|(_ & _ & ->)]] Hin;
    [|destruct Hin].
  destruct Hin as [<-|[]]. now exists bytes, text.
Qed.

Lemma cleaned_pre cfg P sl u0 u pre c :
  cleaned cfg P sl u0 u pre -> In c pre ->
  c = CallCleanup (cleanup_input sl u0)
  /\ exists o, responses_create P (cleanup_input sl u0) = inr o
              /\ u = Js.trim (Js.or_else o u0).
Proof.
  intros [(_ & _ & ->)|(_ & o & O & U & ->)] Hin; [destruct Hin|].
  destruct Hin as [<-|[]]. split; [reflexivity|]. now exists o.
Qed.

Lemma tail_call_in (tail : list call) (c : call) :
  forallb is_tail_call tail = true -> In c tail -> is_tail_call c = true.
Proof.
  intros H Hin. rewrite forallb_forall in H. now apply H.
Qed.

(** A generation call in the log means the request reached generation
    in that mode, with these messages. *)
Lemma generation_called cfg P (req : request) stream msgs :
  In (generation_call stream msgs) (calls (run cfg P req)) ->
  exists hs u0 pre u pre',
    input_resolved cfg P req u0 pre
    /\ cleaned cfg P (Gate.speakLanguage req) u0 u pre'
    /\ wantsStream req = stream
    /\ msgs = messages_for req u
    /\ run cfg P req =
         generated cfg P stream (Gate.uid req) (Gate.conversationId req)
           (Gate.speakLanguage req) (Gate.answerLanguage req) u msgs
           (logged (started hs) (pre ++ pre')).
Proof.
  intro Hin.
  assert (K : forall c, c = generation_call stream msgs ->
                is_tail_call c = false
                /\ (forall b, c <> transcription_call cfg req b)
                /\ (forall i, c <> CallCleanup i)).
  { intros c ->. unfold generation_call. destruct stream;
      repeat split; intros; discriminate. }
  destruct (K _ eq_refl) as (K1 & K2 & K3). clear K.
  destruct (run_paths_in cfg P req _ Hin)
    as [hs [(code & kind & _ & E)
           |[(bytes & e & _ & _ & _ & E)
            |[(u0 & pre & e & I & _ & _ & E)
             |(u0 & pre & u & pre' & I & C & E)]]]];
    rewrite E in Hin.
  - destruct Hin.
  - rewrite calls_caught in Hin. destruct Hin as [Hin|[]].
    now apply eq_sym, K2 in Hin.
  - rewrite calls_caught in Hin. cbn [calls logged started app] in Hin.
    apply in_app_or in Hin. destruct Hin as [Hin|[Hin|[]]].
    + destruct (input_resolved_pre _ _ _ _ _ _ I Hin) as (b & t & Hc & _).
      now apply K2 in Hc.
    + now apply eq_sym, K3 in Hin.
  - destruct (generated_calls cfg P (wantsStream req) (Gate.uid req)
                (Gate.conversationId req) (Gate.speakLanguage req)
                (Gate.answerLanguage req) u (messages_for req u)
                (logged (started hs) (pre ++ pre'))) as (tail & Ec & Ht).
    rewrite Ec in Hin. cbn [calls logged started app] in Hin.
    apply in_app_or in Hin. destruct Hin as [Hin|[Hin|Hin]].
    + apply in_app_or in Hin. destruct Hin as [Hin|Hin].
      * destruct (input_resolved_pre _ _ _ _ _ _ I Hin) as (b & t & Hc & _).
        now apply K2 in Hc.
      * destruct (cleaned_pre _ _ _ _ _ _ _ C Hin) as (Hc & _).
        now apply K3 in Hc.
    + assert (W : wantsStream req = stream /\ messages_for req u = msgs).
      { unfold generation_call in Hin.
        destruct (wantsStream req), stream; try discriminate Hin;
          injection Hin as <-; now split. }
      destruct W as [W <-].
      exists hs, u0, pre, u, pre'.
      split; [exact I|]. split; [exact C|]. split; [exact W|].
      split; [reflexivity|]. rewrite E, W. reflexivity.
    + apply (tail_call_in _ _ Ht) in Hin. congruence.
Qed.

(* ================================================================== *)
(** ** Identity mismatch *)

(** C2, as stated, fails: with Alice's uid declared, Bob's identity
    verified and no conversation identifier, the request is answered 400
    [missing_conversation], not 401 [unauthenticated]. *)
Lemma mismatch_answered_missing_conversation :
  Gate.identities_differ Sample.mismatch_without_conversation = true
  /\ http_status (run Sample.cfg Sample.P
                      Sample.mismatch_without_conversation) = 400%N
  /\ sent (res (run Sample.cfg Sample.P
                    Sample.mismatch_without_conversation)) =
       [Json (JsonError "missing_conversation" "No conversationId.")]
  /\ ~ mismatch_always_401 Sample.cfg Sample.P
                           Sample.mismatch_without_conversation.
Proof.
  repeat split; try reflexivity.
  intro H. destruct (H eq_refl) as (_ & Hs & _). discriminate Hs.
Qed.

Lemma nonempty_truthy (s : string) : s <> "" -> Gate.empty s = false.
Proof. destruct s; [congruence | reflexivity]. Qed.

(** C2, amended. A request whose declared and verified identities both
    exist and differ is rejected before any collaborator is called, in
    either response mode. When one of the other trimmed fields holds a
    truthy value that is not a string, the rejection is 500
    [processing_failed] as a JSON body. Otherwise it is 400
    [missing_conversation] when the conversation identifier is empty,
    else 400 [missing_language] when a language selection is empty, else
    401 [unauthenticated]; each of the three travels in the mode of the
    request. *)
Theorem identity_mismatch_rejected cfg P (req : request) :
  Gate.identities_differ req = true ->
  calls (run cfg P req) = []
  /\ closed (run cfg P req) = true
  /\ (unreadable (req_body req) <> None ->
      http_status (run cfg P req) = 500%N
      /\ sent (res (run cfg P req)) = [processing_failed])
  /\ (unreadable (req_body req) = None ->
      (Gate.conversationId req = "" ->
       http_status (run cfg P req) = 400%N
       /\ sent (res (run cfg P req)) =
            [rejection (wantsStream req) "missing_conversation"
                       "No conversationId."])
      /\ (Gate.conversationId req <> "" ->
          Gate.answerLanguage req = "" \/ Gate.speakLanguage req = "" ->
          http_status (run cfg P req) = 400%N
          /\ sent (res (run cfg P req)) =
               [rejection (wantsStream req) "missing_language"
                  "Please select both Speaking and Answer languages."])
      /\ (Gate.conversationId req <> "" ->
          Gate.answerLanguage req <> "" ->
          Gate.speakLanguage req <> "" ->
          rejected_unauthenticated cfg P req)).
Proof.
  intro D.
  destruct (unreadable (req_body req)) as [f|] eqn:U.
  { rewrite (run_unreadable cfg P req f U).
    split; [reflexivity|]. split; [reflexivity|].
    split; [now split | discriminate]. }
  assert (F : exists code kind,
             Gate.first_failure req = Some (code, kind)).
  { unfold Gate.first_failure.
    destruct (Gate.empty (Gate.conversationId req)); [eauto|].
    destruct (_ || _); [eauto|]. rewrite D. eauto. }
  destruct F as (code & kind & F).
  destruct (gate_rejects cfg P req _ _ U F) as (H1 & _ & H3 & _).
  split; [exact H1|]. split; [exact H3|]. split; [congruence|].
  intros _. split; [|split].
  - intro Hc.
    assert (G : Gate.first_failure req
                = Some (400%N, "missing_conversation")).
    { unfold Gate.first_failure. now rewrite Hc. }
    destruct (gate_rejects cfg P req _ _ U G) as (_ & G2 & _ & G4).
    split; [exact G2 | exact G4].
  - intros Hc Hl.
    assert (G : Gate.first_failure req = Some (400%N, "missing_language")).
    { unfold Gate.first_failure. rewrite (nonempty_truthy _ Hc).
      destruct Hl as [-> | ->]; [reflexivity|].
      now rewrite orb_true_r. }
    destruct (gate_rejects cfg P req _ _ U G) as (_ & G2 & _ & G4).
    split; [exact G2 | exact G4].
  - intros Hc Ha Hs.
    assert (G : Gate.first_failure req = Some (401%N, "unauthenticated")).
    { unfold Gate.first_failure.
      now rewrite (nonempty_truthy _ Hc), (nonempty_truthy _ Ha),
        (nonempty_truthy _ Hs), D. }
    destruct (gate_rejects cfg P req _ _ U G) as (G1 & G2 & G3 & G4).
    now repeat split.
Qed.

Lemma identity_mismatch_rejected_witness :
  rejected_unauthenticated Sample.cfg Sample.P Sample.mismatch
  /\ sent (res (run Sample.cfg Sample.P
                    Sample.mismatch_without_conversation)) =
       [rejection (wantsStream Sample.mismatch_without_conversation)
                  "missing_conversation" "No conversationId."].
Proof.
  split.
  - apply (proj2 (proj2 (proj2 (proj2 (proj2
             (identity_mismatch_rejected Sample.cfg Sample.P Sample.mismatch
                eq_refl))) eq_refl)));
      discriminate.
  - apply (proj1 (proj2 (proj2 (proj2
             (identity_mismatch_rejected Sample.cfg Sample.P
                Sample.mismatch_without_conversation eq_refl))) eq_refl)).
    reflexivity.
Defined.

(* ================================================================== *)
(** ** The frames of a stream *)

Lemma persistence_fails cfg P uid conv u a sl al :
  snd (persistence cfg P uid conv u a sl al) =
    adminApp cfg && Js.truthy uid && write_fails P uid conv u a sl al.
Proof.
  unfold persistence, history_writes, write_fails.
  destruct (adminApp cfg && Js.truthy uid); [|reflexivity].
  destruct (firestore_set P uid conv); [reflexivity|].
  destruct (firestore_add P uid conv _); [reflexivity|].
  destruct (firestore_add P uid conv _); reflexivity.
Qed.

Lemma streamed_complete cfg P uid conv sl al u msgs cs (w : world) :
  chat_stream P msgs = inr {| chunks := cs; failure := None |} ->
  sent (res w) = [] ->
  exists warn,
    frames (streamed cfg P uid conv sl al u msgs w) =
      (delta_frames cs ++ [FrameMessageEnd]
       ++ synthesis_frames (speech P (join (tokens_of cs)))
       ++ warn ++ [FrameDone u (join (tokens_of cs))])%list
    /\ (warn = [] \/ warn = [FrameWarn "history_write_failed"])
    /\ bodies (streamed cfg P uid conv sl al u msgs w) = []
    /\ closed (streamed cfg P uid conv sl al u msgs w) = true
    /\ http_status (streamed cfg P uid conv sl al u msgs w) =
         http_status w.
Proof.
  intros S E. unfold streamed. rewrite S. cbn [chunks failure].
  exists (if snd (persistence cfg P uid conv u (join (tokens_of cs)) sl al)
          then [FrameWarn "history_write_failed"] else []).
  unfold frames, bodies, closed, http_status, replied, logged.
  cbn [sent res ended statusCode calls]. rewrite E. cbn [app].
  rewrite frames_data, bodies_data. repeat split.
  destruct (snd _); auto.
Qed.

(** C1, as stated, fails: when the history write fails, a
    [history_write_failed] warning frame stands between the synthesis
    frame and the done frame. *)
Lemma stream_with_failed_history_write :
  In (CallChatStream (messages_for (Sample.typed true) "What is 2+2?"))
     (calls Sample.stream_store_down)
  /\ chat_stream Sample.P_store_down
       (messages_for (Sample.typed true) "What is 2+2?") =
     inr {| chunks := Sample.streamed_chunks; failure := None |}
  /\ frames Sample.stream_store_down =
       [FrameDelta "Fo"; FrameDelta "ur!"; FrameMessageEnd; FrameTts "QUJD";
        FrameWarn "history_write_failed";
        FrameDone "What is 2+2?" "Four!"]
  /\ ~ claimed_stream (tokens_of Sample.streamed_chunks)
                      (frames Sample.stream_store_down).
Proof.
  split; [vm_compute; left; reflexivity|].
  split; [reflexivity|]. split; [reflexivity|].
  intros (deltas & synth & transcript & E & _ & Hs).
  change (frames Sample.stream_store_down)
    with [FrameDelta "Fo"; FrameDelta "ur!"; FrameMessageEnd; FrameTts "QUJD";
          FrameWarn "history_write_failed";
          FrameDone "What is 2+2?" "Four!"] in E.
  destruct deltas as [|d1 [|d2 [|d3 deltas]]]; try discriminate E.
  injection E as _ _ E.
  destruct Hs as [->|[[a ->]|[m ->]]]; discriminate E.
Qed.

(** C1, amended. For a stream that yields the chunks with tokens T1..Tn
    and finishes, the caller receives, in this order: one delta frame per
    non-empty token, which together reconstruct T1..Tn; one
    end-of-message frame; at most one frame about synthesis (the audio
    when synthesis returned some, a [tts_error] warning when it failed);
    a [history_write_failed] warning exactly when persistence was
    attempted, the identity backend being initialised and the declared
    uid not empty, and one of its three writes was refused; one done
    frame whose text is the concatenation of T1..Tn. Nothing else is
    sent, and the channel is closed. *)
Theorem streamed_frames_in_order cfg P (req : request) msgs cs :
  In (CallChatStream msgs) (calls (run cfg P req)) ->
  chat_stream P msgs = inr {| chunks := cs; failure := None |} ->
  exists transcript warn,
    frames (run cfg P req) =
      (map FrameDelta (filter Js.truthy (tokens_of cs))
       ++ [FrameMessageEnd]
       ++ synthesis_frames (speech P (join (tokens_of cs)))
       ++ warn
       ++ [FrameDone transcript (join (tokens_of cs))])%list
    /\ join (filter Js.truthy (tokens_of cs)) = join (tokens_of cs)
    /\ (length (synthesis_frames (speech P (join (tokens_of cs)))) <= 1)%nat
    /\ warn =
         (if adminApp cfg && Js.truthy (Gate.uid req)
             && write_fails P (Gate.uid req) (Gate.conversationId req)
                  transcript (join (tokens_of cs))
                  (Gate.speakLanguage req) (Gate.answerLanguage req)
          then [FrameWarn "history_write_failed"] else [])
    /\ bodies (run cfg P req) = []
    /\ closed (run cfg P req) = true.
Proof.
  intros Hin S.
  destruct (generation_called cfg P req true msgs Hin)
    as (hs & u0 & pre & u & pre' & _ & _ & _ & _ & ->).
  unfold generated, streamed. rewrite S. cbn [chunks failure].
  exists u,
    (if snd (persistence cfg P (Gate.uid req) (Gate.conversationId req) u
               (join (tokens_of cs)) (Gate.speakLanguage req)
               (Gate.answerLanguage req))
     then [FrameWarn "history_write_failed"] else []).
  unfold frames, bodies, closed, replied, logged.
  cbn [sent res ended calls started app].
  rewrite frames_data, bodies_data.
  split; [reflexivity|]. split; [apply join_filter_truthy|].
  split.
  { unfold synthesis_frames. destruct (speech P _) as [e|b]; [simpl; lia|].
    destruct (Js.truthy b); simpl; lia. }
  split; [now rewrite persistence_fails|]. now split.
Qed.

Lemma streamed_frames_in_order_witness :
  exists transcript warn,
    frames (run Sample.cfg Sample.P_store_down (Sample.typed true)) =
      (map FrameDelta (filter Js.truthy (tokens_of Sample.streamed_chunks))
       ++ [FrameMessageEnd]
       ++ synthesis_frames
            (speech Sample.P_store_down
               (join (tokens_of Sample.streamed_chunks)))
       ++ warn
       ++ [FrameDone transcript
             (join (tokens_of Sample.streamed_chunks))])%list
    /\ join (filter Js.truthy (tokens_of Sample.streamed_chunks)) =
       join (tokens_of Sample.streamed_chunks)
    /\ (length (synthesis_frames
                  (speech Sample.P_store_down
                     (join (tokens_of Sample.streamed_chunks)))) <= 1)%nat
    /\ warn =
         (if adminApp Sample.cfg && Js.truthy (Gate.uid (Sample.typed true))
             && write_fails Sample.P_store_down
                  (Gate.uid (Sample.typed true))
                  (Gate.conversationId (Sample.typed true))
                  transcript (join (tokens_of Sample.streamed_chunks))
                  (Gate.speakLanguage (Sample.typed true))
                  (Gate.answerLanguage (Sample.typed true))
          then [FrameWarn "history_write_failed"] else [])
    /\ bodies (run Sample.cfg Sample.P_store_down (Sample.typed true)) = []
    /\ closed (run Sample.cfg Sample.P_store_down (Sample.typed true))
       = true.
Proof.
  apply (streamed_frames_in_order Sample.cfg Sample.P_store_down
           (Sample.typed true)
           (messages_for (Sample.typed true) "What is 2+2?")
           Sample.streamed_chunks).
  - vm_compute. left. reflexivity.
  - reflexivity.
Defined.

(* ================================================================== *)
(** ** Synthesis failure *)

Lemma buffered_complete cfg P uid conv sl al u msgs o (w : world) :
  responses_create P msgs = inr o ->
  sent (res w) = [] ->
  sent (res (generated cfg P false uid conv sl al u msgs w)) =
    [Json (JsonAnswer conv u (Js.trim o)
             (buffered_audio (speech P (Js.trim o))))]
  /\ closed (generated cfg P false uid conv sl al u msgs w) = true
  /\ http_status (generated cfg P false uid conv sl al u msgs w) =
       http_status w.
Proof.
  intros R E. unfold generated. rewrite R.
  unfold closed, http_status, replied, logged.
  cbn [sent res ended statusCode calls]. now rewrite E.
Qed.

(** C5. When generation succeeds and speech synthesis fails, the request
    still succeeds. In buffered mode the reply is the answer with status
    200 and an empty [audioBase64]. In streaming mode the status stays
    200, a [tts_error] warning frame follows the end-of-message frame,
    the done frame is still sent last, and no error frame appears. *)
Theorem synthesis_failure_is_not_fatal cfg P (req : request) msgs e :
  (forall o,
      In (CallResponses msgs) (calls (run cfg P req)) ->
      responses_create P msgs = inr o ->
      speech P (Js.trim o) = inl e ->
      http_status (run cfg P req) = 200%N
      /\ closed (run cfg P req) = true
      /\ exists transcript,
           sent (res (run cfg P req)) =
             [Json (JsonAnswer (Gate.conversationId req) transcript
                               (Js.trim o) "")])
  /\ (forall cs,
        In (CallChatStream msgs) (calls (run cfg P req)) ->
        chat_stream P msgs = inr {| chunks := cs; failure := None |} ->
        speech P (join (tokens_of cs)) = inl e ->
        http_status (run cfg P req) = 200%N
        /\ closed (run cfg P req) = true
        /\ bodies (run cfg P req) = []
        /\ exists transcript warn,
             frames (run cfg P req) =
               (delta_frames cs
                ++ [FrameMessageEnd;
                    FrameTtsError
                      (Js.or_else (err_message e) (err_string e))]
                ++ warn
                ++ [FrameDone transcript (join (tokens_of cs))])%list
             /\ (warn = [] \/ warn = [FrameWarn "history_write_failed"])).
Proof.
  split.
  - intros o Hin R S.
    destruct (generation_called cfg P req false msgs Hin)
      as (hs & u0 & pre & u & pre' & _ & _ & _ & _ & ->).
    destruct (buffered_complete cfg P (Gate.uid req) (Gate.conversationId req)
                (Gate.speakLanguage req) (Gate.answerLanguage req) u msgs o
                (logged (started hs) (pre ++ pre')) R eq_refl)
      as (H1 & H2 & H3).
    split; [exact H3|]. split; [exact H2|]. exists u.
    rewrite H1, S. reflexivity.
  - intros cs Hin R S.
    destruct (generation_called cfg P req true msgs Hin)
      as (hs & u0 & pre & u & pre' & _ & _ & _ & _ & ->).
    unfold generated.
    destruct (streamed_complete cfg P (Gate.uid req) (Gate.conversationId req)
                (Gate.speakLanguage req) (Gate.answerLanguage req) u msgs
                cs (logged (started hs) (pre ++ pre')) R eq_refl)
      as (warn & F & Hw & B & C & St).
    split; [exact St|]. split; [exact C|]. split; [exact B|].
    exists u, warn. split; [|exact Hw]. rewrite F, S. reflexivity.
Qed.

Lemma synthesis_failure_is_not_fatal_witness :
  (http_status (run Sample.cfg Sample.P_no_speech (Sample.typed false))
     = 200%N
   /\ closed (run Sample.cfg Sample.P_no_speech (Sample.typed false)) = true
   /\ exists transcript,
        sent (res (run Sample.cfg Sample.P_no_speech (Sample.typed false))) =
          [Json (JsonAnswer (Gate.conversationId (Sample.typed false))
                            transcript (Js.trim " Four! ") "")])
  /\ (http_status (run Sample.cfg Sample.P_no_speech (Sample.typed true))
        = 200%N
      /\ closed (run Sample.cfg Sample.P_no_speech (Sample.typed true))
           = true
      /\ bodies (run Sample.cfg Sample.P_no_speech (Sample.typed true)) = []
      /\ exists transcript warn,
           frames (run Sample.cfg Sample.P_no_speech (Sample.typed true)) =
             (delta_frames Sample.streamed_chunks
              ++ [FrameMessageEnd;
                  FrameTtsError
                    (Js.or_else
                       (err_message (Sample.failure_of "model_not_found"))
                       (err_string (Sample.failure_of "model_not_found")))]
              ++ warn
              ++ [FrameDone transcript
                    (join (tokens_of Sample.streamed_chunks))])%list
           /\ (warn = [] \/ warn = [FrameWarn "history_write_failed"])).
Proof.
  split.
  - apply (proj1 (synthesis_failure_is_not_fatal Sample.cfg
                    Sample.P_no_speech (Sample.typed false)
                    (messages_for (Sample.typed false) "What is 2+2?")
                    (Sample.failure_of "model_not_found")) " Four! ").
    + vm_compute. left. reflexivity.
    + reflexivity.
    + reflexivity.
  - apply (proj2 (synthesis_failure_is_not_fatal Sample.cfg
                    Sample.P_no_speech (Sample.typed true)
                    (messages_for (Sample.typed true) "What is 2+2?")
                    (Sample.failure_of "model_not_found"))
                 Sample.streamed_chunks).
    + vm_compute. left. reflexivity.
    + reflexivity.
    + reflexivity.
Defined.

(* ================================================================== *)
(** ** The history window *)





(* ================================================================== *)
(** ** An empty transcription *)





(* ================================================================== *)
(** ** Failures of the collaborators *)

Lemma caught_reply (w : world) (e : exn) :
  sent (res w) = [] -> remapped_reply e (caught w e).
Proof.
  intro H. unfold remapped_reply, caught.
  destruct (remap (inspected e)) as [[code kind] msg].
  unfold http_status, closed, replied. cbn [sent res statusCode ended].
  now rewrite H.
Qed.

(** C4, as stated, fails: in streaming mode a failing generation call is
    not remapped. The rate-limit failure, which the outer [catch] would
    answer with status 500 and [processing_failed], leaves status 200 and
    an error frame that carries the raw message and no error kind. *)
Lemma stream_failure_not_remapped :
  In (CallChatStream (messages_for (Sample.typed true) "What is 2+2?"))
     (calls (run Sample.cfg Sample.P_generation_down (Sample.typed true)))
  /\ chat_stream Sample.P_generation_down
       (messages_for (Sample.typed true) "What is 2+2?") =
     inl (Sample.failure_of "Rate limit reached")
  /\ remap (inspected (Sample.failure_of "Rate limit reached")) =
       (500%N, "processing_failed",
        "Something went wrong while processing input.")
  /\ http_status (run Sample.cfg Sample.P_generation_down
                      (Sample.typed true)) = 200%N
  /\ sent (res (run Sample.cfg Sample.P_generation_down
                    (Sample.typed true))) =
       [Data (FrameError "Rate limit reached")]
  /\ ~ stream_failure_remapped Sample.cfg Sample.P_generation_down
         (Sample.typed true)
         (messages_for (Sample.typed true) "What is 2+2?")
         (Sample.failure_of "Rate limit reached").
Proof.
  split; [vm_compute; left; reflexivity|].
  split; [reflexivity|]. split; [reflexivity|]. split; [reflexivity|].
  split; [reflexivity|].
  intro H. unfold stream_failure_remapped in H.
  assert (R : remapped_reply (Sample.failure_of "Rate limit reached")
                (run Sample.cfg Sample.P_generation_down
                     (Sample.typed true))).
  { apply H; [vm_compute; left; reflexivity | reflexivity]. }
  unfold remapped_reply in R.
  change (remap (inspected (Sample.failure_of "Rate limit reached")))
    with (500%N, "processing_failed",
          "Something went wrong while processing input.") in R.
  destruct R as (R & _). vm_compute in R. discriminate R.
Qed.

(** C4, amended. A failure of the transcription call, of the cleanup
    call or of the buffered generation call is remapped from its
    lower-cased message ([err.error.message], else [err.message]):
    [audio_too_short] with 400 when it contains "shorter than" or "too
    short"; otherwise [invalid_language] with 400 when it contains both
    "invalid" and "language"; otherwise [processing_failed] with 500. The
    reply is that JSON error body whatever response mode was asked for. A
    failure of the streamed generation, at the call or in the middle of
    the stream, is not remapped: the status stays 200 and the stream ends
    with an error frame that carries the raw message. *)
Theorem failures_remapped cfg P (req : request) (e : exn) :
  (forall bytes model language prompt,
      In (CallTranscribe bytes model language prompt)
         (calls (run cfg P req)) ->
      transcribe P bytes model language prompt = inl e ->
      remapped_reply e (run cfg P req))
  /\ (forall input,
        In (CallCleanup input) (calls (run cfg P req)) ->
        responses_create P input = inl e ->
        remapped_reply e (run cfg P req))
  /\ (forall msgs,
        In (CallResponses msgs) (calls (run cfg P req)) ->
        responses_create P msgs = inl e ->
        remapped_reply e (run cfg P req))
  /\ (forall msgs s,
        In (CallChatStream msgs) (calls (run cfg P req)) ->
        chat_stream P msgs = inl e
        \/ (chat_stream P msgs = inr s /\ failure s = Some e) ->
        http_status (run cfg P req) = 200%N
        /\ error_kinds (run cfg P req) = []
        /\ bodies (run cfg P req) = []
        /\ closed (run cfg P req) = true
        /\ exists deltas,
             frames (run cfg P req) =
               (map FrameDelta deltas ++ [stream_error_frame e])%list).
Proof.
  split; [|split; [|split]].
  - intros bytes model language prompt Hin T.
    destruct (run_paths_in cfg P req _ Hin)
      as [hs [(code & kind & _ & R)
             |[(b & e' & _ & _ & Te & R)
              |[(u0 & pre & e' & I & C & _ & R)
               |(u0 & pre & u & pre' & I & C & R)]]]];
      rewrite R in Hin |- *.
    + destruct Hin.
    + rewrite calls_caught in Hin. destruct Hin as [Hin|[]].
      unfold transcription_call in Hin. unfold transcription in Te.
      assert (e' = e) as -> by congruence. now apply caught_reply.
    + exfalso. rewrite calls_caught in Hin.
      cbn [calls logged started app] in Hin.
      apply in_app_or in Hin. destruct Hin as [Hin|[Hin|[]]];
        [|discriminate Hin].
      destruct (input_resolved_pre _ _ _ _ _ _ I Hin) as (b & t & Hc & Ht & _).
      unfold transcription_call in Hc. unfold transcription in Ht.
      congruence.
    + exfalso.
      destruct (generated_calls cfg P (wantsStream req) (Gate.uid req)
                  (Gate.conversationId req) (Gate.speakLanguage req)
                  (Gate.answerLanguage req) u (messages_for req u)
                  (logged (started hs) (pre ++ pre'))) as (tail & Ec & Ht).
      rewrite Ec in Hin. cbn [calls logged started app] in Hin.
      apply in_app_or in Hin. destruct Hin as [Hin|[Hin|Hin]].
      * apply in_app_or in Hin. destruct Hin as [Hin|Hin].
        -- destruct (input_resolved_pre _ _ _ _ _ _ I Hin)
             as (b & t & Hc & Ht' & _).
           unfold transcription_call in Hc. unfold transcription in Ht'.
           congruence.
        -- destruct (cleaned_pre _ _ _ _ _ _ _ C Hin) as (Hc & _).
           discriminate Hc.
      * unfold generation_call in Hin.
        destruct (wantsStream req); discriminate Hin.
      * apply (tail_call_in _ _ Ht) in Hin. discriminate Hin.
  - intros input Hin T.
    destruct (run_paths_in cfg P req _ Hin)
      as [hs [(code & kind & _ & R)
             |[(b & e' & _ & _ & Te & R)
              |[(u0 & pre & e' & I & C & O & R)
               |(u0 & pre & u & pre' & I & C & R)]]]];
      rewrite R in Hin |- *.
    + destruct Hin.
    + rewrite calls_caught in Hin. destruct Hin as [Hin|[]].
      discriminate Hin.
    + rewrite calls_caught in Hin. cbn [calls logged started app] in Hin.
      apply in_app_or in Hin. destruct Hin as [Hin|[Hin|[]]].
      * destruct (input_resolved_pre _ _ _ _ _ _ I Hin) as (b & t & Hc & _).
        discriminate Hc.
      * assert (e' = e) as -> by congruence. now apply caught_reply.
    + exfalso.
      destruct (generated_calls cfg P (wantsStream req) (Gate.uid req)
                  (Gate.conversationId req) (Gate.speakLanguage req)
                  (Gate.answerLanguage req) u (messages_for req u)
                  (logged (started hs) (pre ++ pre'))) as (tail & Ec & Ht).
      rewrite Ec in Hin. cbn [calls logged started app] in Hin.
      apply in_app_or in Hin. destruct Hin as [Hin|[Hin|Hin]].
      * apply in_app_or in Hin. destruct Hin as [Hin|Hin].
        -- destruct (input_resolved_pre _ _ _ _ _ _ I Hin)
             as (b & t & Hc & _).
           discriminate Hc.
        -- destruct (cleaned_pre _ _ _ _ _ _ _ C Hin) as (Hc & o & O & _).
           congruence.
      * unfold generation_call in Hin.
        destruct (wantsStream req); discriminate Hin.
      * apply (tail_call_in _ _ Ht) in Hin. discriminate Hin.
  - intros msgs Hin T.
    destruct (generation_called cfg P req false msgs Hin)
      as (hs & u0 & pre & u & pre' & _ & _ & _ & _ & ->).
    unfold generated. rewrite T. now apply caught_reply.
  - intros msgs s Hin T.
    destruct (generation_called cfg P req true msgs Hin)
      as (hs & u0 & pre & u & pre' & _ & _ & _ & _ & ->).
    unfold generated. rewrite error_kinds_streamed.
    split; [|split; [reflexivity|]].
    { unfold streamed.
      destruct (chat_stream P msgs) as [e'|s']; [reflexivity|].
      destruct (failure s'); reflexivity. }
    unfold streamed. destruct T as [T|[T F]]; rewrite T; [|rewrite F].
    + split; [reflexivity|]. split; [reflexivity|]. now exists [].
    + unfold bodies, frames, closed, replied, logged.
      cbn [sent res ended calls started app].
      rewrite bodies_data, frames_data.
      split; [reflexivity|]. split; [reflexivity|].
      now exists (filter Js.truthy (tokens_of (chunks s))).
Qed.

Lemma failures_remapped_witness :
  remapped_reply Sample.short_audio
    (run Sample.cfg Sample.P_short_audio (Sample.spoken true))
  /\ remapped_reply (Sample.failure_of "Rate limit reached")
       (run Sample.cfg_cleanup Sample.P_cleanup_down (Sample.typed true))
  /\ remapped_reply (Sample.failure_of "Rate limit reached")
       (run Sample.cfg Sample.P_generation_down (Sample.typed false))
  /\ (http_status (run Sample.cfg Sample.P_generation_down
                       (Sample.typed true)) = 200%N
      /\ error_kinds (run Sample.cfg Sample.P_generation_down
                          (Sample.typed true)) = []
      /\ bodies (run Sample.cfg Sample.P_generation_down
                     (Sample.typed true)) = []
      /\ closed (run Sample.cfg Sample.P_generation_down
                     (Sample.typed true)) = true
      /\ exists deltas,
           frames (run Sample.cfg Sample.P_generation_down
                       (Sample.typed true)) =
             (map FrameDelta deltas
              ++ [stream_error_frame
                    (Sample.failure_of "Rate limit reached")])%list).
Proof.
  split; [|split; [|split]].
  - apply (proj1 (failures_remapped Sample.cfg Sample.P_short_audio
                    (Sample.spoken true) Sample.short_audio)
                 (repeat Byte.x00 (N.to_nat 6000)) "whisper-1" (Some (IsoCode "en"))
                 (stt_prompt "English")).
    + vm_compute. left. reflexivity.
    + reflexivity.
  - apply (proj1 (proj2 (failures_remapped Sample.cfg_cleanup
                           Sample.P_cleanup_down (Sample.typed true)
                           (Sample.failure_of "Rate limit reached")))
                 (cleanup_input "English" "What is 2+2?")).
    + vm_compute. left. reflexivity.
    + reflexivity.
  - apply (proj1 (proj2 (proj2 (failures_remapped Sample.cfg
                                  Sample.P_generation_down
                                  (Sample.typed false)
                                  (Sample.failure_of "Rate limit reached"))))
                 (messages_for (Sample.typed false) "What is 2+2?")).
    + vm_compute. left. reflexivity.
    + reflexivity.
  - apply (proj2 (proj2 (proj2 (failures_remapped Sample.cfg
                                  Sample.P_generation_down
                                  (Sample.typed true)
                                  (Sample.failure_of "Rate limit reached"))))
                 (messages_for (Sample.typed true) "What is 2+2?")
                 {| chunks := []; failure := None |}).
    + vm_compute. left. reflexivity.
    + left. reflexivity.
Defined.


(* ================================================================== *)
(** ** The transcript cleanup *)








(* ================================================================== *)
(** ** Undersized recordings *)

(** A transcription call in the log means the recording qualified. *)
Lemma transcription_called cfg P (req : request) b m l p :
  In (CallTranscribe b m l p) (calls (run cfg P req)) ->
  exists bytes, qualifying_audio req = Some bytes.
Proof.
  intro Hin.
  assert (Q : forall u0 pre,
             input_resolved cfg P req u0 pre ->
             In (CallTranscribe b m l p) pre ->
             exists bytes, qualifying_audio req = Some bytes).
  { intros u0 pre [_ [(bytes & _ & A & _)|(_ & _ & ->)]] Hp;
      [now exists bytes | destruct Hp]. }
  destruct (run_paths_in cfg P req _ Hin)
    as [hs [(code & kind & _ & R)
           |[(bytes & e' & _ & A & _ & R)
            |[(u0 & pre & e' & I & C & O & R)
             |(u0 & pre & u & pre' & I & C & R)]]]];
    rewrite R in Hin.
  - destruct Hin.
  - now exists bytes.
  - rewrite calls_caught in Hin. cbn [calls logged started app] in Hin.
    apply in_app_or in Hin. destruct Hin as [Hin|[Hin|[]]];
      [now apply (Q u0 pre) | discriminate Hin].
  - destruct (generated_calls cfg P (wantsStream req) (Gate.uid req)
                (Gate.conversationId req) (Gate.speakLanguage req)
                (Gate.answerLanguage req) u (messages_for req u)
                (logged (started hs) (pre ++ pre'))) as (tail & Ec & Ht).
    rewrite Ec in Hin. cbn [calls logged started app] in Hin.
    apply in_app_or in Hin. destruct Hin as [Hin|[Hin|Hin]].
    + apply in_app_or in Hin. destruct Hin as [Hin|Hin];
        [now apply (Q u0 pre)|].
      destruct (cleaned_pre _ _ _ _ _ _ _ C Hin) as (Hc & _).
      discriminate Hc.
    + unfold generation_call in Hin.
      destruct (wantsStream req); discriminate Hin.
    + apply (tail_call_in _ _ Ht) in Hin. discriminate Hin.
Qed.

Lemma undersized_not_qualifying (req : request) f :
  file req = Some f -> (size f < MIN_AUDIO_BYTES)%N ->
  qualifying_audio req = None.
Proof.
  intros F S. unfold qualifying_audio. rewrite F.
  destruct (buffer f); [|reflexivity].
  apply N.ltb_lt in S. rewrite N.ltb_antisym in S.
  now destruct (MIN_AUDIO_BYTES <=? size f)%N.
Qed.

Lemma reaches_input_gate (req : request) :
  reaches_input req ->
  Gate.first_failure req =
    if negb (Gate.has_audio req) && negb (Gate.has_text req)
    then Some (400%N, "no_input") else None.
Proof.
  intros (_ & Hc & Ha & Hs & D). unfold Gate.first_failure.
  now rewrite (nonempty_truthy _ Hc), (nonempty_truthy _ Ha),
    (nonempty_truthy _ Hs), D.
Qed.

(** C8, as stated, fails: a request with an undersized recording, no
    text and no conversation identifier is answered
    [missing_conversation], not [no_input]. *)
Lemma undersized_audio_without_conversation :
  file Sample.click_without_conversation = Some Sample.click
  /\ (size Sample.click < MIN_AUDIO_BYTES)%N
  /\ Gate.has_text Sample.click_without_conversation = false
  /\ error_kinds (run Sample.cfg Sample.P Sample.click_without_conversation)
     = ["missing_conversation"]
  /\ ~ undersized_audio_no_input Sample.cfg Sample.P
         Sample.click_without_conversation.
Proof.
  split; [reflexivity|]. split; [reflexivity|]. split; [reflexivity|].
  split; [reflexivity|].
  intro H. unfold undersized_audio_no_input in H.
  assert (E : error_kinds
                (run Sample.cfg Sample.P Sample.click_without_conversation)
              = ["no_input"]).
  { apply H; [|reflexivity]. exists Sample.click. split; reflexivity. }
  discriminate E.
Qed.

(** C8, amended. A recording under 5000 bytes is treated as absent: the
    request is answered exactly as the same request without the file,
    and no transcription is asked for. When such a request passes the
    conversation, language and identity checks, a text field that is not
    empty once trimmed is the user input, so that its trimmed value goes
    to the cleanup pass when the toggle is on and to generation
    otherwise; and when the text does not qualify either, the request is
    answered 400 [no_input] before any collaborator is called. *)
Theorem undersized_audio_is_absent cfg P (req : request) f :
  file req = Some f ->
  (size f < MIN_AUDIO_BYTES)%N ->
  run cfg P req = run cfg P (without_file req)
  /\ (forall b m l p, ~ In (CallTranscribe b m l p) (calls (run cfg P req)))
  /\ (reaches_input req ->
      (forall t,
          body_text (req_body req) = Some t -> Js.trim t <> "" ->
          exists rest,
            calls (run cfg P req) =
              (if CLEAN_TRANSCRIPT cfg
               then CallCleanup
                      (cleanup_input (Gate.speakLanguage req) (Js.trim t))
               else generation_call (wantsStream req)
                      (messages_for req (Js.trim t)))
              :: rest)
      /\ (Gate.has_text req = false ->
          calls (run cfg P req) = []
          /\ http_status (run cfg P req) = 400%N
          /\ closed (run cfg P req) = true
          /\ sent (res (run cfg P req)) =
               [rejection (wantsStream req) "no_input"
                          "No valid audio or text provided."])).
Proof.
  intros F S.
  pose proof (undersized_not_qualifying req f F S) as A.
  split; [|split].
  - rewrite !run_is_outcome. unfold outcome, gated, checked.
    change (qualifying_audio (without_file req)) with (@None (list Byte.byte)).
    rewrite A. reflexivity.
  - intros b m l p Hin.
    destruct (transcription_called cfg P req b m l p Hin) as [bytes Hb].
    congruence.
  - intro G. pose proof (reaches_input_gate req G) as FF.
    pose proof (proj1 G) as Rd.
    rewrite has_audio_qualifying, A in FF. cbn [negb andb] in FF. split.
    + intros t Ht Hn.
      assert (Q : qualifying_text (req_body req) = Some (Js.trim t)).
      { unfold qualifying_text. rewrite Ht.
        destruct (Js.trim t); [now contradiction Hn | reflexivity]. }
      assert (T : Js.truthy (Js.trim t) = true) by now apply truthy_true.
      rewrite has_text_qualifying, Q in FF. cbn [negb] in FF.
      assert (U : forall u0 pre, input_resolved cfg P req u0 pre ->
                    u0 = Js.trim t /\ pre = []).
      { intros u0 pre [_ [(b & _ & A' & _)|(_ & Q' & ->)]]; [congruence|].
        split; [congruence | reflexivity]. }
      destruct (run_paths cfg P req)
        as [hs [(f0 & Rd' & _)
               |[(code & kind & F' & R)
                |[(b & e' & _ & A' & _ & R)
                 |[(u0 & pre & e' & I & C & O & R)
                  |(u0 & pre & u & pre' & I & C & R)]]]]];
        [congruence | congruence | congruence | |].
      * destruct (U u0 pre I) as [-> ->]. rewrite R, calls_caught.
        apply andb_prop in C. destruct C as [-> _]. now exists [].
      * destruct (U u0 pre I) as [-> ->].
        destruct (generated_calls cfg P (wantsStream req) (Gate.uid req)
                    (Gate.conversationId req) (Gate.speakLanguage req)
                    (Gate.answerLanguage req) u (messages_for req u)
                    (logged (started hs) ([] ++ pre')))
          as (tail & Ec & _).
        rewrite R, Ec. cbn [calls logged started app].
        destruct C as [(C & -> & ->)|(C & o & _ & _ & ->)].
        -- rewrite T, andb_true_r in C. rewrite C. now exists tail.
        -- apply andb_prop in C. destruct C as [-> _]. eexists. reflexivity.
    + intro Ht. rewrite Ht in FF. cbn [negb] in FF.
      destruct (gate_rejects cfg P req _ _ Rd FF) as (H1 & H2 & H3 & H4).
      now repeat split.
Qed.

Lemma undersized_audio_is_absent_witness :
  run Sample.cfg Sample.P (Sample.click_with_text true) =
    run Sample.cfg Sample.P (without_file (Sample.click_with_text true))
  /\ (exists rest,
        calls (run Sample.cfg Sample.P (Sample.click_with_text true)) =
          generation_call true
            (messages_for (Sample.click_with_text true) "What is 2+2?")
          :: rest)
  /\ sent (res (run Sample.cfg Sample.P (Sample.click_alone true))) =
       [rejection true "no_input" "No valid audio or text provided."].
Proof.
  split; [|split].
  - apply (proj1 (undersized_audio_is_absent Sample.cfg Sample.P
                    (Sample.click_with_text true) Sample.click
                    eq_refl eq_refl)).
  - apply (proj1 (proj2 (proj2
             (undersized_audio_is_absent Sample.cfg Sample.P
                (Sample.click_with_text true) Sample.click
                eq_refl eq_refl))
             ltac:(repeat split; discriminate || reflexivity))
           "  What is 2+2? " eq_refl ltac:(discriminate)).
  - apply (proj2 (proj2 (proj2
             (undersized_audio_is_absent Sample.cfg Sample.P
                (Sample.click_alone true) Sample.click eq_refl eq_refl))
             ltac:(repeat split; discriminate || reflexivity))
           eq_refl).
Defined.

(* ================================================================== *)
(** ** Unverified identities *)




(** An answer carries the user text of the request and comes after the
    persistence block has run on that very turn pair. *)
Lemma answered_generated cfg P stream uid conv sl al u msgs (w : world)
      transcript text :
  sent (res w) = [] ->
  answered (generated cfg P stream uid conv sl al u msgs w) transcript text ->
  transcript = u
  /\ forall c,
       In c (fst (persistence cfg P uid conv u text sl al)) ->
       In c (calls (generated cfg P stream uid conv sl al u msgs w)).
Proof.
  intros E A. unfold generated, streamed in *.
  assert (ND : forall fs (b : json_body), ~ In (Json b) (map Data fs)).
  { intros fs b H. apply in_map_iff in H. destruct H as (x & Hx & _).
    discriminate Hx. }
  assert (DD : forall fs f, In (Data f) (map Data fs) -> In f fs).
  { intros fs f H. apply in_map_iff in H. destruct H as (x & Hx & Hi).
    now injection Hx as ->. }
  destruct stream.
  - destruct (chat_stream P msgs) as [e|s].
    { unfold answered, replied in A. cbn [sent res logged] in A.
      rewrite E in A. cbn [app In] in A.
      destruct A as [(c & a & [A|[]])|[A|[]]]; discriminate A. }
    destruct (failure s) as [e|].
    { unfold answered, replied in A. cbn [sent res logged] in A.
      rewrite E in A. cbn [app] in A.
      destruct A as [(c & a & A)|A]; [now apply ND in A|].
      apply DD in A. apply in_app_or in A. destruct A as [A|[A|[]]].
      - apply delta_frames_kind in A. destruct A as [t A]. discriminate A.
      - discriminate A. }
    unfold answered, replied in A. cbn [sent res logged] in A.
    rewrite E in A. cbn [app] in A.
    destruct A as [(c & a & A)|A]; [now apply ND in A|].
    apply DD in A. apply in_app_or in A. destruct A as [A|A].
    { apply delta_frames_kind in A. destruct A as [t A]. discriminate A. }
    destruct A as [A|A]; [discriminate A|]. cbn [app] in A.
    apply in_app_or in A. destruct A as [A|A].
    { apply synthesis_frames_kind in A.
      destruct A as [[a A]|[m A]]; discriminate A. }
    apply in_app_or in A. destruct A as [A|[A|[]]].
    { destruct (snd _); [destruct A as [A|[]]; discriminate A | destruct A]. }
    injection A as <- <-. split; [reflexivity|].
    intros c Hc. unfold replied, logged. cbn [calls].
    apply in_or_app. right. right. right. exact Hc.
  - destruct (responses_create P msgs) as [e|o].
    { unfold caught in A. destruct (remap (inspected e)) as [[code kind] m].
      unfold answered, replied in A. cbn [sent res logged] in A.
      rewrite E in A. cbn [app In] in A.
      destruct A as [(c & a & [A|[]])|[A|[]]]; discriminate A. }
    unfold answered, replied in A. cbn [sent res logged] in A.
    rewrite E in A. cbn [app In] in A.
    destruct A as [(c & a & [A|[]])|[A|[]]]; [|discriminate A].
    injection A as _ <- <- _. split; [reflexivity|].
    intros c' Hc. unfold replied, logged. cbn [calls].
    apply in_or_app. right. right. right. exact Hc.
Qed.

Lemma answered_run cfg P (req : request) transcript text :
  answered (run cfg P req) transcript text ->
  forall c,
    In c (fst (persistence cfg P (Gate.uid req) (Gate.conversationId req)
                 transcript text (Gate.speakLanguage req)
                 (Gate.answerLanguage req))) ->
    In c (calls (run cfg P req)).
Proof.
  intro A.
  assert (NJ : forall (w : world) e,
             sent (res w) = [] -> ~ answered (caught w e) transcript text).
  { intros w e E H. unfold caught in H.
    destruct (remap (inspected e)) as [[code kind] m].
    unfold answered, replied in H. cbn [sent res] in H. rewrite E in H.
    cbn [app In] in H.
    destruct H as [(c & a & [H|[]])|[H|[]]]; discriminate H. }
  destruct (run_paths cfg P req)
    as [hs [(f0 & _ & R)
           |[(code & kind & _ & R)
            |[(b & e' & _ & _ & _ & R)
             |[(u0 & pre & e' & I & C & O & R)
              |(u0 & pre & u & pre' & I & C & R)]]]]];
    rewrite R in A |- *.
  - exfalso. now apply NJ in A.
  - exfalso. unfold answered, replied, rejection in A.
    cbn [sent res started app In] in A.
    destruct (wantsStream req);
      destruct A as [(c & a & [A|[]])|[A|[]]]; discriminate A.
  - exfalso. now apply NJ in A.
  - exfalso. now apply NJ in A.
  - destruct (answered_generated cfg P (wantsStream req) (Gate.uid req)
                (Gate.conversationId req) (Gate.speakLanguage req)
                (Gate.answerLanguage req) u (messages_for req u)
                (logged (started hs) (pre ++ pre')) transcript text
                eq_refl A) as [-> H].
    exact H.
Qed.



(* ================================================================== *)
(** ** The reply of every request *)

Lemma remap_codes (m : string) :
  (fst (fst (remap m)) = 400%N
   /\ (snd (fst (remap m)) = "audio_too_short"
       \/ snd (fst (remap m)) = "invalid_language"))
  \/ (fst (fst (remap m)) = 500%N
      /\ snd (fst (remap m)) = "processing_failed").
Proof.
  unfold remap. destruct (_ || _); [left; split; auto|].
  destruct (_ && _); [left; split; auto | right; split; reflexivity].
Qed.

Lemma first_failure_codes (req : request) code kind :
  Gate.first_failure req = Some (code, kind) ->
  (code = 400%N \/ code = 401%N) /\ In kind Gate.kinds.
Proof.
  unfold Gate.first_failure, Gate.kinds.
  destruct (Gate.empty _); [intros [= <- <-]; simpl; auto|].
  destruct (_ || _); [intros [= <- <-]; simpl; auto|].
  destruct (Gate.identities_differ req); [intros [= <- <-]; simpl; auto|].
  destruct (_ && _); [intros [= <- <-]; simpl; auto 6 | discriminate].
Qed.

(** The four kinds of reply. *)
Lemma run_reply cfg P (req : request) :
  closed (run cfg P req) = true
  /\ ((exists code kind,
          Gate.first_failure req = Some (code, kind)
          /\ http_status (run cfg P req) = code
          /\ error_kinds (run cfg P req) = [kind]
          /\ if wantsStream req
             then frames (run cfg P req) =
                    [FrameRejected kind (Gate.message_of kind)]
                  /\ bodies (run cfg P req) = []
             else frames (run cfg P req) = []
                  /\ bodies (run cfg P req) =
                       [JsonError kind (Gate.message_of kind)])
      \/ (exists e,
            http_status (run cfg P req) = fst (fst (remap (inspected e)))
            /\ error_kinds (run cfg P req) =
                 [snd (fst (remap (inspected e)))]
            /\ frames (run cfg P req) = []
            /\ bodies (run cfg P req) =
                 [JsonError (snd (fst (remap (inspected e))))
                            (snd (remap (inspected e)))])
      \/ (wantsStream req = true
          /\ http_status (run cfg P req) = 200%N
          /\ error_kinds (run cfg P req) = []
          /\ bodies (run cfg P req) = []
          /\ frames (run cfg P req) <> [])
      \/ (wantsStream req = false
          /\ http_status (run cfg P req) = 200%N
          /\ error_kinds (run cfg P req) = []
          /\ frames (run cfg P req) = []
          /\ exists conv u a audio,
               bodies (run cfg P req) = [JsonAnswer conv u a audio])).
Proof.
  assert (C : forall (w : world) e,
             sent (res w) = [] ->
             closed (caught w e) = true
             /\ http_status (caught w e) = fst (fst (remap (inspected e)))
             /\ error_kinds (caught w e) = [snd (fst (remap (inspected e)))]
             /\ frames (caught w e) = []
             /\ bodies (caught w e) =
                  [JsonError (snd (fst (remap (inspected e))))
                             (snd (remap (inspected e)))]).
  { intros w e E. unfold caught.
    destruct (remap (inspected e)) as [[code kind] msg].
    unfold closed, http_status, error_kinds, frames, bodies, replied.
    cbn [sent res ended statusCode fst snd]. rewrite E. now repeat split. }
  destruct (run_paths cfg P req)
    as [hs [(f0 & _ & R)
           |[(code & kind & F & R)
            |[(b & e & _ & _ & _ & R)
             |[(u0 & pre & e & _ & _ & _ & R)
              |(u0 & pre & u & pre' & _ & _ & R)]]]]];
    rewrite R.
  - destruct (C (started hs) (not_a_function f0) eq_refl)
      as (H1 & H2 & H3 & H4 & H5).
    split; [exact H1|]. right. left. now exists (not_a_function f0).
  - split; [reflexivity|]. left. exists code, kind.
    split; [exact F|]. unfold rejection.
    destruct (wantsStream req); now repeat split.
  - destruct (C (logged (started hs) [transcription_call cfg req b]) e
                eq_refl) as (H1 & H2 & H3 & H4 & H5).
    split; [exact H1|]. right. left. now exists e.
  - destruct (C (logged (started hs)
                   (pre ++ [CallCleanup
                              (cleanup_input (Gate.speakLanguage req) u0)]))
                e eq_refl) as (H1 & H2 & H3 & H4 & H5).
    split; [exact H1|]. right. left. now exists e.
  - unfold generated. destruct (wantsStream req) eqn:W.
    + split.
      { unfold streamed. destruct (chat_stream P _) as [e|s];
          [reflexivity|]. destruct (failure s); reflexivity. }
      right. right. left. split; [reflexivity|].
      rewrite error_kinds_streamed.
      split; [|split; [reflexivity|]].
      { unfold streamed. destruct (chat_stream P _) as [e|s];
          [reflexivity|]. destruct (failure s); reflexivity. }
      unfold streamed, bodies, frames.
      destruct (chat_stream P _) as [e|s].
      { split; [reflexivity | discriminate]. }
      destruct (failure s);
        unfold replied, logged; cbn [sent res started app];
        rewrite bodies_data, frames_data; (split; [reflexivity|]);
        intro H; apply app_eq_nil in H; destruct H as [_ H];
        try discriminate H.
    + destruct (responses_create P _) as [e|o].
      * destruct (C (logged (logged (started hs) (pre ++ pre'))
                       [CallResponses (messages_for req u)]) e eq_refl)
          as (H1 & H2 & H3 & H4 & H5).
        split; [exact H1|]. right. left. now exists e.
      * split; [reflexivity|]. right. right. right.
        split; [reflexivity|]. split; [reflexivity|].
        split; [reflexivity|]. split; [reflexivity|].
        eexists _, _, _, _. reflexivity.
Qed.

(** X1. Every request is answered and its response ended, with one of
    the statuses 200, 400, 401 and 500: the channel is never left open,
    whatever the collaborators do. *)
Theorem every_request_is_closed cfg P (req : request) :
  closed (run cfg P req) = true
  /\ In (http_status (run cfg P req)) [200; 400; 401; 500]%N.
Proof.
  destruct (run_reply cfg P req)
    as (C & [(code & kind & F & S & _)
            |[(e & S & _)|[(_ & S & _)|(_ & S & _)]]]);
    (split; [exact C|]); rewrite S.
  - destruct (first_failure_codes req code kind F) as [[->| ->] _];
      simpl; auto.
  - destruct (remap_codes (inspected e)) as [[-> _]|[-> _]]; simpl; auto.
  - simpl; auto.
  - simpl; auto.
Qed.

(** X2. A response is either an event stream or one JSON body, never
    both: when a frame has been written no JSON body is sent, and
    otherwise exactly one is. A request in buffered mode never writes a
    frame. *)
Theorem frames_and_json_never_mix cfg P (req : request) :
  ((frames (run cfg P req) <> [] /\ bodies (run cfg P req) = [])
   \/ (frames (run cfg P req) = []
       /\ exists b, bodies (run cfg P req) = [b]))
  /\ (wantsStream req = false -> frames (run cfg P req) = []).
Proof.
  destruct (run_reply cfg P req)
    as (_ & [(code & kind & _ & _ & _ & M)
            |[(e & _ & _ & Fr & B)
             |[(W & _ & _ & B & Fr)|(W & _ & _ & Fr & c & u & a & au & B)]]]).
  - destruct (wantsStream req); destruct M as [Fr B]; rewrite Fr, B.
    + split; [left; split; [discriminate | reflexivity] | discriminate].
    + split; [right; split; [reflexivity | eauto] | reflexivity].
  - rewrite Fr, B. split; [right; split; [reflexivity | eauto] | reflexivity].
  - rewrite B, W. split; [left; now split | discriminate].
  - rewrite Fr, B. split; [right; split; [reflexivity | eauto] | reflexivity].
Qed.

Lemma frames_and_json_never_mix_witness :
  frames (run Sample.cfg Sample.P (Sample.typed false)) = [].
Proof.
  apply (proj2 (frames_and_json_never_mix Sample.cfg Sample.P
                  (Sample.typed false))).
  reflexivity.
Defined.

(** X3. The status is 200 exactly when the reply carries no error kind,
    and a reply never carries more than one. *)
Theorem error_kind_iff_status cfg P (req : request) :
  (http_status (run cfg P req) = 200%N <-> error_kinds (run cfg P req) = [])
  /\ (length (error_kinds (run cfg P req)) <= 1)%nat.
Proof.
  destruct (run_reply cfg P req)
    as (_ & [(code & kind & F & S & K & _)
            |[(e & S & K & _)|[(_ & S & K & _)|(_ & S & K & _)]]]);
    rewrite S, K.
  - split; [|simpl; lia]. split; [|discriminate].
    destruct (first_failure_codes req code kind F) as [[->| ->] _];
      discriminate.
  - split; [|simpl; lia]. split; [|discriminate].
    destruct (remap_codes (inspected e)) as [[-> _]|[-> _]]; discriminate.
  - split; [now split | simpl; lia].
  - split; [now split | simpl; lia].
Qed.

Lemma error_kind_iff_status_witness :
  error_kinds (run Sample.cfg Sample.P (Sample.typed true)) = [].
Proof.
  apply (proj1 (proj1 (error_kind_iff_status Sample.cfg Sample.P
                         (Sample.typed true)))).
  reflexivity.
Defined.

(* ================================================================== *)
(** ** The calls of every request *)

Lemma persistence_prefix cfg P uid conv u a sl al :
  (adminApp cfg && Js.truthy uid = false
   /\ fst (persistence cfg P uid conv u a sl al) = [])
  \/ (adminApp cfg && Js.truthy uid = true
      /\ ((firestore_set P uid conv <> None
           /\ fst (persistence cfg P uid conv u a sl al) =
                firstn 1 (writes uid conv u a sl al))
          \/ (firestore_set P uid conv = None
              /\ firestore_add P uid conv (Turn "user" u sl al) <> None
              /\ fst (persistence cfg P uid conv u a sl al) =
                   firstn 2 (writes uid conv u a sl al))
          \/ (firestore_set P uid conv = None
              /\ firestore_add P uid conv (Turn "user" u sl al) = None
              /\ fst (persistence cfg P uid conv u a sl al) =
                   writes uid conv u a sl al))).
Proof.
  unfold persistence, history_writes, writes.
  destruct (adminApp cfg && Js.truthy uid); [right|left; now split].
  split; [reflexivity|].
  destruct (firestore_set P uid conv) as [e|].
  { left. split; [discriminate | reflexivity]. }
  destruct (firestore_add P uid conv (Turn "user" u sl al)) as [e|].
  { right. left. split; [reflexivity|]. split; [discriminate | reflexivity]. }
  right. right. now repeat split.
Qed.

(** The answer of a generation that went through. *)
Lemma generated_tail cfg P stream uid conv sl al u msgs (w : world) :
  sent (res w) = [] ->
  calls (generated cfg P stream uid conv sl al u msgs w) =
    (calls w ++ [generation_call stream msgs])%list
  \/ exists a,
       calls (generated cfg P stream uid conv sl al u msgs w) =
         (calls w ++ generation_call stream msgs :: CallSpeech a
          :: fst (persistence cfg P uid conv u a sl al))%list
       /\ answered (generated cfg P stream uid conv sl al u msgs w) u a.
Proof.
  intro E. unfold generated, streamed, generation_call. destruct stream.
  - destruct (chat_stream P msgs) as [e|s]; [now left|].
    destruct (failure s); [now left|]. right.
    exists (join (tokens_of (chunks s))). split; [reflexivity|].
    right. unfold replied, logged. cbn [sent res]. rewrite E. cbn [app].
    apply in_map. apply in_or_app. right. right.
    apply in_or_app. right. apply in_or_app. right. now left.
  - destruct (responses_create P msgs) as [e|o].
    + left. apply calls_caught.
    + right. exists (Js.trim o). split; [reflexivity|].
      left. exists conv, (buffered_audio (speech P (Js.trim o))).
      unfold replied, logged. cbn [sent res]. rewrite E. now left.
Qed.

(** The call log of every request: at most one transcription, then at
    most one cleanup, then at most one generation, and after a
    generation that went through one synthesis and the writes of the
    persistence block. *)
Lemma run_calls cfg P (req : request) :
  exists pre mid rest,
    calls (run cfg P req) = (pre ++ mid ++ rest)%list
    /\ (pre = []
        \/ exists b,
             pre = [transcription_call cfg req b]
             /\ qualifying_audio req = Some b
             /\ Gate.first_failure req = None)
    /\ (mid = []
        \/ exists u0, mid = [CallCleanup
                               (cleanup_input (Gate.speakLanguage req) u0)])
    /\ (rest = []
        \/ (exists u,
               rest = [generation_call (wantsStream req) (messages_for req u)])
        \/ (exists u a,
               rest = generation_call (wantsStream req) (messages_for req u)
                      :: CallSpeech a
                      :: fst (persistence cfg P (Gate.uid req)
                                (Gate.conversationId req) u a
                                (Gate.speakLanguage req)
                                (Gate.answerLanguage req))
               /\ answered (run cfg P req) u a)).
Proof.
  assert (I : forall u0 pre,
             input_resolved cfg P req u0 pre ->
             pre = []
             \/ exists b,
                  pre = [transcription_call cfg req b]
                  /\ qualifying_audio req = Some b
                  /\ Gate.first_failure req = None).
  { intros u0 pre [F [(b & t & A & _ & _ & ->)|(_ & _ & ->)]];
      [right; now exists b | now left]. }
  destruct (run_paths cfg P req)
    as [hs [(f0 & _ & R)
           |[(code & kind & F & R)
            |[(b & e & F & A & _ & R)
             |[(u0 & pre & e & Hi & _ & _ & R)
              |(u0 & pre & u & pre' & Hi & C & R)]]]]];
    rewrite R.
  - exists [], [], []. rewrite calls_caught. split; [reflexivity|]. auto.
  - exists [], [], []. split; [reflexivity|]. auto.
  - exists [transcription_call cfg req b], [], [].
    rewrite calls_caught. split; [reflexivity|].
    split; [right; now exists b|]. auto.
  - exists pre, [CallCleanup (cleanup_input (Gate.speakLanguage req) u0)], [].
    rewrite calls_caught. split; [now rewrite app_nil_r|].
    split; [now apply (I u0)|]. split; [right; now exists u0 | now left].
  - assert (M : pre' = []
                \/ exists u1, pre' = [CallCleanup
                                 (cleanup_input (Gate.speakLanguage req) u1)]).
    { destruct C as [(_ & _ & ->)|(_ & o & _ & _ & ->)];
        [now left | right; now exists u0]. }
    destruct (generated_tail cfg P (wantsStream req) (Gate.uid req)
                (Gate.conversationId req) (Gate.speakLanguage req)
                (Gate.answerLanguage req) u (messages_for req u)
                (logged (started hs) (pre ++ pre')) eq_refl)
      as [E|(a & E & An)]; rewrite E; cbn [calls logged started app].
    + exists pre, pre',
        [generation_call (wantsStream req) (messages_for req u)].
      split; [now rewrite app_assoc|]. split; [now apply (I u0)|].
      split; [exact M|]. right. left. now exists u.
    + exists pre, pre',
        (generation_call (wantsStream req) (messages_for req u)
         :: CallSpeech a
         :: fst (persistence cfg P (Gate.uid req) (Gate.conversationId req)
                   u a (Gate.speakLanguage req) (Gate.answerLanguage req))).
      split; [now rewrite app_assoc|]. split; [now apply (I u0)|].
      split; [exact M|]. right. right. now exists u, a.
Qed.

Lemma stage_generation stream msgs : stage (generation_call stream msgs) = 2.
Proof. now destruct stream. Qed.

(** X4. The calls of a request follow the stages of the handler: at most
    one transcription, then at most one cleanup pass, then at most one
    generation, then at most one synthesis, then the touch of the
    conversation, the user turn and the assistant turn, each at most
    once and never out of this order. *)
Theorem calls_follow_the_stages cfg P (req : request) :
  ascending (map stage (calls (run cfg P req))) = true.
Proof.
  destruct (run_calls cfg P req)
    as (pre & mid & rest & -> & Hp & Hm & Hr).
  rewrite !map_app.
  assert (Ep : map stage pre = [] \/ map stage pre = [0]).
  { destruct Hp as [->|(b & -> & _)]; [now left | now right]. }
  assert (Em : map stage mid = [] \/ map stage mid = [1]).
  { destruct Hm as [->|(u0 & ->)]; [now left | now right]. }
  assert (Er : In (map stage rest)
                  [[]; [2]; [2; 3]; [2; 3; 4]; [2; 3; 4; 5];
                   [2; 3; 4; 5; 6]]).
  { destruct Hr as [->|[(u & ->)|(u & a & -> & _)]].
    - simpl; auto.
    - cbn [map]. rewrite stage_generation. simpl; auto.
    - cbn [map]. rewrite stage_generation. cbn [stage].
      destruct (persistence_prefix cfg P (Gate.uid req)
                  (Gate.conversationId req) u a (Gate.speakLanguage req)
                  (Gate.answerLanguage req))
        as [(_ & ->)|(_ & [(_ & ->)|[(_ & _ & ->)|(_ & _ & ->)]])];
        simpl; auto 7. }
  destruct Ep as [-> | ->], Em as [-> | ->];
    simpl in Er;
    repeat (destruct Er as [<-|Er]; [reflexivity|]); destruct Er.
Qed.

Lemma in_run_calls cfg P (req : request) (c : call) :
  In c (calls (run cfg P req)) ->
  (exists b,
      c = transcription_call cfg req b
      /\ qualifying_audio req = Some b
      /\ Gate.first_failure req = None)
  \/ (exists u0, c = CallCleanup (cleanup_input (Gate.speakLanguage req) u0))
  \/ (exists u, c = generation_call (wantsStream req) (messages_for req u))
  \/ (exists u a,
        answered (run cfg P req) u a
        /\ (c = CallSpeech a
            \/ In c (fst (persistence cfg P (Gate.uid req)
                            (Gate.conversationId req) u a
                            (Gate.speakLanguage req)
                            (Gate.answerLanguage req))))).
Proof.
  destruct (run_calls cfg P req)
    as (pre & mid & rest & -> & Hp & Hm & Hr).
  intro Hin. apply in_app_or in Hin. destruct Hin as [Hin|Hin].
  { destruct Hp as [->|(b & -> & A & F)]; [destruct Hin|].
    destruct Hin as [<-|[]]. left. now exists b. }
  apply in_app_or in Hin. destruct Hin as [Hin|Hin].
  { destruct Hm as [->|(u0 & ->)]; [destruct Hin|].
    destruct Hin as [<-|[]]. right. left. now exists u0. }
  destruct Hr as [->|[(u & ->)|(u & a & -> & An)]].
  - destruct Hin.
  - destruct Hin as [<-|[]]. right. right. left. now exists u.
  - destruct Hin as [<-|[<-|Hin]].
    + right. right. left. now exists u.
    + right. right. right. exists u, a. split; [exact An | now left].
    + right. right. right. exists u, a. split; [exact An | now right].
Qed.

Lemma persistence_writes cfg P uid conv u a sl al (c : call) :
  In c (fst (persistence cfg P uid conv u a sl al)) ->
  adminApp cfg = true /\ uid <> ""
  /\ In c (writes uid conv u a sl al)
  /\ (c <> CallFirestoreSet uid conv -> firestore_set P uid conv = None)
  /\ (c = CallFirestoreAdd uid conv (Turn "assistant" a sl al) ->
      firestore_add P uid conv (Turn "user" u sl al) = None).
Proof.
  intro Hin.
  destruct (persistence_prefix cfg P uid conv u a sl al)
    as [(_ & E)|(G & [(_ & E)|[(S & _ & E)|(S & A & E)]])];
    rewrite E in Hin; try (now destruct Hin);
    apply andb_prop in G; destruct G as [G1 G2]; apply truthy_true in G2;
    (split; [exact G1|]); (split; [exact G2|]).
  - destruct Hin as [<-|[]]. split; [now left|].
    split; [congruence | discriminate].
  - split; [simpl in Hin |- *; tauto|]. split; [now intros _|].
    intros ->. destruct Hin as [Hin|[Hin|[]]]; discriminate Hin.
  - split; [exact Hin|]. split; now intros _.
Qed.

(** X5. A Firestore write is issued only for a request that has been
    answered, and it belongs to the turn pair of that answer, under the
    declared uid and the conversation identifier of the request; no
    write is issued without the identity backend or without a uid. An
    interrupted or failed generation writes nothing. *)
Theorem writes_only_for_answers cfg P (req : request) (c : call) :
  is_firestore_call c = true ->
  In c (calls (run cfg P req)) ->
  adminApp cfg = true
  /\ Gate.uid req <> ""
  /\ exists u a,
       answered (run cfg P req) u a
       /\ In c (writes (Gate.uid req) (Gate.conversationId req) u a
                  (Gate.speakLanguage req) (Gate.answerLanguage req)).
Proof.
  intros Hf Hin.
  destruct (in_run_calls cfg P req c Hin)
    as [(b & -> & _)|[(u0 & ->)|[(u & ->)|(u & a & An & [->|Hp])]]];
    try discriminate Hf.
  - unfold generation_call in Hf. destruct (wantsStream req); discriminate Hf.
  - destruct (persistence_writes _ _ _ _ _ _ _ _ _ Hp) as (H1 & H2 & H3 & _).
    split; [exact H1|]. split; [exact H2|]. now exists u, a.
Qed.

Lemma writes_only_for_answers_witness :
  adminApp Sample.cfg = true
  /\ Gate.uid (Sample.typed false) <> ""
  /\ exists u a,
       answered (run Sample.cfg Sample.P (Sample.typed false)) u a
       /\ In (CallFirestoreSet "alice" "c1")
            (writes (Gate.uid (Sample.typed false))
               (Gate.conversationId (Sample.typed false)) u a
               (Gate.speakLanguage (Sample.typed false))
               (Gate.answerLanguage (Sample.typed false))).
Proof.
  apply (writes_only_for_answers Sample.cfg Sample.P (Sample.typed false)
           (CallFirestoreSet "alice" "c1")).
  - reflexivity.
  - vm_compute. right. right. left. reflexivity.
Defined.

(** X6. The three writes depend on each other: a turn is added only
    after the touch of the conversation succeeded, and the assistant
    turn only after the user turn of the same answer was added. *)
Theorem writes_stop_at_first_failure cfg P (req : request) uid conv t :
  In (CallFirestoreAdd uid conv t) (calls (run cfg P req)) ->
  firestore_set P uid conv = None
  /\ In (CallFirestoreSet uid conv) (calls (run cfg P req))
  /\ (turn_role t = "assistant" ->
      exists u,
        firestore_add P uid conv
          (Turn "user" u (turn_speakLanguage t) (turn_answerLanguage t))
          = None
        /\ In (CallFirestoreAdd uid conv
                 (Turn "user" u (turn_speakLanguage t)
                       (turn_answerLanguage t)))
              (calls (run cfg P req))).
Proof.
  intro Hin.
  destruct (in_run_calls cfg P req _ Hin)
    as [(b & Hc & _)|[(u0 & Hc)
       |[(u & Hc)|(u & a & An & [Hc|Hp])]]];
    try discriminate Hc.
  { unfold generation_call in Hc. destruct (wantsStream req); discriminate Hc. }
  destruct (run_calls cfg P req)
    as (pre & mid & rest & E & _ & _ & Hr).
  assert (K : forall c,
             In c (fst (persistence cfg P (Gate.uid req)
                          (Gate.conversationId req) u a
                          (Gate.speakLanguage req) (Gate.answerLanguage req)))
             -> In c (calls (run cfg P req))).
  { intros c Hc. apply (answered_run cfg P req u a An c Hc). }
  destruct (persistence_writes _ _ _ _ _ _ _ _ _ Hp)
    as (_ & _ & Hw & Hs & Ha).
  assert (Eu : uid = Gate.uid req /\ conv = Gate.conversationId req).
  { simpl in Hw. destruct Hw as [Hw|[Hw|[Hw|[]]]]; try discriminate Hw;
      injection Hw as <- <- _; now split. }
  destruct Eu as [-> ->].
  split; [apply Hs; discriminate|].
  assert (S1 : In (CallFirestoreSet (Gate.uid req) (Gate.conversationId req))
                 (fst (persistence cfg P (Gate.uid req)
                         (Gate.conversationId req) u a
                         (Gate.speakLanguage req) (Gate.answerLanguage req)))).
  { destruct (persistence_prefix cfg P (Gate.uid req)
                (Gate.conversationId req) u a (Gate.speakLanguage req)
                (Gate.answerLanguage req))
      as [(_ & E')|(_ & [(_ & E')|[(_ & _ & E')|(_ & _ & E')]])];
      rewrite E' in Hp |- *; [destruct Hp | | |]; now left. }
  split; [now apply K|].
  intro Hr'. simpl in Hw.
  destruct Hw as [Hw|[Hw|[Hw|[]]]]; try discriminate Hw.
  { injection Hw as <-. discriminate Hr'. }
  injection Hw as <-. cbn [turn_speakLanguage turn_answerLanguage].
  exists u. split; [now apply Ha|].
  apply K.
  destruct (persistence_prefix cfg P (Gate.uid req)
              (Gate.conversationId req) u a (Gate.speakLanguage req)
              (Gate.answerLanguage req))
    as [(_ & E')|(_ & [(_ & E')|[(_ & _ & E')|(_ & _ & E')]])];
    rewrite E' in Hp |- *.
  - destruct Hp.
  - destruct Hp as [Hp|[]]. discriminate Hp.
  - destruct Hp as [Hp|[Hp|[]]]; discriminate Hp.
  - right. now left.
Qed.

Lemma writes_stop_at_first_failure_witness :
  firestore_set Sample.P "alice" "c1" = None
  /\ In (CallFirestoreSet "alice" "c1")
        (calls (run Sample.cfg Sample.P (Sample.typed true)))
  /\ exists u,
       firestore_add Sample.P "alice" "c1"
         (Turn "user" u "English" "English") = None
       /\ In (CallFirestoreAdd "alice" "c1"
                (Turn "user" u "English" "English"))
             (calls (run Sample.cfg Sample.P (Sample.typed true))).
Proof.
  destruct (writes_stop_at_first_failure Sample.cfg Sample.P
              (Sample.typed true) "alice" "c1"
              (Turn "assistant" "Four!" "English" "English")
              ltac:(vm_compute; do 4 right; left; reflexivity))
    as (H1 & H2 & H3).
  split; [exact H1|]. split; [exact H2|]. apply H3. reflexivity.
Defined.

(** X7. Speech synthesis is asked for the text of the answer and for
    nothing else: a synthesis call in the log means the request was
    answered, with exactly the synthesised text as its assistant text. *)
Theorem synthesis_reads_the_answer cfg P (req : request) (t : string) :
  In (CallSpeech t) (calls (run cfg P req)) ->
  exists u, answered (run cfg P req) u t.
Proof.
  intro Hin.
  destruct (in_run_calls cfg P req _ Hin)
    as [(b & Hc & _)|[(u0 & Hc)
       |[(u & Hc)|(u & a & An & [Hc|Hp])]]];
    try discriminate Hc.
  - unfold generation_call in Hc. destruct (wantsStream req); discriminate Hc.
  - injection Hc as ->. now exists u.
  - destruct (persistence_writes _ _ _ _ _ _ _ _ _ Hp) as (_ & _ & Hw & _).
    simpl in Hw. destruct Hw as [Hw|[Hw|[Hw|[]]]]; discriminate Hw.
Qed.

Lemma synthesis_reads_the_answer_witness :
  exists u, answered (run Sample.cfg Sample.P (Sample.typed true)) u "Four!".
Proof.
  apply (synthesis_reads_the_answer Sample.cfg Sample.P (Sample.typed true)
           "Four!").
  vm_compute. right. left. reflexivity.
Defined.

Lemma own_property_in (table : list (string * string)) (k v : string) :
  NoDup (map fst table) ->
  own_property table k = Some v <-> In (k, v) table.
Proof.
  induction table as [|[k' v'] table IH]; intro N.
  - split; [discriminate | intros []].
  - inversion N as [|? ? Hn N' E]; subst. cbn [own_property In].
    destruct (k' =? k) eqn:K.
    + apply String.eqb_eq in K. subst k'. split.
      * intros [= ->]. now left.
      * intros [[= ->]|H]; [reflexivity|].
        exfalso. apply Hn. apply (in_map fst) in H. exact H.
    + apply String.eqb_neq in K. rewrite (IH N'). split; [now right|].
      intros [[= -> _]|H]; [congruence | exact H].
Qed.

Lemma own_property_none (table : list (string * string)) (k : string) :
  own_property table k = None <-> ~ In k (map fst table).
Proof.
  induction table as [|[k' v'] table IH]; [now split|].
  cbn [own_property map fst In]. destruct (k' =? k) eqn:K.
  - apply String.eqb_eq in K. split; [discriminate | tauto].
  - apply String.eqb_neq in K. rewrite IH. tauto.
Qed.

Lemma ISO_keys : NoDup (map fst ISO).
Proof.
  unfold ISO. cbn [map fst].
  repeat (constructor; [cbn [In]; intuition discriminate|]).
  constructor.
Qed.

Lemma existsb_eqb_in (name : string) (l : list string) :
  existsb (String.eqb name) l = true <-> In name l.
Proof.
  rewrite existsb_exists. split.
  - intros (x & H & E). apply String.eqb_eq in E. now subst.
  - intro H. exists name. split; [exact H | apply String.eqb_refl].
Qed.

(** What [ISO[name] || undefined] gives for every name. *)
Lemma iso_lookup_cases (name : string) :
  (forall code,
      iso_lookup ISO name = Some (IsoCode code) <-> In (name, code) ISO)
  /\ (forall member,
        iso_lookup ISO name = Some (PrototypeMember member) <->
        member = name /\ ~ In name (map fst ISO)
        /\ In name object_prototype)
  /\ (iso_lookup ISO name = None <->
      ~ In name (map fst ISO) /\ ~ In name object_prototype).
Proof.
  unfold iso_lookup.
  destruct (own_property ISO name) as [c|] eqn:O.
  - pose proof (proj1 (own_property_in ISO name c ISO_keys) O) as I.
    assert (K : In name (map fst ISO)) by (apply (in_map fst) in I; exact I).
    split; [|split].
    + intro code. rewrite <- (own_property_in ISO name code ISO_keys), O.
      split; congruence.
    + intro member. split; [discriminate | tauto].
    + split; [discriminate | tauto].
  - pose proof (proj1 (own_property_none ISO name) O) as K.
    destruct (existsb (String.eqb name) object_prototype) eqn:E.
    + apply existsb_eqb_in in E. split; [|split].
      * intro code. split; [discriminate|].
        intro I. apply (in_map fst) in I. tauto.
      * intro member. split; [intros [= <-]; tauto|].
        now intros (-> & _).
      * split; [discriminate | tauto].
    + assert (N : ~ In name object_prototype).
      { intro I. apply existsb_eqb_in in I. congruence. }
      split; [|split].
      * intro code. split; [discriminate|].
        intro I. apply (in_map fst) in I. tauto.
      * intro member. split; [discriminate | tauto].
      * tauto.
Qed.

(** X8. Transcription is asked for exactly when the request, its four
    fields readable, passes the gate with a recording of at least 5000
    bytes, and then on that recording, with the configured model, the
    prompt built from the trimmed speaking language, and as language
    hint whatever [ISO[speakLanguage]] holds: the code of a language of
    the table, the inherited member for a name of [Object.prototype]
    such as [constructor], and nothing for any other name. *)
Theorem transcription_exactly_for_audio cfg P (req : request) :
  (forall b m l p,
      In (CallTranscribe b m l p) (calls (run cfg P req)) ->
      qualifying_audio req = Some b
      /\ unreadable (req_body req) = None
      /\ Gate.first_failure req = None
      /\ m = STT_MODEL cfg
      /\ l = iso_lookup ISO (Gate.speakLanguage req)
      /\ p = stt_prompt (Gate.speakLanguage req))
  /\ (forall b,
        qualifying_audio req = Some b ->
        unreadable (req_body req) = None ->
        Gate.first_failure req = None ->
        In (transcription_call cfg req b) (calls (run cfg P req)))
  /\ (forall code,
        iso_lookup ISO (Gate.speakLanguage req) = Some (IsoCode code) <->
        In (Gate.speakLanguage req, code) ISO)
  /\ (forall member,
        iso_lookup ISO (Gate.speakLanguage req)
          = Some (PrototypeMember member) <->
        member = Gate.speakLanguage req
        /\ ~ In (Gate.speakLanguage req) (map fst ISO)
        /\ In (Gate.speakLanguage req) object_prototype)
  /\ (iso_lookup ISO (Gate.speakLanguage req) = None <->
      ~ In (Gate.speakLanguage req) (map fst ISO)
      /\ ~ In (Gate.speakLanguage req) object_prototype).
Proof.
  split; [|split; [|apply iso_lookup_cases]].
  - intros b m l p Hin.
    assert (Rd : unreadable (req_body req) = None).
    { destruct (unreadable (req_body req)) as [f|] eqn:U; [|reflexivity].
      rewrite (run_unreadable cfg P req f U) in Hin. destruct Hin. }
    destruct (in_run_calls cfg P req _ Hin)
      as [(b' & Hc & A & F)|[(u0 & Hc)
         |[(u & Hc)|(u & a & An & [Hc|Hp])]]];
      try discriminate Hc.
    + unfold transcription_call in Hc. injection Hc as -> -> -> ->.
      now repeat split.
    + unfold generation_call in Hc.
      destruct (wantsStream req); discriminate Hc.
    + destruct (persistence_writes _ _ _ _ _ _ _ _ _ Hp) as (_ & _ & Hw & _).
      simpl in Hw. destruct Hw as [Hw|[Hw|[Hw|[]]]]; discriminate Hw.
  - intros b A Rd F.
    destruct (run_paths cfg P req)
      as [hs [(f0 & Rd' & _)
             |[(code & kind & F' & R)
              |[(b' & e & _ & A' & _ & R)
               |[(u0 & pre & e & Hi & _ & _ & R)
                |(u0 & pre & u & pre' & Hi & C & R)]]]]];
      [congruence | congruence | | |]; rewrite R.
    + rewrite calls_caught. left. congruence.
    + rewrite calls_caught. cbn [calls logged started app].
      destruct Hi as [_ [(b' & t & A' & _ & _ & ->)|(A' & _)]];
        [|congruence].
      left. congruence.
    + destruct (generated_calls cfg P (wantsStream req) (Gate.uid req)
                  (Gate.conversationId req) (Gate.speakLanguage req)
                  (Gate.answerLanguage req) u (messages_for req u)
                  (logged (started hs) (pre ++ pre'))) as (tail & -> & _).
      cbn [calls logged started app].
      destruct Hi as [_ [(b' & t & A' & _ & _ & ->)|(A' & _)]];
        [|congruence].
      left. congruence.
Qed.

Lemma transcription_exactly_for_audio_witness :
  (qualifying_audio (Sample.spoken true)
     = Some (repeat Byte.x00 (N.to_nat 6000))
   /\ unreadable (req_body (Sample.spoken true)) = None
   /\ Gate.first_failure (Sample.spoken true) = None
   /\ "whisper-1" = STT_MODEL Sample.cfg
   /\ Some (IsoCode "en")
      = iso_lookup ISO (Gate.speakLanguage (Sample.spoken true))
   /\ stt_prompt "English"
      = stt_prompt (Gate.speakLanguage (Sample.spoken true)))
  /\ In (CallTranscribe (repeat Byte.x00 (N.to_nat 6000)) "whisper-1"
           (Some (PrototypeMember "constructor"))
           (stt_prompt "constructor"))
        (calls (run Sample.cfg Sample.P (spoken_in "constructor"))).
Proof.
  split.
  - apply (proj1 (transcription_exactly_for_audio Sample.cfg Sample.P
                    (Sample.spoken true))).
    vm_compute. left. reflexivity.
  - apply (proj1 (proj2 (transcription_exactly_for_audio Sample.cfg Sample.P
                           (spoken_in "constructor")))); reflexivity.
Defined.

(* ================================================================== *)
(** ** Persistence is best effort *)

Lemma without_warnings_app (a b : list frame) :
  without_warnings (a ++ b) = (without_warnings a ++ without_warnings b)%list.
Proof. apply filter_app. Qed.

Lemma generated_store cfg P set add stream uid conv sl al u msgs (w : world) :
  sent (res w) = [] ->
  visible (generated cfg (with_store P set add) stream uid conv sl al u msgs w)
  = visible (generated cfg P stream uid conv sl al u msgs w)
  /\ (stream = false ->
      res (generated cfg (with_store P set add) stream uid conv sl al u msgs w)
      = res (generated cfg P stream uid conv sl al u msgs w)).
Proof.
  intro E. unfold generated, streamed.
  cbn [chat_stream responses_create speech with_store].
  destruct stream.
  - split; [|discriminate].
    destruct (chat_stream P msgs) as [e|s]; [reflexivity|].
    destruct (failure s); [reflexivity|].
    unfold visible, http_status, closed, bodies, frames, replied, logged.
    cbn [sent res statusCode ended headers]. rewrite E, !app_nil_l.
    rewrite !bodies_data, !frames_data.
    assert (W : forall b : bool,
               without_warnings
                 (if b then [FrameWarn "history_write_failed"] else []) = []).
    { now intros []. }
    rewrite !without_warnings_app, !W. reflexivity.
  - destruct (responses_create P msgs) as [e|o].
    + split; [|intros _]; unfold caught;
        destruct (remap (inspected e)) as [[code kind] m]; reflexivity.
    + split; [|intros _]; reflexivity.
Qed.

Lemma outcome_store cfg P set add (req : request) hs :
  visible (outcome cfg (with_store P set add) req hs)
  = visible (outcome cfg P req hs)
  /\ (wantsStream req = false ->
      res (outcome cfg (with_store P set add) req hs)
      = res (outcome cfg P req hs)).
Proof.
  assert (C : forall (w : world) cs cs' e,
             visible (caught (logged w cs) e) = visible (caught (logged w cs') e)
             /\ res (caught (logged w cs) e) = res (caught (logged w cs') e)).
  { intros w cs cs' e. unfold caught.
    destruct (remap (inspected e)) as [[code kind] m]. now split. }
  assert (R : forall u0 (w : world),
             sent (res w) = [] ->
             visible (responded cfg (with_store P set add) (wantsStream req)
                        req
                        (Js.trim (field_text (body_uid (req_body req))))
                        (Js.trim (field_text
                                    (body_conversationId (req_body req))))
                        (Js.trim (field_text
                                    (body_speakLanguage (req_body req))))
                        (Js.trim (field_text
                                    (body_answerLanguage (req_body req))))
                        u0 w)
             = visible (responded cfg P (wantsStream req) req
                          (Js.trim (field_text (body_uid (req_body req))))
                          (Js.trim (field_text
                                      (body_conversationId (req_body req))))
                          (Js.trim (field_text
                                      (body_speakLanguage (req_body req))))
                          (Js.trim (field_text
                                      (body_answerLanguage (req_body req))))
                          u0 w)
             /\ (wantsStream req = false ->
                 res (responded cfg (with_store P set add) (wantsStream req)
                        req
                        (Js.trim (field_text (body_uid (req_body req))))
                        (Js.trim (field_text
                                    (body_conversationId (req_body req))))
                        (Js.trim (field_text
                                    (body_speakLanguage (req_body req))))
                        (Js.trim (field_text
                                    (body_answerLanguage (req_body req))))
                        u0 w)
                 = res (responded cfg P (wantsStream req) req
                          (Js.trim (field_text (body_uid (req_body req))))
                          (Js.trim (field_text
                                      (body_conversationId (req_body req))))
                          (Js.trim (field_text
                                      (body_speakLanguage (req_body req))))
                          (Js.trim (field_text
                                      (body_answerLanguage (req_body req))))
                          u0 w))).
  { intros u0 w E. unfold responded.
    cbn [responses_create with_store].
    destruct (CLEAN_TRANSCRIPT cfg && Js.truthy u0).
    - destruct (responses_create P _) as [e|o]; [now split|].
      now apply generated_store.
    - now apply generated_store. }
  unfold outcome, gated, checked. cbn [transcribe with_store].
  destruct (unreadable (req_body req)); [now split|].
  destruct (negb _); [now split|].
  destruct (_ || _); [now split|].
  destruct (uid_mismatch _ _); [now split|].
  destruct (qualifying_audio req) as [b|].
  - destruct (transcribe P b _ _ _) as [e|t]; [now split|].
    now apply R.
  - destruct (qualifying_text _) as [u0|]; [|now split].
    now apply R.
Qed.

(** X9. Persistence is best effort. Whatever the document store does,
    the caller receives the same status, the same JSON body, the same
    headers and the same frames but for a [history_write_failed]
    warning; in buffered mode the whole response is the same. *)
Theorem store_never_changes_the_reply cfg P set add (req : request) :
  visible (run cfg (with_store P set add) req) = visible (run cfg P req)
  /\ (wantsStream req = false ->
      res (run cfg (with_store P set add) req) = res (run cfg P req)).
Proof.
  rewrite !run_is_outcome. apply outcome_store.
Qed.

Lemma store_never_changes_the_reply_witness :
  res (run Sample.cfg
           (with_store Sample.P (firestore_set Sample.P_store_down)
                       (firestore_add Sample.P_store_down))
           (Sample.typed false))
  = res (run Sample.cfg Sample.P (Sample.typed false)).
Proof.
  apply (proj2 (store_never_changes_the_reply Sample.cfg Sample.P
                  (firestore_set Sample.P_store_down)
                  (firestore_add Sample.P_store_down)
                  (Sample.typed false))).
  reflexivity.
Defined.

(* ================================================================== *)
(** ** History, transcript and headers *)




Lemma header_value_set_other name name' v hs :
  (name' =? name) = false ->
  header_value name (set_header name' v hs) = header_value name hs.
Proof.
  intro N. unfold header_value, set_header. f_equal.
  induction hs as [|[k x] hs IH]; cbn [filter find fst app].
  - now rewrite N.
  - destruct (k =? name') eqn:K; cbn [negb].
    + apply String.eqb_eq in K. subst k. rewrite N. exact IH.
    + cbn [find fst app]. destruct (k =? name); [reflexivity | exact IH].
Qed.

Lemma header_value_set_same name v hs :
  header_value name (set_header name v hs) = Some v.
Proof.
  unfold header_value, set_header.
  induction hs as [|[k x] hs IH]; cbn [filter find fst app].
  - now rewrite String.eqb_refl.
  - destruct (k =? name) eqn:K; cbn [negb]; [exact IH|].
    cbn [find fst app]. now rewrite K.
Qed.

Lemma echoed_headers_cases (req : request) :
  (echoed_origin req = None /\ echoed_headers req = [])
  \/ exists origin,
       echoed_origin req = Some origin
       /\ echoed_headers req =
            set_header "Access-Control-Allow-Credentials" "true"
              (set_header "Access-Control-Allow-Methods" "GET,POST,OPTIONS"
                 (set_header "Access-Control-Allow-Headers"
                    "Content-Type, Authorization"
                    (set_header "Access-Control-Allow-Origin" origin []))).
Proof.
  unfold echoed_origin, echoed_headers, cors_echo.
  destruct (header_origin req) as [origin|]; [|now left].
  destruct origin as [|c origin]; [now left|]. cbn [Js.truthy andb].
  destruct (existsb _ allowedOrigins); [|now left].
  right. eexists. split; reflexivity.
Qed.

Lemma outcome_headers cfg P (req : request) hs :
  headers (res (outcome cfg P req hs)) =
    if nonempty (frames (outcome cfg P req hs))
    then sse_header_list hs
    else hs.
Proof.
  assert (C : forall (w : world) e,
             sent (res w) = [] ->
             headers (res (caught w e)) = headers (res w)
             /\ frames (caught w e) = []).
  { intros w e E. unfold caught.
    destruct (remap (inspected e)) as [[code kind] m].
    unfold frames, replied. cbn [sent res headers]. now rewrite E. }
  assert (N : forall (a : list frame) x, nonempty (a ++ [x]) = true).
  { now intros [|y a] x. }
  assert (G : forall u (w : world),
             sent (res w) = [] ->
             headers (res (generated cfg P (wantsStream req)
                             (Js.trim (field_text (body_uid (req_body req))))
                             (Js.trim (field_text
                                         (body_conversationId (req_body req))))
                             (Js.trim (field_text
                                         (body_speakLanguage (req_body req))))
                             (Js.trim (field_text
                                         (body_answerLanguage (req_body req))))
                             u (compose
                                  (Js.trim (field_text
                                              (body_answerLanguage
                                                 (req_body req))))
                                  (clientHistory (req_body req)) u) w)) =
             if nonempty
                  (frames (generated cfg P (wantsStream req)
                             (Js.trim (field_text (body_uid (req_body req))))
                             (Js.trim (field_text
                                         (body_conversationId (req_body req))))
                             (Js.trim (field_text
                                         (body_speakLanguage (req_body req))))
                             (Js.trim (field_text
                                         (body_answerLanguage (req_body req))))
                             u (compose
                                  (Js.trim (field_text
                                              (body_answerLanguage
                                                 (req_body req))))
                                  (clientHistory (req_body req)) u) w))
             then sse_header_list (headers (res w))
             else headers (res w)).
  { intros u w E. unfold generated. destruct (wantsStream req).
    - unfold streamed. destruct (chat_stream P _) as [e|s].
      { unfold frames, replied. cbn [sent res headers logged].
        now rewrite E. }
      destruct (failure s);
        unfold frames, replied; cbn [sent res headers logged];
        rewrite E, app_nil_l, frames_data.
      + now rewrite N.
      + rewrite !app_assoc. now rewrite N.
    - destruct (responses_create P _) as [e|o].
      + destruct (C (logged w [CallResponses
                                 (compose
                                    (Js.trim (field_text
                                                (body_answerLanguage
                                                   (req_body req))))
                                    (clientHistory (req_body req)) u)]) e E)
          as [-> ->].
        reflexivity.
      + unfold frames, replied. cbn [sent res headers logged].
        now rewrite E. }
  assert (R : forall u0 (w : world),
             sent (res w) = [] ->
             headers (res (responded cfg P (wantsStream req) req
                             (Js.trim (field_text (body_uid (req_body req))))
                             (Js.trim (field_text
                                         (body_conversationId (req_body req))))
                             (Js.trim (field_text
                                         (body_speakLanguage (req_body req))))
                             (Js.trim (field_text
                                         (body_answerLanguage (req_body req))))
                             u0 w)) =
             if nonempty
                  (frames (responded cfg P (wantsStream req) req
                             (Js.trim (field_text (body_uid (req_body req))))
                             (Js.trim (field_text
                                         (body_conversationId (req_body req))))
                             (Js.trim (field_text
                                         (body_speakLanguage (req_body req))))
                             (Js.trim (field_text
                                         (body_answerLanguage (req_body req))))
                             u0 w))
             then sse_header_list (headers (res w))
             else headers (res w)).
  { intros u0 w E. unfold responded.
    destruct (CLEAN_TRANSCRIPT cfg && Js.truthy u0); [|now apply G].
    destruct (responses_create P _) as [e|o].
    - destruct (C (logged w [CallCleanup
                               (cleanup_input
                                  (Js.trim (field_text
                                              (body_speakLanguage
                                                 (req_body req)))) u0)]) e E)
        as [-> ->].
      reflexivity.
    - now apply (G _ (logged w _)). }
  unfold outcome, gated, checked.
  destruct (unreadable (req_body req)) as [f|].
  { destruct (C (started hs) (not_a_function f) eq_refl) as [-> ->].
    reflexivity. }
  assert (J : forall code kind msg,
             headers (res (replied (started hs) code
                             (if wantsStream req
                              then sse_header_list hs
                              else hs)
                             [rejection (wantsStream req) kind msg])) =
             if nonempty
                  (frames (replied (started hs) code
                             (if wantsStream req
                              then sse_header_list hs
                              else hs)
                             [rejection (wantsStream req) kind msg]))
             then sse_header_list hs
             else hs).
  { intros code kind msg. now destruct (wantsStream req). }
  destruct (negb _); [apply J|].
  destruct (_ || _); [apply J|].
  destruct (uid_mismatch _ _); [apply J|].
  destruct (qualifying_audio req) as [b|].
  - destruct (transcribe P b _ _ _) as [e|t].
    + destruct (C (logged (started hs)
                     [CallTranscribe b (STT_MODEL cfg)
                        (iso_lookup ISO
                           (Js.trim (field_text
                                       (body_speakLanguage (req_body req)))))
                        (stt_prompt
                           (Js.trim (field_text
                                       (body_speakLanguage (req_body req)))))])
                  e eq_refl) as [-> ->].
      reflexivity.
    + now apply (R _ (logged (started hs) _)).
  - destruct (qualifying_text _) as [u0|]; [|apply J].
    now apply (R _ (started hs)).
Qed.

Lemma run_headers cfg P (req : request) :
  headers (res (run cfg P req)) =
    if nonempty (frames (run cfg P req))
    then sse_header_list (echoed_headers req)
    else echoed_headers req.
Proof. rewrite run_is_outcome. apply outcome_headers. Qed.

Lemma run_from_is_outcome cfg P (req : request) hs :
  run_from cfg P req hs = outcome cfg P req (echoed_onto req hs).
Proof.
  unfold run_from, handler, bind, echoed_onto.
  assert (E : exists hs', cors_echo req (started hs) = (Return tt, started hs')).
  { unfold cors_echo.
    destruct (header_origin req) as [origin|]; [|now exists hs].
    destruct (Js.truthy origin
              && existsb (String.eqb origin) allowedOrigins);
      [|now exists hs].
    eexists. reflexivity. }
  destruct E as [hs' E]. rewrite E. cbn [snd res headers started].
  now rewrite attempt_run.
Qed.

Lemma echoed_onto_cases (req : request) hs :
  (echoed_origin req = None /\ echoed_onto req hs = hs)
  \/ exists origin,
       echoed_origin req = Some origin
       /\ echoed_onto req hs =
            set_header "Access-Control-Allow-Credentials" "true"
              (set_header "Access-Control-Allow-Methods" "GET,POST,OPTIONS"
                 (set_header "Access-Control-Allow-Headers"
                    "Content-Type, Authorization"
                    (set_header "Access-Control-Allow-Origin" origin hs))).
Proof.
  unfold echoed_origin, echoed_onto, cors_echo.
  destruct (header_origin req) as [origin|]; [|now left].
  destruct origin as [|c origin]; [now left|]. cbn [Js.truthy andb].
  destruct (existsb _ allowedOrigins); [|now left].
  right. eexists. split; reflexivity.
Qed.

(** X12. Whatever headers the middleware in front has put on the
    response, the CORS echo of the handler sets
    [Access-Control-Allow-Origin] to the origin and
    [Access-Control-Allow-Credentials] to [true] for an origin of the
    allow list, and for any other origin, or none, it leaves both
    headers exactly as it found them; the event stream headers a stream
    adds later never disturb them. *)
Theorem cors_echo_only_for_allowed_origins cfg P (req : request) hs :
  header_value "Access-Control-Allow-Origin"
    (headers (res (run_from cfg P req hs)))
  = match echoed_origin req with
    | Some origin => Some origin
    | None => header_value "Access-Control-Allow-Origin" hs
    end
  /\ header_value "Access-Control-Allow-Credentials"
       (headers (res (run_from cfg P req hs)))
     = match echoed_origin req with
       | Some _ => Some "true"
       | None => header_value "Access-Control-Allow-Credentials" hs
       end.
Proof.
  rewrite run_from_is_outcome, outcome_headers.
  assert (S : forall name hs',
             ("Connection" =? name) = false ->
             ("Cache-Control" =? name) = false ->
             ("Content-Type" =? name) = false ->
             header_value name (sse_header_list hs') = header_value name hs').
  { intros name hs' N1 N2 N3. unfold sse_header_list.
    now rewrite !header_value_set_other. }
  assert (E : header_value "Access-Control-Allow-Origin" (echoed_onto req hs)
              = match echoed_origin req with
                | Some origin => Some origin
                | None => header_value "Access-Control-Allow-Origin" hs
                end
              /\ header_value "Access-Control-Allow-Credentials"
                   (echoed_onto req hs)
                 = match echoed_origin req with
                   | Some _ => Some "true"
                   | None =>
                       header_value "Access-Control-Allow-Credentials" hs
                   end).
  { destruct (echoed_onto_cases req hs) as [[-> ->]|(o & -> & ->)];
      [now split|].
    split.
    - rewrite !header_value_set_other by reflexivity.
      apply header_value_set_same.
    - apply header_value_set_same. }
  destruct (nonempty _); [|exact E].
  rewrite !S by reflexivity. exact E.
Qed.

(** X13. The event stream headers are on the response exactly when a
    frame has been written: a JSON reply never carries them, not even
    the JSON error of a request that asked for a stream. *)
Theorem stream_headers_iff_frames cfg P (req : request) :
  header_value "Content-Type" (headers (res (run cfg P req))) =
    if nonempty (frames (run cfg P req))
    then Some "text/event-stream; charset=utf-8" else None.
Proof.
  rewrite run_headers. destruct (nonempty _).
  - unfold sse_header_list.
    rewrite !header_value_set_other by reflexivity.
    apply header_value_set_same.
  - destruct (echoed_headers_cases req) as [[_ ->]|(o & _ & ->)];
      [reflexivity|].
    now rewrite !header_value_set_other by reflexivity.
Qed.

(* ================================================================== *)
(** ** The bearer credential *)

Lemma map_chars_app f (a b : string) :
  Js.map_chars f (a ++ b) = Js.map_chars f a ++ Js.map_chars f b.
Proof. induction a as [|c a IH]; simpl; [reflexivity | now rewrite IH]. Qed.

Lemma prefix_app (p s : string) : String.prefix p (p ++ s) = true.
Proof.
  induction p as [|c p IH]; [now destruct s|]. simpl.
  destruct (ascii_dec c c); [exact IH | congruence].
Qed.

Lemma prefix_split (p s : string) :
  String.prefix p s = true -> exists b, s = p ++ b.
Proof.
  revert s. induction p as [|c p IH]; intros s H.
  - now exists s.
  - destruct s as [|d s]; [discriminate H|]. simpl in H.
    destruct (ascii_dec c d) as [->|]; [|discriminate H].
    destruct (IH s H) as [b ->]. now exists b.
Qed.

Lemma map_chars_split f (p h : string) :
  String.prefix p (Js.map_chars f h) = true ->
  exists a b,
    h = a ++ b /\ Js.map_chars f a = p /\ Js.drop (String.length p) h = b.
Proof.
  revert h. induction p as [|c p IH]; intros h H.
  - now exists "", h.
  - destruct h as [|d h]; [discriminate H|]. cbn [Js.map_chars] in H.
    simpl in H. destruct (ascii_dec c (f d)) as [->|]; [|discriminate H].
    destruct (IH h H) as (a & b & -> & Ha & Hb).
    exists (String d a), b. cbn [Js.map_chars]. rewrite Ha.
    repeat split. exact Hb.
Qed.

Lemma map_chars_length f (s : string) :
  String.length (Js.map_chars f s) = String.length s.
Proof. induction s as [|c s IH]; simpl; [reflexivity | now rewrite IH]. Qed.

Lemma drop_app (a b : string) : Js.drop (String.length a) (a ++ b) = b.
Proof. induction a as [|c a IH]; [now destruct b | exact IH]. Qed.

Lemma ltrim_split (s : string) :
  exists ws, s = ws ++ Js.ltrim s /\ Js.all_chars Js.is_ws ws = true.
Proof.
  induction s as [|c s (ws & E & W)]; [now exists ""|].
  cbn [Js.ltrim]. destruct (Js.is_ws c) eqn:C.
  - exists (String c ws). cbn [append Js.all_chars]. rewrite C, W.
    split; [now rewrite <- E | reflexivity].
  - now exists "".
Qed.

Lemma ltrim_ltrim (s : string) : Js.ltrim (Js.ltrim s) = Js.ltrim s.
Proof.
  induction s as [|c s IH]; [reflexivity|]. cbn [Js.ltrim].
  destruct (Js.is_ws c) eqn:C; [exact IH|]. cbn [Js.ltrim]. now rewrite C.
Qed.

Lemma ltrim_ws_app (ws t : string) :
  Js.all_chars Js.is_ws ws = true -> Js.ltrim (ws ++ t) = Js.ltrim t.
Proof.
  induction ws as [|c ws IH]; [reflexivity|]. cbn [Js.all_chars append].
  intro H. apply andb_prop in H. destruct H as [C W].
  cbn [Js.ltrim]. rewrite C. now apply IH.
Qed.

(** X14. The middleware reads a credential from an [Authorization]
    header exactly when the header is the word Bearer, in any letter
    case, followed by white space and a rest without line terminator;
    the credential is that rest with no white space in front. *)
Theorem bearer_token_reads_the_scheme (h token : string) :
  bearer_token h = Some token <->
  bearer_header h token
  /\ Js.ltrim token = token
  /\ Js.all_chars not_line_terminator token = true.
Proof.
  unfold bearer_token, bearer_header. split.
  - destruct (String.prefix _ _) eqn:Pf; [|discriminate].
    destruct (map_chars_split _ _ _ Pf) as (scheme & rest & -> & Hs & Hd).
    cbn [String.length] in Hd. rewrite Hd.
    destruct rest as [|c rest]; [discriminate|].
    destruct (Js.is_ws c) eqn:C; [|discriminate].
    destruct (Js.all_chars _ (Js.ltrim rest)) eqn:L; [|discriminate].
    intros [= <-].
    destruct (ltrim_split rest) as (ws & E & W).
    split; [|split; [apply ltrim_ltrim | exact L]].
    exists scheme, (String c ws). split.
    { cbn [append]. now rewrite <- E. }
    split; [exact Hs|]. split; [discriminate|].
    cbn [Js.all_chars]. now rewrite C, W.
  - intros [(scheme & sep & -> & Hs & Hn & Hw) [Ht Hl]].
    rewrite map_chars_app, Hs, prefix_app.
    assert (Len : String.length scheme = 6).
    { rewrite <- (map_chars_length Js.lower_ascii_char), Hs. reflexivity. }
    rewrite <- Len, drop_app.
    destruct sep as [|c sep]; [congruence|]. cbn [append].
    cbn [Js.all_chars] in Hw. apply andb_prop in Hw. destruct Hw as [C W].
    rewrite C, (ltrim_ws_app _ _ W), Ht.
    unfold not_line_terminator in Hl. now rewrite Hl.
Qed.

Lemma bearer_token_reads_the_scheme_witness :
  bearer_token "bEARER   id-token-of-bob" = Some "id-token-of-bob".
Proof.
  apply (proj2 (bearer_token_reads_the_scheme "bEARER   id-token-of-bob"
                  "id-token-of-bob")).
  split; [|split; reflexivity].
  exists "bEARER", "   ". repeat split. discriminate.
Defined.

(** X15. The middleware never fails a request and never trusts it: it
    leaves every other part of the request alone, drops whatever user
    the request came with, and attaches a user only when the identity
    backend is initialised and the verifier accepted the credential of
    the header, in which case the user is the one the verifier decoded.
 *)
Theorem identity_only_from_the_verifier cfg P (req : request) :
  (exists user, verifyFirebaseToken cfg P req = with_user req user)
  /\ (forall user,
        verifyFirebaseToken cfg P (with_user req user) =
        verifyFirebaseToken cfg P req)
  /\ (forall d,
        firebaseUser (verifyFirebaseToken cfg P req) = Some d <->
        adminApp cfg = true
        /\ exists token,
             bearer_token (Js.or_empty (header_authorization req))
               = Some token
             /\ verifyIdToken P token = inr d).
Proof.
  unfold verifyFirebaseToken. split; [|split].
  - destruct (bearer_token _) as [token|]; [|eauto].
    destruct (adminApp cfg); [|eauto].
    destruct (verifyIdToken P token); eauto.
  - intro user. cbn [header_authorization with_user].
    destruct (bearer_token _) as [token|]; [|reflexivity].
    destruct (adminApp cfg); [|reflexivity].
    destruct (verifyIdToken P token); reflexivity.
  - intro d. destruct (bearer_token _) as [token|].
    + destruct (adminApp cfg).
      * destruct (verifyIdToken P token) as [e|d'] eqn:V;
          cbn [firebaseUser with_user].
        -- split; [discriminate|]. intros (_ & t & [= <-] & H). congruence.
        -- split.
           ++ intros [= ->]. split; [reflexivity|]. now exists token.
           ++ intros (_ & t & [= <-] & H). congruence.
      * cbn [firebaseUser with_user]. split; [discriminate|].
        intros (H & _). discriminate H.
    + cbn [firebaseUser with_user]. split; [discriminate|].
      intros (_ & t & H & _). discriminate H.
Qed.

Lemma identity_only_from_the_verifier_witness :
  firebaseUser
    (verifyFirebaseToken Sample.cfg Sample.P
       (with_user
          {| query_stream := None; header_accept := None;
             header_origin := None;
             header_authorization := Some "Bearer id-token-of-bob";
             req_body := Sample.form (Some "c1") (Some "bob") (Some "Hi");
             file := None; firebaseUser := None |}
          (Some (Decoded "mallory"))))
  = Some (Decoded "bob").
Proof.
  apply (proj2 (proj2 (proj2 (identity_only_from_the_verifier Sample.cfg
                                 Sample.P _)) (Decoded "bob"))).
  split; [reflexivity|]. exists "id-token-of-bob". split; reflexivity.
Defined.

(* ================================================================== *)
(** ** Substrings: the outer catch and the response mode *)

Lemma includes_occurs (p s : string) :
  Js.includes p s = true <-> occurs p s.
Proof.
  unfold occurs. split.
  - induction s as [|c s IH]; cbn [Js.includes].
    + rewrite orb_false_r. intro H.
      destruct (prefix_split _ _ H) as [b E]. now exists "", b.
    + intro H. apply orb_prop in H. destruct H as [H|H].
      * destruct (prefix_split _ _ H) as [b E]. now exists "", b.
      * destruct (IH H) as (a & b & ->). now exists (String c a), b.
  - intros (a & b & ->). induction a as [|c a IH].
    + cbn [append]. destruct (p ++ b) eqn:E; cbn [Js.includes];
        rewrite <- E, prefix_app; reflexivity.
    + cbn [append Js.includes]. rewrite IH. apply orb_true_r.
Qed.

Lemma inspected_read (e : exn) :
  inspected e = Js.toLowerCase (read_message e).
Proof.
  unfold inspected, read_message, Js.or_else.
  destruct (Js.truthy (err_error_message e)); [reflexivity|].
  now destruct (err_message e).
Qed.

Lemma catch_reply_remap (e : exn) :
  catch_reply e =
    (let '(code, kind, msg) := remap (inspected e) in
     (code, [Json (JsonError kind msg)])).
Proof.
  unfold catch_reply. rewrite outer_catch_run.
  now destruct (remap (inspected e)) as [[code kind] msg].
Qed.

(** X16. The outer [catch] classifies a failure by what its message
    contains once put in lower case, so in any letter case: "shorter
    than" or "too short" gives [audio_too_short] with 400 and wins over
    everything else; failing that, "invalid" together with "language"
    gives [invalid_language] with 400; any other message, the empty one
    included, gives [processing_failed] with 500. *)
Theorem failures_classified_by_substring (e : exn) :
  let m := Js.toLowerCase (read_message e) in
  (occurs "shorter than" m \/ occurs "too short" m ->
   catch_reply e =
     (400%N, [Json (JsonError "audio_too_short"
                "Audio too short. Please record at least 1 second.")]))
  /\ (~ occurs "shorter than" m -> ~ occurs "too short" m ->
      occurs "invalid" m -> occurs "language" m ->
      catch_reply e =
        (400%N, [Json (JsonError "invalid_language"
                   "Unsupported language code.")]))
  /\ (~ occurs "shorter than" m -> ~ occurs "too short" m ->
      ~ (occurs "invalid" m /\ occurs "language" m) ->
      catch_reply e =
        (500%N, [Json (JsonError "processing_failed"
                   "Something went wrong while processing input.")])).
Proof.
  cbv zeta. rewrite catch_reply_remap, inspected_read. unfold remap.
  set (m := Js.toLowerCase (read_message e)).
  destruct (Js.includes "shorter than" m) eqn:A.
  { apply includes_occurs in A. repeat split; intros; tauto. }
  destruct (Js.includes "too short" m) eqn:B.
  { apply includes_occurs in B. repeat split; intros; tauto. }
  assert (NA : ~ occurs "shorter than" m).
  { intro H. apply includes_occurs in H. congruence. }
  assert (NB : ~ occurs "too short" m).
  { intro H. apply includes_occurs in H. congruence. }
  cbn [orb].
  destruct (Js.includes "invalid" m) eqn:C;
    destruct (Js.includes "language" m) eqn:D; cbn [andb].
  - apply includes_occurs in C. apply includes_occurs in D.
    repeat split; intros; tauto.
  - assert (~ occurs "language" m)
      by (intro H; apply includes_occurs in H; congruence).
    repeat split; intros; tauto.
  - assert (~ occurs "invalid" m)
      by (intro H; apply includes_occurs in H; congruence).
    repeat split; intros; tauto.
  - assert (~ occurs "invalid" m)
      by (intro H; apply includes_occurs in H; congruence).
    repeat split; intros; tauto.
Qed.

Lemma failures_classified_by_substring_witness :
  catch_reply
    {| err_error_message := "";
       err_message := "Invalid language: audio TOO SHORT";
       err_string := "" |}
  = (400%N, [Json (JsonError "audio_too_short"
               "Audio too short. Please record at least 1 second.")]).
Proof.
  apply (proj1 (failures_classified_by_substring
                  {| err_error_message := "";
                     err_message := "Invalid language: audio TOO SHORT";
                     err_string := "" |})).
  right. exists "invalid language: audio ", "". reflexivity.
Defined.

Lemma wantsStream_asks (req : request) :
  wantsStream req = true <-> asks_for_stream req.
Proof.
  unfold wantsStream, asks_for_stream.
  rewrite orb_true_iff, String.eqb_eq, includes_occurs. reflexivity.
Qed.

(** X17. A request asks for a stream when its [stream] query parameter
    is 1 up to surrounding white space, or its [Accept] header mentions
    text/event-stream in any letter case. A request that asks is
    answered with frames and no JSON body, unless a failure reaches the
    outer [catch], which answers with one JSON error body of kind
    [audio_too_short], [invalid_language] or [processing_failed] and no
    frame. A request that does not ask is answered with exactly one
    JSON body and no frame. *)
Theorem stream_mode_negotiation cfg P (req : request) :
  (asks_for_stream req ->
   (frames (run cfg P req) <> [] /\ bodies (run cfg P req) = [])
   \/ (frames (run cfg P req) = []
       /\ exists kind msg,
            bodies (run cfg P req) = [JsonError kind msg]
            /\ In kind remapped_kinds))
  /\ (~ asks_for_stream req ->
      frames (run cfg P req) = []
      /\ exists b, bodies (run cfg P req) = [b]).
Proof.
  rewrite <- wantsStream_asks.
  destruct (run_reply cfg P req)
    as (_ & [(code & kind & _ & _ & _ & H)
            |[(e & _ & _ & F & B)
             |[(W & _ & _ & B & F)|(W & _ & _ & F & conv & u & a & au & B)]]]).
  - destruct (wantsStream req).
    + destruct H as [F B]. split; [|intro N; exfalso; now apply N].
      intros _. left. rewrite F, B. split; [discriminate | reflexivity].
    + destruct H as [F B]. split; [discriminate|]. intros _.
      split; [exact F | eexists; exact B].
  - split.
    + intros _. right. split; [exact F|]. eexists _, _.
      split; [exact B|]. unfold remapped_kinds.
      destruct (remap_codes (inspected e)) as [[_ [-> | ->]]|[_ ->]];
        simpl; auto.
    + intros _. split; [exact F | eexists; exact B].
  - rewrite W. split; [|intro N; exfalso; now apply N].
    intros _. left. now split.
  - rewrite W. split; [discriminate|]. intros _.
    split; [exact F | eexists; exact B].
Qed.

Lemma stream_mode_negotiation_witness :
  (frames (run Sample.cfg Sample.P accept_stream) <> []
   /\ bodies (run Sample.cfg Sample.P accept_stream) = [])
  \/ (frames (run Sample.cfg Sample.P accept_stream) = []
      /\ exists kind msg,
           bodies (run Sample.cfg Sample.P accept_stream)
             = [JsonError kind msg]
           /\ In kind remapped_kinds).
Proof.
  apply (proj1 (stream_mode_negotiation Sample.cfg Sample.P accept_stream)).
  right. exists "application/json, ", ";q=0.9". reflexivity.
Defined.

(* ================================================================== *)
(** ** The earlier SSE-only server *)

Lemma earlier_for_await_run (cs : list chunk) (acc : string)
      (w : Earlier.world) :
  Earlier.headersSent w = true ->
  Earlier.for_await cs acc w =
    (Return (acc ++ join (tokens_of cs)),
     {| Earlier.calls := Earlier.calls w;
        Earlier.statusCode := Earlier.statusCode w;
        Earlier.headers := Earlier.headers w;
        Earlier.headersSent := true;
        Earlier.json_sent := Earlier.json_sent w;
        Earlier.channel :=
          {| Legacy.written :=
               (Legacy.written (Earlier.channel w)
                ++ map Legacy.data_line (tokens_of cs))%list;
             Legacy.finished := Legacy.finished (Earlier.channel w) |} |}).
Proof.
  revert acc w. induction cs as [|c cs IH]; intros acc w H.
  - destruct w as [k st hs hsent js [wr fin]]. cbn in H. subst hsent.
    cbn. now rewrite append_empty_r, app_nil_r.
  - cbn [Earlier.for_await]. unfold Earlier.bind at 1.
    unfold Earlier.write, Earlier.on_world. rewrite IH by reflexivity.
    cbn [Earlier.calls Earlier.statusCode Earlier.headers
         Earlier.json_sent Earlier.channel Legacy.res_write
         Legacy.written Legacy.finished tokens_of map join fold_right].
    unfold Legacy.res_write. cbn [Legacy.written Legacy.finished].
    now rewrite append_assoc, <- app_assoc.
Qed.

Lemma earlier_stream_headers_run (req : request) (pre : list call) :
  Earlier.stream_headers req (Earlier.started pre) =
    (Return tt, Earlier.streaming req pre [] false).
Proof.
  unfold Earlier.streaming, Earlier.stream_header_list,
    Earlier.stream_headers.
  destruct (header_origin req) as [origin|]; [|reflexivity].
  destruct (Js.truthy origin && _); reflexivity.
Qed.

Lemma earlier_write_history_run P uid conv u a sl al (w : Earlier.world) :
  Earlier.write_history P uid conv u a sl al w =
    (match snd (history_writes P uid conv u a sl al) with
     | Some e => Throw e
     | None => Return tt
     end,
     earlier_logged w (fst (history_writes P uid conv u a sl al))).
Proof.
  unfold Earlier.write_history, history_writes, Earlier.await_unit,
    Earlier.await, Earlier.bind, earlier_logged.
  destruct (firestore_set P uid conv); cbn; [reflexivity|].
  destruct (firestore_add P uid conv _); cbn;
    rewrite <- ?app_assoc; [reflexivity|].
  destruct (firestore_add P uid conv _); cbn;
    rewrite <- ?app_assoc; reflexivity.
Qed.

Lemma earlier_run_ticks cfg P uid conv u text sl al (w : Earlier.world) :
  Earlier.run_ticks P
    (Earlier.TtsTick text
     :: (if adminApp cfg && Js.truthy uid
         then [Earlier.StoreTick uid conv u text sl al] else [])) w =
  (Return tt,
   earlier_logged w (Earlier.background cfg P uid conv u text sl al)).
Proof.
  unfold Earlier.background, persistence.
  cbn [Earlier.run_ticks Earlier.run_tick].
  unfold Earlier.bind at 1. unfold Earlier.try_catch at 1.
  unfold Earlier.bind at 1. unfold Earlier.await at 1.
  destruct (adminApp cfg && Js.truthy uid).
  - cbn [Earlier.run_ticks Earlier.run_tick].
    destruct (history_writes P uid conv u text sl al) as [ws err] eqn:E.
    assert (R : forall x,
               Earlier.write_history P uid conv u text sl al x =
               (match err with Some e => Throw e | None => Return tt end,
                earlier_logged x ws)).
    { intro x. rewrite earlier_write_history_run, E. reflexivity. }
    destruct (speech P text); unfold Earlier.ret, Earlier.bind,
      Earlier.try_catch; rewrite R; destruct err;
      unfold earlier_logged; cbn; rewrite <- ?app_assoc; reflexivity.
  - destruct (speech P text); reflexivity.
Qed.

Lemma earlier_generate_run cfg P (req : request) uid conv sl al u pre :
  snd (Earlier.bind
         (Earlier.try_catch
            (Earlier.bind (Earlier.ret u)
               (fun userText =>
                  let messages :=
                    compose al (clientHistory (req_body req)) userText in
                  Earlier.bind (Earlier.stream_headers req) (fun _ =>
                  Earlier.bind
                    (Earlier.await (CallChatStream messages)
                                   (chat_stream P messages))
                    (fun stream =>
                  Earlier.bind (Earlier.for_await (chunks stream) "")
                    (fun fullAssistantText =>
                  Earlier.bind
                    (match failure stream with
                     | Some e => Earlier.throw e
                     | None => Earlier.ret tt
                     end) (fun _ =>
                  Earlier.bind (Earlier.write (Legacy.data_line "[END]"))
                    (fun _ =>
                  Earlier.bind Earlier.end_ (fun _ =>
                  Earlier.ret
                    (Earlier.TtsTick fullAssistantText
                     :: (if adminApp cfg && Js.truthy uid then
                           [Earlier.StoreTick uid conv userText
                              fullAssistantText sl al]
                         else []))))))))))
            Earlier.catch_all)
         (Earlier.run_ticks P) (Earlier.started pre))
  = Earlier.generated cfg P req uid conv sl al u pre.
Proof.
  unfold Earlier.generated. cbv zeta.
  unfold Earlier.bind at 1. unfold Earlier.try_catch at 1.
  unfold Earlier.bind at 1. unfold Earlier.ret at 1.
  unfold Earlier.bind at 1. rewrite earlier_stream_headers_run.
  unfold Earlier.bind at 1. unfold Earlier.await at 1.
  destruct (chat_stream P (compose al (clientHistory (req_body req)) u))
    as [e|s]; [reflexivity|].
  unfold Earlier.bind at 1. rewrite earlier_for_await_run by reflexivity.
  cbn [Earlier.streaming Earlier.calls Earlier.statusCode Earlier.headers
       Earlier.json_sent Earlier.channel Legacy.written Legacy.finished
       app append].
  unfold Earlier.bind at 1.
  destruct (failure s) as [e|]; [reflexivity|].
  unfold Earlier.ret at 1. unfold Earlier.bind at 1.
  unfold Earlier.write at 1, Earlier.on_world at 1.
  unfold Earlier.bind at 1. unfold Earlier.end_ at 1, Earlier.on_world at 1.
  unfold Earlier.ret at 1. rewrite (earlier_run_ticks cfg).
  unfold earlier_logged, Earlier.streaming, Legacy.res_write, Legacy.res_end.
  cbn [Earlier.calls Earlier.statusCode Earlier.headers Earlier.headersSent
       Earlier.json_sent Earlier.channel Legacy.written Legacy.finished
       snd app].
  rewrite <- app_assoc. reflexivity.
Qed.

Lemma earlier_respond_run cfg P (req : request) uid conv sl al u0 pre :
  snd (Earlier.bind
         (Earlier.try_catch (Earlier.respond cfg P req uid conv sl al u0)
                            Earlier.catch_all)
         (Earlier.run_ticks P) (Earlier.started pre))
  = Earlier.responded cfg P req uid conv sl al u0 pre.
Proof.
  unfold Earlier.responded, Earlier.respond, Earlier.cleanup.
  destruct (CLEAN_TRANSCRIPT cfg && Js.truthy u0).
  - destruct (responses_create P (Earlier.cleanup_input sl u0))
      as [e|o] eqn:R.
    + reflexivity.
    + rewrite <- earlier_generate_run.
      unfold Earlier.bind at 1 3. unfold Earlier.try_catch at 1 2.
      unfold Earlier.bind at 1 3. unfold Earlier.bind at 1.
      unfold Earlier.await at 1.
      unfold Earlier.ret at 1 2. reflexivity.
  - apply earlier_generate_run.
Qed.

Lemma earlier_trimmed_run (f : text_field) (v : field)
      (k : string -> Earlier.M (list Earlier.tick))
      (h : exn -> Earlier.M (list Earlier.tick)) :
  Earlier.try_catch (Earlier.bind (Earlier.trimmed f v) k) h =
    match v with
    | FieldOther => h (not_a_function f)
    | FieldAbsent | FieldText _ =>
        Earlier.try_catch (k (Js.trim (field_text v))) h
    end.
Proof. destruct v; reflexivity. Qed.

Lemma earlier_run_is_outcome cfg P (req : request) :
  Earlier.run cfg P req = Earlier.outcome cfg P req.
Proof.
  assert (K : forall al sl conv uid,
    snd (Earlier.bind
           (Earlier.try_catch
              (if negb (Js.truthy conv) then
                 Earlier.reject 400 "missing_conversation"
                                "No conversationId."
               else if negb (Js.truthy al) || negb (Js.truthy sl) then
                 Earlier.reject 400 "missing_language"
                   "Please select both Speaking and Answer languages."
               else if uid_mismatch uid (firebaseUser req) then
                 Earlier.reject 401 "unauthenticated" "UID does not match."
               else
                 match qualifying_audio req with
                 | Some bytes =>
                     Earlier.bind
                       (Earlier.await
                          (CallTranscribe bytes (STT_MODEL cfg)
                             (iso_lookup ISO sl) (stt_prompt sl))
                          (transcribe P bytes (STT_MODEL cfg)
                             (iso_lookup ISO sl) (stt_prompt sl)))
                       (fun text =>
                          Earlier.respond cfg P req uid conv sl al
                                          (Js.trim text))
                 | None =>
                     match qualifying_text (req_body req) with
                     | Some userText =>
                         Earlier.respond cfg P req uid conv sl al userText
                     | None =>
                         Earlier.reject 400 "no_input"
                           "No valid audio or text provided."
                     end
                 end)
              Earlier.catch_all)
           (Earlier.run_ticks P) Earlier.fresh)
    = Earlier.checked cfg P req al sl conv uid).
  { intros al sl conv uid. unfold Earlier.checked. cbv zeta.
    destruct (negb (Js.truthy conv)); [reflexivity|].
    destruct (negb (Js.truthy al) || negb (Js.truthy sl)); [reflexivity|].
    destruct (uid_mismatch _ _); [reflexivity|].
    destruct (qualifying_audio req) as [bytes|].
    - destruct (transcribe P bytes _ _ _) as [e|text] eqn:T.
      + reflexivity.
      + rewrite <- earlier_respond_run.
        unfold Earlier.bind at 1 3. unfold Earlier.try_catch at 1 2.
        unfold Earlier.bind at 1. unfold Earlier.await at 1.
        reflexivity.
    - destruct (qualifying_text (req_body req)) as [u0|]; [|reflexivity].
      apply earlier_respond_run. }
  unfold Earlier.run, Earlier.handler, Earlier.outcome, Earlier.attempt,
    unreadable.
  cbv zeta.
  rewrite earlier_trimmed_run.
  destruct (body_answerLanguage (req_body req));
    cbv beta iota; [ | |reflexivity];
    (rewrite earlier_trimmed_run;
     destruct (body_speakLanguage (req_body req));
     cbv beta iota; [ | |reflexivity];
     (rewrite earlier_trimmed_run;
      destruct (body_conversationId (req_body req));
      cbv beta iota; [ | |reflexivity];
      (rewrite earlier_trimmed_run;
       destruct (body_uid (req_body req));
       cbv beta iota; [ | |reflexivity]; apply K))).
Qed.

Lemma background_calls cfg P uid conv u text sl al :
  forallb is_background (Earlier.background cfg P uid conv u text sl al)
  = true.
Proof.
  unfold Earlier.background, persistence, history_writes.
  destruct (adminApp cfg && Js.truthy uid); [|reflexivity].
  destruct (firestore_set P uid conv); [reflexivity|].
  destruct (firestore_add P uid conv _); reflexivity.
Qed.

(** The paths of the earlier handler: refused by the gate, failed before
    the headers, or arrived at generation. *)
Lemma earlier_paths cfg P (req : request) :
  (exists code b,
      Earlier.run cfg P req = Earlier.answered [] code b)
  \/ (exists pre c,
         Earlier.run cfg P req = Earlier.failed (pre ++ [c])
         /\ forallb is_early (pre ++ [c]) = true
         /\ fails_early P c = true)
  \/ (exists pre u,
         Earlier.run cfg P req =
           Earlier.generated cfg P req (Gate.uid req)
             (Gate.conversationId req) (Gate.speakLanguage req)
             (Gate.answerLanguage req) u pre
         /\ forallb is_early pre = true
         /\ forallb (fun c => negb (fails_early P c)) pre = true).
Proof.
  rewrite earlier_run_is_outcome. unfold Earlier.outcome. cbv zeta.
  destruct (unreadable (req_body req)); [left; unfold Earlier.failed; eauto|].
  unfold Earlier.checked. cbv zeta.
  fold (Gate.conversationId req) (Gate.answerLanguage req)
       (Gate.speakLanguage req) (Gate.uid req).
  destruct (negb (Js.truthy (Gate.conversationId req))); [left; eauto|].
  destruct (negb (Js.truthy (Gate.answerLanguage req))
            || negb (Js.truthy (Gate.speakLanguage req))); [left; eauto|].
  destruct (uid_mismatch _ _); [left; eauto|].
  assert (R : forall u0 pre,
             forallb is_early pre = true ->
             forallb (fun c => negb (fails_early P c)) pre = true ->
             (exists pre' c,
                 Earlier.responded cfg P req (Gate.uid req)
                   (Gate.conversationId req) (Gate.speakLanguage req)
                   (Gate.answerLanguage req) u0 pre
                 = Earlier.failed (pre' ++ [c])
                 /\ forallb is_early (pre' ++ [c]) = true
                 /\ fails_early P c = true)
             \/ (exists pre' u,
                    Earlier.responded cfg P req (Gate.uid req)
                      (Gate.conversationId req) (Gate.speakLanguage req)
                      (Gate.answerLanguage req) u0 pre
                    = Earlier.generated cfg P req (Gate.uid req)
                        (Gate.conversationId req) (Gate.speakLanguage req)
                        (Gate.answerLanguage req) u pre'
                    /\ forallb is_early pre' = true
                    /\ forallb (fun c => negb (fails_early P c)) pre'
                       = true)).
  { intros u0 pre E S. unfold Earlier.responded.
    destruct (CLEAN_TRANSCRIPT cfg && Js.truthy u0); [|right; eauto].
    destruct (responses_create P _) as [e|o] eqn:C.
    - left. eexists _, _. split; [reflexivity|].
      rewrite forallb_app, E. cbn [forallb is_early fails_early andb].
      now rewrite C.
    - right. eexists _, _. split; [reflexivity|].
      rewrite !forallb_app, E, S.
      cbn [forallb is_early fails_early andb negb]. now rewrite C. }
  destruct (qualifying_audio req) as [bytes|].
  - destruct (transcribe P bytes _ _ _) as [e|text] eqn:T.
    + right; left.
      exists [], (CallTranscribe bytes (STT_MODEL cfg)
                    (iso_lookup ISO (Gate.speakLanguage req))
                    (stt_prompt (Gate.speakLanguage req))).
      cbn [app]. split; [reflexivity|].
      cbn [forallb is_early fails_early andb]. now rewrite T.
    + right. apply R; cbn [forallb is_early fails_early andb negb];
        [reflexivity | now rewrite T].
  - destruct (qualifying_text (req_body req)) as [u0|]; [|left; eauto].
    right. now apply R.
Qed.

Lemma earlier_generated_inv cfg P (req : request) uid conv sl al u pre msgs :
  forallb is_early pre = true ->
  In (CallChatStream msgs)
     (Earlier.calls (Earlier.generated cfg P req uid conv sl al u pre)) ->
  msgs = compose al (clientHistory (req_body req)) u.
Proof.
  intros E H.
  assert (N : ~ In (CallChatStream msgs) pre).
  { intro I. rewrite forallb_forall in E. now specialize (E _ I). }
  assert (B : forall text,
             ~ In (CallChatStream msgs)
                  (Earlier.background cfg P uid conv u text sl al)).
  { intros text I.
    pose proof (background_calls cfg P uid conv u text sl al) as F.
    rewrite forallb_forall in F. now specialize (F _ I). }
  unfold Earlier.generated in H. cbv zeta in H.
  destruct (chat_stream P _) as [e|s].
  - cbn [Earlier.calls Earlier.streaming] in H. apply in_app_or in H.
    destruct H as [H|[H|[]]]; [tauto | congruence].
  - destruct (failure s).
    + cbn [Earlier.calls Earlier.streaming] in H. apply in_app_or in H.
      destruct H as [H|[H|[]]]; [tauto | congruence].
    + cbn [Earlier.calls Earlier.streaming] in H. apply in_app_or in H.
      destruct H as [H|[H|H]]; [tauto | congruence | now apply B in H].
Qed.

Lemma earlier_generation_reached cfg P (req : request) msgs :
  In (CallChatStream msgs) (Earlier.calls (Earlier.run cfg P req)) ->
  exists pre u,
    Earlier.run cfg P req =
      Earlier.generated cfg P req (Gate.uid req) (Gate.conversationId req)
        (Gate.speakLanguage req) (Gate.answerLanguage req) u pre
    /\ msgs = compose (Gate.answerLanguage req)
                (clientHistory (req_body req)) u
    /\ forallb is_early pre = true.
Proof.
  intro H.
  destruct (earlier_paths cfg P req)
    as [(code & b & E)|[(pre & c & E & F & _)|(pre & u & E & F & _)]].
  - rewrite E in H. destruct H.
  - rewrite E in H. cbn [Earlier.calls Earlier.failed Earlier.answered] in H.
    rewrite forallb_forall in F. now specialize (F _ H).
  - exists pre, u. split; [exact E|]. split; [|exact F].
    rewrite E in H. exact (earlier_generated_inv _ _ _ _ _ _ _ _ _ _ F H).
Qed.

(** X18. When the earlier server gets a generation stream that runs to
    its end, the reply is status 200 with no JSON body and exactly one
    raw [data:] line per chunk, empty tokens included, in the order of
    the chunks, then the [END] line, and the response is ended. *)
Theorem earlier_reply_is_raw_lines cfg P (req : request) msgs s :
  In (CallChatStream msgs) (Earlier.calls (Earlier.run cfg P req)) ->
  chat_stream P msgs = inr s ->
  failure s = None ->
  Earlier.statusCode (Earlier.run cfg P req) = 200%N
  /\ Earlier.json_sent (Earlier.run cfg P req) = None
  /\ Earlier.channel (Earlier.run cfg P req) =
       {| Legacy.written :=
            (map Legacy.data_line (tokens_of (chunks s))
             ++ [Legacy.data_line "[END]"])%list;
          Legacy.finished := true |}.
Proof.
  intros H C F.
  destruct (earlier_generation_reached cfg P req msgs H)
    as (pre & u & E & -> & _).
  rewrite E. unfold Earlier.generated. cbv zeta. rewrite C, F.
  repeat split.
Qed.

Lemma earlier_reply_is_raw_lines_witness :
  Earlier.channel
    (Earlier.run Sample.cfg Sample.P
       (Sample.ask false
          (Sample.form (Some "c1") (Some "bob") (Some "What is 2+2?"))
          None None))
  = {| Legacy.written :=
         [Legacy.data_line ""; Legacy.data_line "Fo"; Legacy.data_line "";
          Legacy.data_line "ur!"; Legacy.data_line "";
          Legacy.data_line "[END]"];
       Legacy.finished := true |}.
Proof.
  apply (earlier_reply_is_raw_lines Sample.cfg Sample.P _
           (compose "English" [] "What is 2+2?")
           (Stream [None; Some "Fo"; Some ""; Some "ur!"; None] None)).
  - vm_compute. tauto.
  - reflexivity.
  - reflexivity.
Defined.

(** X19. When the generation stream of the earlier server cannot be
    opened or breaks on the way, the headers are already out, so the
    [catch] answers nothing: the response stays open with status 200,
    no JSON body and only the lines of the chunks that came through,
    and neither synthesis nor the store is called. *)
Theorem earlier_stream_failure_leaves_response_open
        cfg P (req : request) msgs :
  In (CallChatStream msgs) (Earlier.calls (Earlier.run cfg P req)) ->
  generation_fails P msgs = true ->
  Earlier.headersSent (Earlier.run cfg P req) = true
  /\ Earlier.statusCode (Earlier.run cfg P req) = 200%N
  /\ Earlier.json_sent (Earlier.run cfg P req) = None
  /\ Earlier.channel (Earlier.run cfg P req) =
       {| Legacy.written :=
            map Legacy.data_line (tokens_of (yielded P msgs));
          Legacy.finished := false |}
  /\ forallb (fun c => negb (is_background c))
             (Earlier.calls (Earlier.run cfg P req)) = true.
Proof.
  intros H G.
  destruct (earlier_generation_reached cfg P req msgs H)
    as (pre & u & E & -> & Fp).
  assert (Fb : forallb (fun c => negb (is_background c)) pre = true).
  { rewrite forallb_forall in *. intros c I. specialize (Fp c I).
    now destruct c. }
  rewrite E. unfold generation_fails, yielded in *.
  unfold Earlier.generated. cbv zeta.
  destruct (chat_stream P _) as [e|s].
  - cbn [Earlier.streaming Earlier.headersSent Earlier.statusCode
         Earlier.json_sent Earlier.channel Earlier.calls].
    repeat split. rewrite forallb_app, Fb. reflexivity.
  - destruct (failure s); [|discriminate G].
    cbn [Earlier.streaming Earlier.headersSent Earlier.statusCode
         Earlier.json_sent Earlier.channel Earlier.calls].
    repeat split. rewrite forallb_app, Fb. reflexivity.
Qed.

Lemma earlier_stream_failure_leaves_response_open_witness :
  Earlier.channel
    (Earlier.run Sample.cfg
       (with_generation Sample.P
          (fun _ => inr (Stream [Some "Fo"]
                           (Some (Sample.failure_of "socket hang up")))))
       (Sample.ask false
          (Sample.form (Some "c1") (Some "bob") (Some "What is 2+2?"))
          None None))
  = {| Legacy.written := [Legacy.data_line "Fo"];
       Legacy.finished := false |}.
Proof.
  refine (proj1 (proj2 (proj2 (proj2
            (earlier_stream_failure_leaves_response_open Sample.cfg _ _
               (compose "English" [] "What is 2+2?") _ _))))).
  - vm_compute. tauto.
  - reflexivity.
Defined.

(** X20. In the earlier server a failure of transcription or of the
    cleanup pass is answered 500 [processing_failed] with the fixed
    message, whatever the failure says: nothing is remapped, no header
    of the stream is set and no line is written. *)
Theorem earlier_failures_before_headers cfg P (req : request) (c : call) :
  In c (Earlier.calls (Earlier.run cfg P req)) ->
  fails_early P c = true ->
  Earlier.run cfg P req = Earlier.failed (Earlier.calls (Earlier.run cfg P req))
  /\ Earlier.reply (Earlier.run cfg P req) =
       (500%N, [],
        Some (JsonError "processing_failed" "Something went wrong."),
        {| Legacy.written := []; Legacy.finished := true |}).
Proof.
  intros H F.
  destruct (earlier_paths cfg P req)
    as [(code & b & E)|[(pre & c' & E & _)|(pre & u & E & Fe & Fs)]].
  - rewrite E in H. destruct H.
  - rewrite E. split; reflexivity.
  - exfalso. rewrite E in H. unfold Earlier.generated in H. cbv zeta in H.
    assert (N : ~ In c pre).
    { intro I. rewrite forallb_forall in Fs. specialize (Fs _ I).
      rewrite F in Fs. discriminate Fs. }
    assert (B : forall text,
               ~ In c (Earlier.background cfg P (Gate.uid req)
                         (Gate.conversationId req) u text
                         (Gate.speakLanguage req) (Gate.answerLanguage req))).
    { intros text I.
      pose proof (background_calls cfg P (Gate.uid req)
                    (Gate.conversationId req) u text
                    (Gate.speakLanguage req) (Gate.answerLanguage req)) as G.
      rewrite forallb_forall in G. specialize (G _ I).
      destruct c; discriminate G || discriminate F. }
    destruct (chat_stream P _) as [e|s]; [|destruct (failure s)];
      cbn [Earlier.calls Earlier.streaming] in H; apply in_app_or in H;
      destruct H as [H|[H|H]]; try tauto; try (subst c; discriminate F);
      try (now apply B in H).
Qed.

Lemma earlier_failures_before_headers_witness :
  Earlier.reply
    (Earlier.run Sample.cfg Sample.P_short_audio
       (Sample.ask false (Sample.form (Some "c1") (Some "bob") None)
                   (Some Sample.recording) None))
  = (500%N, [],
     Some (JsonError "processing_failed" "Something went wrong."),
     {| Legacy.written := []; Legacy.finished := true |}).
Proof.
  refine (proj2
            (earlier_failures_before_headers Sample.cfg
               Sample.P_short_audio _
               (CallTranscribe (repeat Byte.x00 (N.to_nat 6000)) "whisper-1"
                  (Some (IsoCode "en")) (stt_prompt "English")) _ _)).
  - vm_compute. tauto.
  - reflexivity.
Defined.

(** X21. In the earlier server synthesis and the store run from the
    [process.nextTick] queue after the response has ended: whatever
    they do, succeed or fail, the client sees the same status, headers,
    body and lines. *)
Theorem earlier_background_work_is_invisible cfg P (req : request)
        tts set add :
  Earlier.reply (Earlier.run cfg (with_background P tts set add) req)
  = Earlier.reply (Earlier.run cfg P req).
Proof.
  rewrite !earlier_run_is_outcome. unfold Earlier.outcome. cbv zeta.
  destruct (unreadable (req_body req)); [reflexivity|].
  unfold Earlier.checked. cbv zeta.
  destruct (negb _); [reflexivity|].
  destruct (_ || _); [reflexivity|].
  destruct (uid_mismatch _ _); [reflexivity|].
  assert (G : forall uid conv sl al u pre,
             Earlier.reply
               (Earlier.generated cfg (with_background P tts set add) req
                  uid conv sl al u pre)
             = Earlier.reply
                 (Earlier.generated cfg P req uid conv sl al u pre)).
  { intros. unfold Earlier.generated. cbv zeta.
    cbn [chat_stream with_background].
    destruct (chat_stream P _) as [e|s]; [reflexivity|].
    destruct (failure s); reflexivity. }
  assert (R : forall uid conv sl al u0 pre,
             Earlier.reply
               (Earlier.responded cfg (with_background P tts set add) req
                  uid conv sl al u0 pre)
             = Earlier.reply
                 (Earlier.responded cfg P req uid conv sl al u0 pre)).
  { intros. unfold Earlier.responded. cbn [responses_create with_background].
    destruct (_ && _); [|apply G].
    destruct (responses_create P _); [reflexivity | apply G]. }
  cbn [transcribe with_background].
  destruct (qualifying_audio req) as [bytes|].
  - destruct (transcribe P bytes _ _ _); [reflexivity | apply R].
  - destruct (qualifying_text _); [apply R | reflexivity].
Qed.

Lemma app_cons_not_nil {A} (l : list A) (x : A) (r : list A) :
  (l ++ x :: r)%list <> [].
Proof. now destruct l. Qed.

Lemma caught_calls (w : world) (e : exn) : calls (caught w e) = calls w.
Proof.
  unfold caught. now destruct (remap (inspected e)) as [[code kind] msg].
Qed.

Lemma responded_calls cfg P stream (req : request) uid conv sl al u0
      (w : world) :
  calls (responded cfg P stream req uid conv sl al u0 w) <> [].
Proof.
  assert (G : forall u msgs x,
             calls (generated cfg P stream uid conv sl al u msgs x) <> []).
  { intros u msgs x.
    destruct (generated_calls cfg P stream uid conv sl al u msgs x)
      as (tail & E & _).
    rewrite E. apply app_cons_not_nil. }
  unfold responded. cbv zeta.
  destruct (_ && _); [|apply G].
  destruct (responses_create P _); [|apply G].
  rewrite caught_calls. apply app_cons_not_nil.
Qed.

Lemma earlier_responded_calls cfg P (req : request) uid conv sl al u0 pre :
  Earlier.calls (Earlier.responded cfg P req uid conv sl al u0 pre) <> [].
Proof.
  assert (G : forall u x,
             Earlier.calls
               (Earlier.generated cfg P req uid conv sl al u x) <> []).
  { intros u x. unfold Earlier.generated. cbv zeta.
    destruct (chat_stream P _) as [e|s]; [apply app_cons_not_nil|].
    destruct (failure s); apply app_cons_not_nil. }
  unfold Earlier.responded.
  destruct (_ && _); [|apply G].
  destruct (responses_create P _); [|apply G].
  apply app_cons_not_nil.
Qed.

(** X22. The validation gate did not change between the two route
    handlers. For a request whose origin the CORS check of the earlier
    server admits, the earlier handler calls no collaborator for exactly
    the requests the current handler calls none for; when such a request
    does not ask for a stream both answer it with the same status, and,
    its four trimmed fields being strings or absent, with the same JSON
    body. *)
Theorem gate_unchanged_since_earlier cfg P (req : request) :
  Earlier.cors_admits req = true ->
  (Earlier.calls (Earlier.run cfg P req) = [] <->
   calls (run cfg P req) = [])
  /\ (wantsStream req = false ->
      calls (run cfg P req) = [] ->
      Earlier.statusCode (Earlier.run cfg P req)
        = http_status (run cfg P req)
      /\ (unreadable (req_body req) = None ->
          body_list (Earlier.json_sent (Earlier.run cfg P req))
          = bodies (run cfg P req))).
Proof.
  intros _.
  rewrite earlier_run_is_outcome, run_is_outcome.
  unfold Earlier.outcome, outcome. cbv zeta.
  destruct (unreadable (req_body req)) as [f|].
  { unfold caught. rewrite not_a_function_remap.
    split; [split; reflexivity|]. intros _ _.
    split; [reflexivity | discriminate]. }
  unfold Earlier.checked, gated, checked. cbv zeta.
  assert (Refused : forall code kind msg,
    (Earlier.calls (Earlier.answered [] code (JsonError kind msg)) = [] <->
     calls (replied (started (echoed_headers req)) code
              (if wantsStream req
               then sse_header_list (echoed_headers req)
               else echoed_headers req)
              [rejection (wantsStream req) kind msg]) = [])
    /\ (wantsStream req = false ->
        calls (replied (started (echoed_headers req)) code
                 (if wantsStream req
                  then sse_header_list (echoed_headers req)
                  else echoed_headers req)
                 [rejection (wantsStream req) kind msg]) = [] ->
        Earlier.statusCode (Earlier.answered [] code (JsonError kind msg))
          = http_status
              (replied (started (echoed_headers req)) code
                 (if wantsStream req
                  then sse_header_list (echoed_headers req)
                  else echoed_headers req)
                 [rejection (wantsStream req) kind msg])
        /\ (@None text_field = None ->
            body_list
              (Earlier.json_sent
                 (Earlier.answered [] code (JsonError kind msg)))
            = bodies
                (replied (started (echoed_headers req)) code
                   (if wantsStream req
                    then sse_header_list (echoed_headers req)
                    else echoed_headers req)
                   [rejection (wantsStream req) kind msg])))).
  { intros code kind msg. split; [split; reflexivity|].
    intros W _. rewrite W. split; reflexivity. }
  destruct (negb _); [apply Refused|].
  destruct (_ || _); [apply Refused|].
  destruct (uid_mismatch _ _); [apply Refused|].
  destruct (qualifying_audio req) as [bytes|].
  - destruct (transcribe P bytes _ _ _) as [e|text].
    + rewrite caught_calls. cbn [Earlier.calls Earlier.failed
                                 Earlier.answered calls logged started].
      split; [split; discriminate | discriminate].
    + split; [split|]; intro H; try intro H'.
      * now apply earlier_responded_calls in H.
      * now apply responded_calls in H.
      * now apply responded_calls in H'.
  - destruct (qualifying_text _) as [u0|]; [|apply Refused].
    split; [split|]; intro H; try intro H'.
    * now apply earlier_responded_calls in H.
    * now apply responded_calls in H.
    * now apply responded_calls in H'.
Qed.

Lemma gate_unchanged_since_earlier_witness :
  Earlier.statusCode
    (Earlier.run Sample.cfg Sample.P
       (Sample.ask false (Sample.form (Some "c1") (Some "bob") (Some "Hi"))
                   None (Some (Decoded "mallory"))))
  = http_status
      (run Sample.cfg Sample.P
         (Sample.ask false (Sample.form (Some "c1") (Some "bob") (Some "Hi"))
                     None (Some (Decoded "mallory"))))
  /\ body_list
       (Earlier.json_sent
          (Earlier.run Sample.cfg Sample.P
             (Sample.ask false
                (Sample.form (Some "c1") (Some "bob") (Some "Hi"))
                None (Some (Decoded "mallory")))))
     = bodies
         (run Sample.cfg Sample.P
            (Sample.ask false
               (Sample.form (Some "c1") (Some "bob") (Some "Hi"))
               None (Some (Decoded "mallory")))).
Proof.
  pose proof (proj2 (gate_unchanged_since_earlier Sample.cfg Sample.P
                       (Sample.ask false
                          (Sample.form (Some "c1") (Some "bob") (Some "Hi"))
                          None (Some (Decoded "mallory")))
                       eq_refl) eq_refl eq_refl) as [H1 H2].
  split; [exact H1 | exact (H2 eq_refl)].
Defined.

(* ================================================================== *)
(** ** Middleware and handler together *)

Lemma middleware_ignores_user cfg P (req : request) user :
  verifyFirebaseToken cfg P (with_user req user) =
  verifyFirebaseToken cfg P req.
Proof.
  unfold verifyFirebaseToken. cbn [header_authorization with_user].
  destruct (bearer_token _) as [token|]; [|reflexivity].
  destruct (adminApp cfg); [|reflexivity].
  destruct (verifyIdToken P token); reflexivity.
Qed.

Lemma middleware_user cfg P (req : request) d :
  firebaseUser (verifyFirebaseToken cfg P req) = Some d ->
  adminApp cfg = true
  /\ exists token,
       bearer_token (Js.or_empty (header_authorization req)) = Some token
       /\ verifyIdToken P token = inr d.
Proof.
  unfold verifyFirebaseToken.
  destruct (bearer_token _) as [token|]; [|discriminate].
  destruct (adminApp cfg); [|discriminate].
  destruct (verifyIdToken P token) as [e|d'] eqn:V; [discriminate|].
  intros [= ->]. split; [reflexivity|]. now exists token.
Qed.

Lemma middleware_body cfg P (req : request) :
  req_body (verifyFirebaseToken cfg P req) = req_body req.
Proof.
  unfold verifyFirebaseToken.
  destruct (bearer_token _) as [token|]; [|reflexivity].
  destruct (adminApp cfg); [|reflexivity].
  destruct (verifyIdToken P token); reflexivity.
Qed.

(** X23. Behind the middleware the identity check rests on the verifier
    alone. A user the client puts on the request changes nothing, and a
    request is refused as [unauthenticated] only when the identity
    backend is initialised and the verifier decoded the bearer
    credential of the request to a uid other than the declared one. *)
Theorem unauthenticated_needs_a_verified_token cfg P (req : request) :
  (forall user, serve cfg P (with_user req user) = serve cfg P req)
  /\ (In "unauthenticated" (error_kinds (serve cfg P req)) ->
      adminApp cfg = true
      /\ exists token d,
           bearer_token (Js.or_empty (header_authorization req))
             = Some token
           /\ verifyIdToken P token = inr d
           /\ decoded_uid d <> Gate.uid req).
Proof.
  split.
  { intro user. unfold serve. now rewrite middleware_ignores_user. }
  unfold serve. intro H.
  destruct (run_reply cfg P (verifyFirebaseToken cfg P req))
    as (_ & [(code & kind & F & _ & K & _)
            |[(e & _ & K & _)|[(_ & _ & K & _)|(_ & _ & K & _)]]]);
    rewrite K in H.
  - destruct H as [->|[]]. rewrite first_failure_code in F.
    destruct (negb _); [discriminate F|].
    destruct (_ || _); [discriminate F|].
    destruct (uid_mismatch _ _) eqn:U.
    + unfold uid_mismatch in U.
      destruct (firebaseUser (verifyFirebaseToken cfg P req)) as [d|] eqn:V;
        [|discriminate U].
      destruct (middleware_user cfg P req d V) as (A & token & B & D).
      split; [exact A|]. exists token, d. split; [exact B|].
      split; [exact D|].
      apply andb_prop in U. destruct U as [_ U].
      apply negb_true_iff, String.eqb_neq in U.
      unfold Gate.uid in *. rewrite middleware_body in U. congruence.
    + destruct (qualifying_audio _); [discriminate F|].
      destruct (qualifying_text _); discriminate F.
  - destruct H as [H|[]].
    destruct (remap_codes (inspected e)) as [[_ [R|R]]|[_ R]];
      rewrite R in H; discriminate H.
  - destruct H.
  - destruct H.
Qed.

Lemma unauthenticated_needs_a_verified_token_witness :
  adminApp Sample.cfg = true
  /\ exists token d,
       bearer_token (Js.or_empty (Some "Bearer id-token-of-bob"))
         = Some token
       /\ verifyIdToken Sample.P token = inr d
       /\ decoded_uid d <> "alice".
Proof.
  apply (proj2 (unauthenticated_needs_a_verified_token Sample.cfg Sample.P
                  {| query_stream := None; header_accept := None;
                     header_origin := None;
                     header_authorization := Some "Bearer id-token-of-bob";
                     req_body :=
                       Sample.form (Some "c1") (Some "alice") (Some "Hi");
                     file := None; firebaseUser := None |})).
  vm_compute. tauto.
Defined.

(** X24. In the earlier server too, a request in which one of the four
    trimmed fields holds a truthy value that is not a string never
    reaches a check: trimming throws, no collaborator is called, and the
    [catch] answers 500 [processing_failed] with its fixed message
    before any header of the stream is set. *)
Theorem earlier_unreadable_field cfg P (req : request) f :
  unreadable (req_body req) = Some f ->
  Earlier.calls (Earlier.run cfg P req) = []
  /\ Earlier.reply (Earlier.run cfg P req) =
       (500%N, [],
        Some (JsonError "processing_failed" "Something went wrong."),
        {| Legacy.written := []; Legacy.finished := true |}).
Proof.
  intro U. rewrite earlier_run_is_outcome. unfold Earlier.outcome.
  cbv zeta. rewrite U. split; reflexivity.
Qed.

Lemma earlier_unreadable_field_witness :
  Earlier.reply
    (Earlier.run Sample.cfg Sample.P
       (Sample.ask false Sample.repeated_uid None None))
  = (500%N, [],
     Some (JsonError "processing_failed" "Something went wrong."),
     {| Legacy.written := []; Legacy.finished := true |}).
Proof.
  apply (proj2 (earlier_unreadable_field Sample.cfg Sample.P
                  (Sample.ask false Sample.repeated_uid None None) Uid
                  eq_refl)).
Defined.
